(** * A shallow embedding of the job-processing worker (worker.py), of the
    challenge guard of the portal client (dvsa_client.py) and of the
    endpoints of the gateway (api_gateway.py) that the worker and the
    payment flow go through.

    Conventions of the model:
    - Instants are [Z] seconds since the epoch.  The state database stores
      them as text ([isoformat]) and reads them back with [fromisoformat];
      [iso_of] and [parse_iso] below play those two roles.  Only two facts
      of the real codec are used by the code: a written instant reads back
      as itself, and some texts do not parse.
    - The sqlite tables are finite maps (stdpp [gmap]).
    - The coroutines of one job pass run serially (HONOUR_CLIENT_RPS=true,
      the default: [effective_parallel = 1]), so a pass is a sequential
      program in a reader/state/exception monad. *)

From Stdlib Require Import ZArith Ascii String List Bool Lia.
From stdpp Require Import base gmap strings list.
Import ListNotations.

Set Warnings "-register-all".

Open Scope Z_scope.

(* ================================================================== *)
(** ** Python string helpers on ASCII text *)
(* ================================================================== *)

Module Py.

Definition lower_char (a : ascii) : ascii :=
  let n := nat_of_ascii a in
  if (65 <=? n)%nat && (n <=? 90)%nat then ascii_of_nat (n + 32) else a.

(** [s.lower()] *)
Fixpoint lower (s : string) : string :=
  match s with
  | EmptyString => EmptyString
  | String a r => String (lower_char a) (lower r)
  end.

(** [s.startswith(p)] *)
Definition startswith (s p : string) : bool := String.prefix p s.

(** [k in s] for strings *)
Fixpoint contains (s k : string) : bool :=
  String.prefix k s ||
  match s with
  | EmptyString => false
  | String _ r => contains r k
  end.

Fixpoint lstrip (s : string) : string :=
  match s with
  | EmptyString => EmptyString
  | String a r => if Ascii.is_space a then lstrip r else s
  end.

(** [s.strip()] *)
Definition strip (s : string) : string :=
  String.rev (lstrip (String.rev (lstrip s))).

(** [s.split()] (no argument: runs of white space separate words) *)
Definition split_ws (s : string) : list string := String.words s.

(** [" ".join(xs)] *)
Fixpoint join_sp (xs : list string) : string :=
  match xs with
  | [] => EmptyString
  | [x] => x
  | x :: r => String.append x (String " " (join_sp r))
  end.

(** [s.split("\n")[0]] *)
Fixpoint first_line (s : string) : string :=
  match s with
  | EmptyString => EmptyString
  | String a r => if Ascii.eqb a "010"%char then EmptyString else String a (first_line r)
  end.

(** [s[:n]] *)
Fixpoint take_str (n : nat) (s : string) : string :=
  match n, s with
  | O, _ => EmptyString
  | _, EmptyString => EmptyString
  | S m, String a r => String a (take_str m r)
  end.

(** Decimal rendering of a natural number, for the f-strings of the code. *)
Fixpoint digits_aux (fuel : nat) (n : nat) (acc : string) : string :=
  match fuel with
  | O => acc
  | S f =>
      let d := ascii_of_nat (48 + Nat.modulo n 10) in
      let q := Nat.div n 10 in
      if (q =? 0)%nat then String d acc else digits_aux f q (String d acc)
  end.
Definition str_nat (n : nat) : string := digits_aux (S n) n EmptyString.
Definition str_Z (z : Z) : string :=
  if z <? 0 then String "-" (str_nat (Z.to_nat (- z))) else str_nat (Z.to_nat z).

End Py.

(* ================================================================== *)
(** ** Stored instants *)
(* ================================================================== *)

Module Iso.

Fixpoint bits (p : positive) : string :=
  match p with
  | xH => "#"
  | xO q => String "0" (bits q)
  | xI q => String "1" (bits q)
  end.

Fixpoint unbits (s : string) : option positive :=
  match s with
  | String "#" EmptyString => Some xH
  | String "0" r => xO <$> unbits r
  | String "1" r => xI <$> unbits r
  | _ => None
  end%char.

(** [datetime.isoformat()] of an instant *)
Definition iso_of (t : Z) : string :=
  match t with
  | Z0 => "0"
  | Zpos p => String "+" (bits p)
  | Zneg p => String "-" (bits p)
  end.

(** [datetime.fromisoformat(s)]; [None] where Python raises *)
Definition parse_iso (s : string) : option Z :=
  match s with
  | String "0" EmptyString => Some Z0
  | String "+" r => Zpos <$> unbits r
  | String "-" r => Zneg <$> unbits r
  | _ => None
  end%char.

End Iso.

(* ================================================================== *)
(** ** The circuit breaker: table [centre_health] *)
(* ================================================================== *)

Module Health.

Record health_row := mk_row {
  fail_count : Z;
  cooldown_until : option string   (* NULL is [None] *)
}.

Abbreviation table := (gmap string health_row).

(** Result of one [SELECT] on the state database: sqlite may raise
    (locked database, unreadable file, ...) or return at most one row. *)
Inductive query (A : Type) :=
| QErr (msg : string)
| QRow (row : option A).
Arguments QErr {A} msg.
Arguments QRow {A} row.

Inductive res (A : Type) :=
| Ok (a : A)
| Raise (exn : string).
Arguments Ok {A} a.
Arguments Raise {A} exn.

(** [SELECT cooldown_until FROM centre_health WHERE centre=?] on a reachable
    database; a failing query is the [QErr] case of [centre_allowed_q] and
    [global_allowed_q]. *)
Definition select (h : table) (centre : string) : query health_row :=
  QRow (h !! centre).

Definition GLOBAL_KEY : string := "*global*".

(** [centre_fail(centre)]: the [INSERT ... ON CONFLICT DO UPDATE] statement. *)
Definition centre_fail (F C now : Z) (centre : string) (h : table) : table :=
  let new_until := Iso.iso_of (now + C) in
  match h !! centre with
  | None => <[centre := mk_row 1 None]> h
  | Some r =>
      if bool_decide (F <= fail_count r + 1)
      then <[centre := mk_row 0 (Some new_until)]> h
      else <[centre := mk_row (fail_count r + 1) (cooldown_until r)]> h
  end.

(** The body of [centre_allowed] / [global_allowed] after the row was read:
    [if not row or not row["cooldown_until"]: return True], then the parse
    inside [try ... except Exception: return True]. *)
Definition allowed_row (now : Z) (row : option health_row) : bool :=
  match row with
  | None => true
  | Some r =>
      match cooldown_until r with
      | None => true
      | Some s =>
          if String.eqb s "" then true
          else match Iso.parse_iso s with
               | None => true
               | Some until => bool_decide (until <= now)
               end
      end
  end.

(** [centre_allowed(centre)] given the outcome of its [SELECT]: a failing
    query is outside the [try] and propagates to the caller. *)
Definition centre_allowed_q (now : Z) (q : query health_row) : res bool :=
  match q with
  | QErr m => Raise m
  | QRow row => Ok (allowed_row now row)
  end.

Definition centre_allowed (now : Z) (centre : string) (h : table) : res bool :=
  centre_allowed_q now (select h centre).

(** [global_cooldown(extra_min)] *)
Definition global_cooldown (now extra_min : Z) (h : table) : table :=
  let until := Iso.iso_of (now + 60 * Z.max 1 extra_min) in
  match h !! GLOBAL_KEY with
  | None => <[GLOBAL_KEY := mk_row 0 (Some until)]> h
  | Some r => <[GLOBAL_KEY := mk_row (fail_count r) (Some until)]> h
  end.

(** [global_allowed()] given the outcome of its [SELECT] *)
Definition global_allowed_q (now : Z) (q : query health_row) : res bool :=
  match q with
  | QErr m => Raise m
  | QRow row => Ok (allowed_row now row)
  end.

Definition global_allowed (now : Z) (h : table) : res bool :=
  global_allowed_q now (select h GLOBAL_KEY).

(** [n] consecutive [centre_fail] calls at the instants [ts]. *)
Fixpoint fail_at (F C : Z) (centre : string) (ts : list Z) (h : table) : table :=
  match ts with
  | [] => h
  | t :: r => fail_at F C centre r (centre_fail F C t centre h)
  end.

End Health.

(* ================================================================== *)
(** ** The portal client's challenge guard (dvsa_client.py) *)
(* ================================================================== *)

Module Client.

(** The exception classes of the client: [DVSAError] and its subclass
    [CaptchaDetected]; there is no other signal class. *)
Inductive client_exn :=
| DVSAError (msg : string)
| CaptchaDetected (url : string).

(** The marker list of [_captcha_guard]. *)
Definition indicators : list string :=
  ["recaptcha"; "hcaptcha"; "turnstile";
   "not a robot"; "unusual traffic"; "additional security check";
   "enter the characters"; "are you human";
   "verify you are human"; "security challenge"; "captcha"]%string.

(** [_captcha_guard(where)] on the page text [html] at [url]: [None] when
    the guard returns normally, the exception it raises otherwise (the
    screenshot and the breadcrumb it posts first are best effort and
    swallow their errors). *)
Definition captcha_guard (html url : string) : option client_exn :=
  let h := Py.lower html in
  if existsb (Py.contains h) indicators then Some (CaptchaDetected url) else None.

End Client.

(* ================================================================== *)
(** ** The worker *)
(* ================================================================== *)

Module Worker.

Import Health.

(** Values produced by [json.loads]. *)
Inductive jval :=
| JNull
| JBool (b : bool)
| JNum (z : Z)
| JStr (s : string)
| JList (xs : list jval)
| JObj (kvs : list (string * jval)).

(** A claimed job record ([row]).  A text field holds [""] where the
    dict has no value: every read of such a field in worker.py is
    [row.get(k) or ...], which does not tell the two apart.
    [centres_json] is [safe_json_loads(row.get("centres_json"), [])]
    before the default: [None] for a missing, empty or undecodable text.
    [auto_book] is the truth value of [options.get("auto_book", False)]. *)
Record job := mk_job {
  id : Z;
  status : string;
  updated_at : string;
  created_at : string;
  booking_type : string;
  licence_number : string;
  booking_reference : string;
  last_event : string;
  centres_json : option jval;
  auto_book : bool
}.

(** One session of the portal client for a centre: login, then
    [search_centre_slots]; it returns the slots or raises. *)
Inductive portal_outcome :=
| OSlots (slots : list string)
| OCaptcha                       (* the client raised CaptchaDetected *)
| OError (msg : string).         (* any other exception, by its text *)

(** One [login_swap] + [swap_to] session of [dvsa_swap_to_slot]. *)
Inductive swap_outcome :=
| SwapDone (ok : bool)
| SwapCaptcha
| SwapError.

(** Configuration, the control snapshot [CTRL] / [CURRENT_PRIORITY_CENTRES],
    the clock and the outside world (portal, random draws). *)
Record Env := mk_env {
  CB_FAILS_THRESHOLD : Z;
  CB_COOLDOWN_SEC : Z;
  CAPTCHA_COOLDOWN_MIN : Z;
  STALE_MINUTES : Z;
  AUTOBOOK_ENABLED : bool;
  AUTOBOOK_MODE : string;
  pause_all : bool;
  CURRENT_PRIORITY_CENTRES : list string;
  now : Z;
  portal : Z -> string -> nat -> portal_outcome;   (* job id, centre, attempt *)
  swap_portal : Z -> string -> swap_outcome;       (* job id, slot *)
  sim_draw : Z -> string -> bool;   (* random() < AUTOBOOK_SIM_SUCCESS_RATE *)
  shuffle : Z -> list string -> list string;  (* random.Random(seed).shuffle *)
  POLL_SEC : Z;
  CONCURRENCY : Z
}.

(** Breadcrumbs of [post_event_api], by their f-string. *)
Inductive event :=
| EvTrying (c : string)          (* f"trying:{c}" *)
| EvPaused                       (* "paused:global" *)
| EvCooldownSkip (c : string)    (* f"cooldown_skip:{centre}" *)
| EvChecked (c : string) (n : nat)  (* f"checked:{centre} ({len(slots)} slots)" *)
| EvCaptcha (c : string)         (* f"captcha_cooldown:{centre}" *)
| EvLayout (c : string).         (* f"layout_issue:{centre}" *)

(** The [event] argument of [set_status_api]. *)
Inductive sevent :=
| SPaused                        (* "paused:global" *)
| SStale (m : Z)                 (* f"stale_skipped:>{STALE_MINUTES}m" *)
| SMissing (reason : string)     (* _missing_required_fields *)
| SCaptcha (c : string)          (* f"captcha_cooldown:{last_checked or ''}" *)
| SNoSlots (c : string)          (* f"no_slots_this_round:{...}" *)
| SUnchanged (c : string)        (* f"slot_unchanged:{...}" *)
| SBooked (slot : string)        (* f"booked:{found_slot}" *)
| SBookingFailed (slot : string) (* f"booking_failed:{found_slot}" *)
| SFound (slot : string).        (* f"slot_found:{found_slot}" *)

Definition render_event (e : event) : string :=
  match e with
  | EvTrying c => "trying:" ++ c
  | EvPaused => "paused:global"
  | EvCooldownSkip c => "cooldown_skip:" ++ c
  | EvChecked c n => "checked:" ++ c ++ " (" ++ Py.str_nat n ++ " slots)"
  | EvCaptcha c => "captcha_cooldown:" ++ c
  | EvLayout c => "layout_issue:" ++ c
  end%string.

Definition render_sevent (e : sevent) : string :=
  match e with
  | SPaused => "paused:global"
  | SStale m => "stale_skipped:>" ++ Py.str_Z m ++ "m"
  | SMissing r => r
  | SCaptcha c => "captcha_cooldown:" ++ c
  | SNoSlots c => "no_slots_this_round:" ++ c
  | SUnchanged c => "slot_unchanged:" ++ c
  | SBooked s => "booked:" ++ s
  | SBookingFailed s => "booking_failed:" ++ s
  | SFound s => "slot_found:" ++ s
  end%string.

(** Observable effects, in the order they happen. *)
Inductive effect :=
| Event (sid : Z) (e : event)                 (* post_event_api *)
| Status (sid : Z) (st : string) (e : sevent) (* set_status_api *)
| Session (sid : Z) (centre : string) (attempt : nat)  (* portal session *)
| Alert (ident : string) (centre : string)    (* send_captcha_alert sends *)
| OwnerMsg (sid : Z) (st : string)            (* wa_owner of set_status_api *)
| AutoBook (sid : Z) (slot : string)          (* auto-book attempt starts *)
| Monitor (sid : Z) (slot : string)           (* assist_window_monitor task *)
| Claim (limit : Z)                           (* claim_candidates_api *)
| Sleep (ms : Z)                              (* asyncio.sleep, milliseconds *)
| Log (msg : string).

(** Process state: the two sqlite tables, the in-memory maps
    [CAPTCHA_ALERT_SENT] and [_status_cache], and the effects so far. *)
Record St := mk_st {
  health : gmap string health_row;      (* centre_health *)
  sigs : gmap Z string;                 (* search_state.last_slot_sig *)
  alerts : gmap string Z;               (* CAPTCHA_ALERT_SENT *)
  cache : gmap Z (string * string);     (* _status_cache *)
  trace : list effect
}.

(** Python exceptions that cross a call boundary of the model. *)
Inductive exn :=
| ECaptcha                  (* CaptchaDetected *)
| EPy (msg : string).       (* any other exception *)

Inductive result (A : Type) :=
| Ok (a : A)
| Err (e : exn).
Arguments Ok {A} a.
Arguments Err {A} e.

(** Reader (environment) + state + exception monad; the state reached
    when an exception is raised is kept, as in Python. *)
Definition M (A : Type) : Type := Env -> St -> St * result A.

Global Instance M_ret : MRet M := fun A a _ s => (s, Ok a).
Global Instance M_bind : MBind M := fun A B f m env s =>
  match m env s with
  | (s', Ok a) => f a env s'
  | (s', Err e) => (s', Err e)
  end.

Definition throw {A} (e : exn) : M A := fun _ s => (s, Err e).

Definition ask : M Env := fun env s => (s, Ok env).
Definition get : M St := fun _ s => (s, Ok s).

Definition emit (e : effect) : M unit :=
  fun _ s => (mk_st (health s) (sigs s) (alerts s) (cache s) (trace s ++ [e]), Ok tt).

Definition set_health (h : gmap string health_row) : M unit :=
  fun _ s => (mk_st h (sigs s) (alerts s) (cache s) (trace s), Ok tt).
Definition set_sigs (g : gmap Z string) : M unit :=
  fun _ s => (mk_st (health s) g (alerts s) (cache s) (trace s), Ok tt).
Definition set_alerts (a : gmap string Z) : M unit :=
  fun _ s => (mk_st (health s) (sigs s) a (cache s) (trace s), Ok tt).
Definition set_cache (c : gmap Z (string * string)) : M unit :=
  fun _ s => (mk_st (health s) (sigs s) (alerts s) c (trace s), Ok tt).

(** [try m except CaptchaDetected: ...]: only the captcha is caught. *)
Definition catch_captcha {A} (m : M A) (h : M A) : M A := fun env s =>
  match m env s with
  | (s', Err ECaptcha) => h env s'
  | r => r
  end.


(** A [Health.res] value raised as a Python exception. *)
Definition lift_res {A} (r : Health.res A) : M A :=
  match r with
  | Health.Ok a => mret a
  | Health.Raise m => throw (EPy m)
  end.

(** *** Pure helpers of worker.py *)

Definition is_digit (a : ascii) : bool :=
  let n := nat_of_ascii a in (48 <=? n)%nat && (n <=? 57)%nat.

Fixpoint all_digits (s : string) : bool :=
  match s with
  | EmptyString => true
  | String a r => is_digit a && all_digits r
  end.

(** [str.isdigit()]: non-empty and all digits *)
Definition isdigit (s : string) : bool :=
  negb (String.eqb s "") && all_digits s.

(** [_missing_required_fields(row)] *)
Definition missing_required_fields (row : job) : option string :=
  let bt := Py.strip (booking_type row) in
  let licence := Py.strip (licence_number row) in
  let ref := Py.strip (booking_reference row) in
  if String.eqb licence "" then Some "missing_licence_number"%string
  else if String.eqb bt "swap" then
    if (String.length ref =? 8)%nat && isdigit ref then None
    else Some "missing_or_bad_booking_reference"%string
  else None.

(** [f"job{row['id']}"] *)
Definition job_tag (row : job) : string := "job" ++ Py.str_Z (id row).

(** [x or y] on texts *)
Definition or_str (x y : string) : string := if String.eqb x "" then y else x.

(** [session_base(row)]: the credential identity of a job. *)
Definition session_base (row : job) : string :=
  if String.eqb (Py.strip (booking_type row)) "swap"
  then Py.strip (or_str (booking_reference row) (job_tag row))
  else Py.strip (or_str (licence_number row) (job_tag row)).

(** [_parse_iso(ts)] *)
Definition parse_ts (ts : string) : option Z :=
  if String.eqb ts "" then None else Iso.parse_iso ts.

(** [_is_stale(created_ts, minutes)] at instant [now] *)
Definition is_stale (now : Z) (ts : string) (minutes : Z) : bool :=
  match parse_ts ts with
  | None => false
  | Some dt => bool_decide (minutes * 60 < now - dt)
  end.

(** [_human(e)]: first line of [str(e).strip()], at most 220 characters *)
Definition human (msg : string) : string :=
  Py.take_str 220 (Py.first_line (Py.strip msg)).

Definition layout_keys : list string :=
  ["timeout"; "not found"; "selector"; "locator";
   "no node found for selector"; "failed to find"]%string.

(** Truth value of a JSON value ([c or ""]). *)
Definition jtruthy (v : jval) : bool :=
  match v with
  | JNull => false
  | JBool b => b
  | JNum z => negb (Z.eqb z 0)
  | JStr s => negb (String.eqb s "")
  | JList xs => negb (Nat.eqb (length xs) 0)
  | JObj kvs => negb (Nat.eqb (length kvs) 0)
  end.

Fixpoint chars (s : string) : list jval :=
  match s with
  | EmptyString => []
  | String a r => JStr (String a EmptyString) :: chars r
  end.

(** [for c in value]: lists, strings and dicts iterate, the rest raise. *)
Definition iter_json (v : jval) : result (list jval) :=
  match v with
  | JList xs => Ok xs
  | JStr s => Ok (chars s)
  | JObj kvs => Ok (map (fun kv => JStr (fst kv)) kvs)
  | JNull => Err (EPy "TypeError: 'NoneType' object is not iterable")
  | JBool _ => Err (EPy "TypeError: 'bool' object is not iterable")
  | JNum _ => Err (EPy "TypeError: 'int' object is not iterable")
  end.

(** [(c or "").strip()] *)
Definition strip_or_empty (c : jval) : result string :=
  if negb (jtruthy c) then Ok ""%string
  else match c with
       | JStr s => Ok (Py.strip s)
       | _ => Err (EPy "AttributeError: object has no attribute 'strip'")
       end.

Definition drop_prefixes : list string := ["london"; "city"; "borough"]%string.

(** The loop body of [normalize_centres] for one item. *)
Definition normalize_one (c : jval) : result (option string) :=
  match strip_or_empty c with
  | Err e => Err e
  | Ok c0 =>
      if String.eqb c0 "" then Ok None
      else
        let parts := Py.split_ws c0 in
        match parts with
        | p0 :: (_ :: _) as rest =>
            if existsb (String.eqb (Py.lower p0)) drop_prefixes
            then Ok (Some (Py.join_sp rest)) else Ok (Some c0)
        | _ => Ok (Some c0)
        end
  end.

Fixpoint normalize_list (cs : list jval) : result (list string) :=
  match cs with
  | [] => Ok []
  | c :: r =>
      match normalize_one c with
      | Err e => Err e
      | Ok o =>
          match normalize_list r with
          | Err e => Err e
          | Ok l => Ok (match o with Some x => x :: l | None => l end)
          end
      end
  end.

(** [normalize_centres(safe_json_loads(row.get("centres_json"), []))] *)
Definition normalize_centres (v : option jval) : result (list string) :=
  match iter_json (default (JList []) v) with
  | Err e => Err e
  | Ok cs => normalize_list cs
  end.

(** The priority split: [any(cname.startswith(p) for p in prio)]. *)
Definition is_priority (prio : list string) (c : string) : bool :=
  existsb (Py.startswith (Py.lower c)) prio.

Definition high_of (prio cs : list string) : list string := filter (is_priority prio) cs.
Definition low_of (prio cs : list string) : list string :=
  filter (fun c => negb (is_priority prio c)) cs.

Definition lift {A} (r : result A) : M A :=
  match r with Ok a => mret a | Err e => throw e end.

(** *** API bridge, notifications and the circuit breaker in the monad *)

(** [post_event_api]: its errors are swallowed. *)
Definition post_event_api (sid : Z) (e : event) : M unit := emit (Event sid e).

(** [set_status_api(job, status, event)] when its [_api_post] goes
    through.  The status POST that fails six times, after which [_api_post]
    raises (see [Util.api_post]), is outside this model of [process_job]. *)
Definition set_status_api (row : job) (st : string) (e : sevent) : M unit :=
  emit (Status (id row) st e) ;;
  s ← get;
  set_cache (<[id row := (st, render_sevent e)]> (cache s)) ;;
  if String.eqb (booking_type row) "new"
     && existsb (String.eqb st) ["found"; "booked"; "failed"]%string
  then emit (OwnerMsg (id row) st)
  else mret tt.

Definition modify_health (f : gmap string health_row -> gmap string health_row) : M unit :=
  s ← get; set_health (f (health s)).

(** [send_captcha_alert(row, centre)]: debounced 10 minutes per identity;
    [CAPTCHA_ALERT_SENT.get(ident, 0.0)]. *)
Definition send_captcha_alert (row : job) (centre : string) : M unit :=
  env ← ask;
  s ← get;
  let ident := session_base row in
  let last := default 0 (alerts s !! ident) in
  if bool_decide (now env - last < 600) then mret tt
  else set_alerts (<[ident := now env]> (alerts s)) ;; emit (Alert ident centre).

(** [resume_override = (last_event == "resume_now")] from [_status_cache]. *)
Definition resume_override (row : job) : M bool :=
  s ← get;
  mret (match cache s !! id row with
        | Some (_, ev) => String.eqb ev "resume_now"
        | None => false
        end).

(** *** [dvsa_check_centre] *)

(** The [for attempt in range(1, attempts + 1)] loop, from attempt [k] with
    [n] attempts left.  A portal session is one [async with DVSAClient]
    block; the breadcrumbs it posts on its way (login_start, login_ok and
    those of the client) are part of the portal step. *)
Fixpoint attempts_from (row : job) (c : string) (k n : nat) : M (list string) :=
  match n with
  | O => mret []
  | S n' =>
      env ← ask;
      emit (Session (id row) c k) ;;
      match portal env (id row) c k with
      | OSlots ss =>
          post_event_api (id row) (EvChecked c (length ss)) ;;
          mret ss
      | OCaptcha =>
          modify_health (centre_fail (CB_FAILS_THRESHOLD env) (CB_COOLDOWN_SEC env) (now env) c) ;;
          modify_health (global_cooldown (now env) (CAPTCHA_COOLDOWN_MIN env)) ;;
          send_captcha_alert row c ;;
          post_event_api (id row) (EvCaptcha c) ;;
          throw ECaptcha
      | OError msg =>
          let m := Py.lower (human msg) in
          (if existsb (Py.contains m) layout_keys
           then post_event_api (id row) (EvLayout c) else mret tt) ;;
          if (5 <=? k)%nat
          then modify_health (centre_fail (CB_FAILS_THRESHOLD env) (CB_COOLDOWN_SEC env) (now env) c) ;;
               mret []
          else emit (Sleep (500 * Z.of_nat k)) ;; attempts_from row c (S k) n'
      end
  end.

(** [not resume_override and not global_allowed()] *)
Definition skip_global (ro : bool) : M bool :=
  if ro then mret false
  else env ← ask; s ← get;
       b ← lift_res (global_allowed (now env) (health s)); mret (negb b).

(** [not resume_override and not centre_allowed(centre)] *)
Definition skip_centre (ro : bool) (c : string) : M bool :=
  if ro then mret false
  else env ← ask; s ← get;
       b ← lift_res (centre_allowed (now env) c (health s)); mret (negb b).

(** [dvsa_check_centre(client, centre, row)].  The token bucket is a no-op
    under HONOUR_CLIENT_RPS and the jitter sleep has no other effect. *)
Definition dvsa_check_centre (row : job) (c : string) : M (list string) :=
  env ← ask;
  ro ← resume_override row;
  if pause_all env
  then post_event_api (id row) EvPaused ;; emit (Sleep 50) ;; mret []
  else
    sg ← skip_global ro;
    if (sg : bool)
    then post_event_api (id row) (EvCooldownSkip GLOBAL_KEY) ;; emit (Sleep 50) ;; mret []
    else
      sc ← skip_centre ro c;
      if (sc : bool)
      then post_event_api (id row) (EvCooldownSkip c) ;; emit (Sleep 50) ;; mret []
      else if pause_all env
      then post_event_api (id row) EvPaused ;; mret []
      else attempts_from row c 1 5.

(** *** Auto-book *)

(** [dvsa_swap_to_slot(client, row, slot)] *)
Definition dvsa_swap_to_slot (row : job) (slot : string) : M bool :=
  env ← ask;
  match swap_portal env (id row) slot with
  | SwapDone ok => mret ok
  | SwapCaptcha => send_captcha_alert row "(during swap confirm)" ;; mret false
  | SwapError => mret false
  end.

(** [dvsa_book_and_pay(client, row, slot)] *)
Definition dvsa_book_and_pay (row : job) (slot : string) : M bool :=
  env ← ask;
  if String.eqb (AUTOBOOK_MODE env) "simulate"
  then mret (sim_draw env (id row) slot) else mret false.

(** *** [process_job] *)

(** The [nonlocal] variables of the pass. *)
Record pass := mk_pass {
  found_slot : option string;
  captcha_hit : bool;
  last_checked : option string
}.

Definition init_pass : pass := mk_pass None false None.

Definition is_some_str (o : option string) : bool :=
  match o with Some _ => true | None => false end.

(** Truth value of [found_slot] ([not found_slot] is its negation). *)
Definition truthy_opt (o : option string) : bool :=
  match o with Some x => negb (String.eqb x "") | None => false end.

(** [check_one(c)] *)
Definition check_one (row : job) (c : string) (ps : pass) : M pass :=
  env ← ask;
  if pause_all env then mret ps
  else if is_some_str (found_slot ps) || captcha_hit ps then mret ps
  else
    let ps1 := mk_pass (found_slot ps) (captcha_hit ps) (Some c) in
    post_event_api (id row) (EvTrying c) ;;
    r ← catch_captcha (ss ← dvsa_check_centre row c; mret (Some ss)) (mret None);
    match r with
    | None => mret (mk_pass (found_slot ps1) true (last_checked ps1))
    | Some ss =>
        match ss, found_slot ps1 with
        | s0 :: _, None => mret (mk_pass (Some s0) (captcha_hit ps1) (last_checked ps1))
        | _, _ => mret ps1
        end
    end.

(** The workers of [run_pass] behind [Semaphore(1)]: one after the other,
    in list order.  (When a check raises an exception other than the
    captcha, [gather] re-raises it at once; the checks still queued behind
    the semaphore are not modelled.) *)
Fixpoint check_all (row : job) (items : list string) (ps : pass) : M pass :=
  match items with
  | [] => mret ps
  | c :: r => ps' ← check_one row c ps; check_all row r ps'
  end.

(** [run_pass(items)] *)
Definition run_pass (row : job) (items : list string) (ps : pass) : M pass :=
  match items with
  | [] => mret ps
  | _ :: _ =>
      if is_some_str (found_slot ps) || captcha_hit ps then mret ps
      else check_all row items ps
  end.

(** The priority pass, then the remainder pass (shuffled with seed [sid]). *)
Definition scan (row : job) (centres : list string) : M pass :=
  env ← ask;
  let prio := CURRENT_PRIORITY_CENTRES env in
  let high := high_of prio centres in
  let low := shuffle env (id row) (low_of prio centres) in
  ps ← run_pass row high init_pass;
  if negb (truthy_opt (found_slot ps)) && negb (captcha_hit ps) && negb (pause_all env)
  then run_pass row low ps
  else mret ps.

(** The end of [process_job], after the passes. *)
Definition conclude (row : job) (ps : pass) : M unit :=
  env ← ask;
  let lc := default ""%string (last_checked ps) in
  if pause_all env then set_status_api row "queued" SPaused
  else if captcha_hit ps then set_status_api row "queued" (SCaptcha lc)
  else if negb (truthy_opt (found_slot ps)) then set_status_api row "queued" (SNoSlots lc)
  else
    let slot := default ""%string (found_slot ps) in
    s ← get;
    if bool_decide (sigs s !! id row = Some slot)
    then set_status_api row "queued" (SUnchanged lc)
    else
      set_sigs (<[id row := slot]> (sigs s)) ;;
      if AUTOBOOK_ENABLED env && auto_book row
      then
        emit (AutoBook (id row) slot) ;;
        ok ← (if String.eqb (booking_type row) "swap"
              then dvsa_swap_to_slot row slot else dvsa_book_and_pay row slot);
        if (ok : bool) then set_status_api row "booked" (SBooked slot)
        else set_status_api row "failed" (SBookingFailed slot)
      else
        set_status_api row "found" (SFound slot) ;;
        emit (Monitor (id row) slot).

(** [process_job(client, row)].  The identity lock has no effect in a
    serial run. *)
Definition process_job (row : job) : M unit :=
  env ← ask;
  if pause_all env
  then post_event_api (id row) EvPaused ;; set_status_api row "queued" SPaused
  else
    let status_now := Py.strip (status row) in
    if String.eqb status_now "searching"
       && is_stale (now env) (or_str (updated_at row) (created_at row)) (STALE_MINUTES env)
    then set_status_api row "queued" (SStale (STALE_MINUTES env))
    else
      match missing_required_fields row with
      | Some reason => set_status_api row "queued" (SMissing reason)
      | None =>
          cs ← lift (normalize_centres (centres_json row));
          let centres := match cs with [] => ["(no centre provided)"%string] | _ => cs end in
          ps ← scan row centres;
          conclude row ps
      end.

(** *** The main loop [run()] *)

(** [CTRL] and [CURRENT_PRIORITY_CENTRES] *)
Record Ctrl := mk_ctrl {
  ctrl_pause : bool;
  ctrl_priority : list string;
  current_priority : list string
}.



(** The controls update: [controls] is the response of [get_controls_api]
    ([None] for [{}], which it also returns when the GET fails). *)
Definition update_ctrl (c : Ctrl) (controls : option (bool * list string)) : Ctrl :=
  match controls with
  | None => c
  | Some (p, pr) =>
      let pr' := map (fun x => Py.lower (Py.strip x))
                     (filter (fun x => negb (String.eqb (Py.strip x) "")) pr) in
      mk_ctrl p pr' (match pr' with [] => current_priority c | _ => pr' end)
  end.


Definition seed_cache (jobs : list job) : M unit :=
  s ← get;
  set_cache (fold_left (fun m j => <[id j := (or_str (status j) "searching", last_event j)]> m)
                       jobs (cache s)).




End Worker.

(* ================================================================== *)
(** ** Concrete runs *)
(* ================================================================== *)

(** Inputs on which the statements below are instantiated. *)
Module Demo.
Import Health Worker.

(** The portal: no slot at Elgin, a challenge page at Aberdeen, one slot
    anywhere else. *)
Definition portal_mixed : Z -> string -> nat -> portal_outcome :=
  fun _ c _ =>
    if String.eqb c "Elgin" then OSlots []
    else if String.eqb c "Aberdeen" then OCaptcha
    else OSlots ["Slot1"%string].

(** The portal times out waiting for a locator on every attempt. *)
Definition portal_layout : Z -> string -> nat -> portal_outcome :=
  fun _ _ _ => OError "Timeout 30000ms exceeded waiting for locator".

Definition t0 : Z := 1000000.

(** The configuration: CB_FAILS_THRESHOLD=3, CB_COOLDOWN_SEC=600,
    CAPTCHA_COOLDOWN_MIN=30, STALE_MINUTES=5, priority prefix "elg",
    POLL_SEC=30, CONCURRENCY=8; the shuffle reverses the list. *)
Definition env_of (pause : bool) (p : Z -> string -> nat -> portal_outcome) : Env :=
  mk_env 3 600 30 5 false "simulate" pause ["elg"%string] t0 p
         (fun _ _ => SwapDone true) (fun _ _ => true) (fun _ l => rev l) 30 8.

Definition env_mixed : Env := env_of false portal_mixed.
Definition env_layout : Env := env_of false portal_layout.

Definition centres0 : jval :=
  JList [JStr "Elgin"; JStr "London Wood Green"; JStr "Aberdeen"].

Definition row0 : job :=
  mk_job 7 "searching" "" "" "new" "LIC123" "" "" (Some centres0) false.

(** A searching job last updated an hour before [t0]. *)
Definition row_stale : job :=
  mk_job 8 "searching" (Iso.iso_of (t0 - 3600)) "" "new" "LIC456" "" "" (Some centres0) false.


Definition st0 : St := mk_st ∅ ∅ ∅ ∅ [].


(** Elgin has already failed twice (the threshold is 3). *)
Definition st_worn : St := mk_st (<["Elgin"%string := mk_row 2 None]> ∅) ∅ ∅ ∅ [].

(** The stored signature of job 7 is [Slot1]. *)
Definition st_sig : St := mk_st ∅ (<[7 := "Slot1"%string]> ∅) ∅ ∅ [].

Definition ctrl0 : Ctrl := mk_ctrl false [] ["elg"%string].

Definition pass_found : pass := mk_pass (Some "Slot1"%string) false (Some "Wood Green"%string).

End Demo.

(* ================================================================== *)
(** ** Helpers of worker.py beyond the job pass *)
(* ================================================================== *)

Module Util.
Import Worker.

(** [s.split(c)] for a one-character separator [c] *)
Fixpoint split_on (c : ascii) (s : string) : list string :=
  match s with
  | EmptyString => [EmptyString]
  | String a r =>
      if Ascii.eqb a c then EmptyString :: split_on c r
      else match split_on c r with
           | x :: xs => String a x :: xs
           | [] => [String a EmptyString]
           end
  end.

(** [s.split(c, 1)]: [None] when [c] does not occur in [s] *)
Fixpoint split_once (c : ascii) (s : string) : option (string * string) :=
  match s with
  | EmptyString => None
  | String a r =>
      if Ascii.eqb a c then Some (EmptyString, r)
      else match split_once c r with
           | Some (x, y) => Some (String a x, y)
           | None => None
           end
  end.

Definition digit_val (a : ascii) : Z := Z.of_nat (nat_of_ascii a) - 48.

(** The characters of [int(s)] after its first digit: digits, each
    possibly preceded by one underscore. *)
Fixpoint int_tail (s : string) (acc : Z) : option Z :=
  match s with
  | EmptyString => Some acc
  | String a r =>
      if is_digit a then int_tail r (acc * 10 + digit_val a)
      else if Ascii.eqb a "_" then
        match r with
        | String d r' => if is_digit d then int_tail r' (acc * 10 + digit_val d) else None
        | EmptyString => None
        end
      else None
  end.

(** [int(s)] in base 10 on ASCII text; [None] where Python raises
    [ValueError]. *)
Definition py_int (s : string) : option Z :=
  let t := Py.strip s in
  let '(sg, body) :=
    match t with
    | String a r =>
        if Ascii.eqb a "-" then (-1, r) else if Ascii.eqb a "+" then (1, r) else (1, t)
    | EmptyString => (1, t)
    end in
  match body with
  | String d r => if is_digit d then (fun v => sg * v) <$> int_tail r (digit_val d) else None
  | EmptyString => None
  end.

(** One part of [_parse_quiet_hours]: [part.strip()], skipped when empty
    or without ["-"], else [(int(a), int(b))] of [part.split("-", 1)],
    skipped when an [int] raises. *)
Definition parse_part (part : string) : option (Z * Z) :=
  let p := Py.strip part in
  if String.eqb p "" || negb (Py.contains p "-") then None
  else match split_once "-" p with
       | Some (a, b) =>
           match py_int a, py_int b with
           | Some x, Some y => Some (x, y)
           | _, _ => None
           end
       | None => None
       end.

Fixpoint collect_parts (parts : list string) : list (Z * Z) :=
  match parts with
  | [] => []
  | p :: r =>
      match parse_part p with
      | Some w => w :: collect_parts r
      | None => collect_parts r
      end
  end.

(** [_parse_quiet_hours(spec)] *)
Definition parse_quiet_hours (spec : string) : list (Z * Z) :=
  collect_parts (split_on "," spec).

(** The test of one window [(s, e)] in [is_quiet_now] at hour [now_h]. *)
Definition window_quiet (now_h : Z) (w : Z * Z) : bool :=
  let '(s, e) := w in
  (s =? e) || ((s <? e) && (s <=? now_h) && (now_h <? e))
  || ((e <? s) && ((s <=? now_h) || (now_h <? e))).

(** [is_quiet_now()] with [QUIET_HOURS] (already stripped) at the UTC
    hour [now_h]. *)
Definition is_quiet_now (QUIET_HOURS : string) (now_h : Z) : bool :=
  if String.eqb QUIET_HOURS "" then false
  else existsb (window_quiet now_h) (parse_quiet_hours QUIET_HOURS).

(** The text [f"{a}-{b}"] of one window. *)
Definition fmt_window (w : nat * nat) : string :=
  (Py.str_nat (fst w) ++ "-" ++ Py.str_nat (snd w))%string.

(** [",".join(f"{a}-{b}" for a, b in ws)]: a [QUIET_HOURS] value. *)
Fixpoint quiet_spec (ws : list (nat * nat)) : string :=
  match ws with
  | [] => EmptyString
  | [w] => fmt_window w
  | w :: r => (fmt_window w ++ "," ++ quiet_spec r)%string
  end.

(** [s.rstrip()] *)
Definition rstrip (s : string) : string := String.rev (Py.lstrip (String.rev s)).

(** *** The retry loops of [_api_post] and [_api_get] *)

(** What the loops do between attempts: a log line for attempt [n], or a
    sleep.  [ApiSleep ms] is the fixed part of the sleep in milliseconds;
    [_api_post] adds [random.random() * 0.2] seconds on top of it. *)
Inductive api_ev :=
| ApiLog (attempt : nat)
| ApiSleep (ms : Z).

(** How a call ends: the JSON of a response, the [RuntimeError] of an
    empty [API_BASE], or [raise last_err]. *)
Inductive api_res (A E : Type) :=
| ApiOk (a : A)
| ApiNoBase
| ApiRaise (e : option E).
Arguments ApiOk {A E} a.
Arguments ApiNoBase {A E}.
Arguments ApiRaise {A E} e.

(** [for i in range(attempts)] of [_api_post] from attempt [i], with [k]
    attempts left; [call i] is the outcome of the [i]-th request
    ([client.post], [raise_for_status], [r.json()]). *)
Fixpoint post_loop {A E} (attempts k i : nat) (call : nat -> A + E) (last : option E)
  : list api_ev * api_res A E :=
  match k with
  | O => ([], ApiRaise last)
  | S k' =>
      match call i with
      | inl a => ([], ApiOk a)
      | inr e =>
          let logs := if (i =? 0)%nat || (i =? attempts - 1)%nat then [ApiLog (S i)] else [] in
          let '(evs, r) := post_loop attempts k' (S i) call (Some e) in
          (logs ++ ApiSleep (Z.min 2500 (250 * 2 ^ Z.of_nat i)) :: evs, r)
      end
  end.

(** [_api_post(client, path, payload)] with [API_BASE] *)
Definition api_post {A E} (API_BASE : string) (call : nat -> A + E) : list api_ev * api_res A E :=
  if String.eqb API_BASE "" then ([], ApiNoBase) else post_loop 6 6 0 call None.

(** [for i in range(attempts)] of [_api_get]: no log, [0.3 * (i + 1)]
    seconds of sleep after a failure. *)
Fixpoint get_loop {A E} (k i : nat) (call : nat -> A + E) (last : option E)
  : list api_ev * api_res A E :=
  match k with
  | O => ([], ApiRaise last)
  | S k' =>
      match call i with
      | inl a => ([], ApiOk a)
      | inr e =>
          let '(evs, r) := get_loop k' (S i) call (Some e) in
          (ApiSleep (300 * Z.of_nat (S i)) :: evs, r)
      end
  end.

(** [_api_get(client, path)] with [API_BASE] *)
Definition api_get {A E} (API_BASE : string) (call : nat -> A + E) : list api_ev * api_res A E :=
  if String.eqb API_BASE "" then ([], ApiNoBase) else get_loop 3 0 call None.

(** The sleeps and the log lines of a run of a loop. *)
Fixpoint api_sleeps (evs : list api_ev) : list Z :=
  match evs with
  | [] => []
  | ApiSleep ms :: r => ms :: api_sleeps r
  | ApiLog _ :: r => api_sleeps r
  end.

Fixpoint api_logs (evs : list api_ev) : list nat :=
  match evs with
  | [] => []
  | ApiLog n :: r => n :: api_logs r
  | ApiSleep _ :: r => api_logs r
  end.

(** The first character, when there is one, is not white space. *)
Definition head_ok (s : string) : bool :=
  match s with EmptyString => true | String a _ => negb (Ascii.is_space a) end.

End Util.

(* ================================================================== *)
(** ** The worker-facing part of the gateway (api_gateway.py) *)
(* ================================================================== *)

Module Gateway.
Import Worker Util.

(** A row of the [searches] table, with the columns the worker-facing
    endpoints read or write.  Every timestamp in the table is written by
    [now_iso()] (one format, whole seconds), so SQLite's text comparison
    of two of them orders them as instants; they are kept as instants.
    A text column read with [or ""] holds [""] for NULL. *)
Record srow := mk_srow {
  s_id : Z;
  s_created_at : option Z;
  s_updated_at : option Z;
  s_status : string;
  s_last_event : string;
  s_paid : Z;
  s_payment_intent_id : string;
  s_amount : option Z;
  s_booking_type : string;
  s_licence_number : string;
  s_booking_reference : string;
  s_centres_json : option jval;
  s_auto_book : bool;
  s_queued_at : option Z;
  s_expires_at : option Z
}.

(** The [admin_controls] row with [id=1]. *)
Record ctl_row := mk_ctl {
  c_pause_all : Z;
  c_priority_centres : string
}.

(** The database: [searches] by id, and the [admin_controls] row. *)
Record db := mk_db {
  searches : gmap Z srow;
  admin_controls : option ctl_row
}.

(** [",".join(xs)] *)
Fixpoint join_comma (xs : list string) : string :=
  match xs with
  | [] => EmptyString
  | [x] => x
  | x :: r => (x ++ "," ++ join_comma r)%string
  end.

(** [[s.strip() for s in xs if s.strip()]] *)
Definition strip_nonblank (xs : list string) : list string :=
  map Py.strip (filter (fun s => negb (String.eqb (Py.strip s) "")) xs).

(** [_get_controls(conn)] *)
Definition get_controls (d : db) : bool * list string :=
  match admin_controls d with
  | None => (false, [])
  | Some c => (negb (c_pause_all c =? 0),
               strip_nonblank (split_on "," (c_priority_centres c)))
  end.

(** The [priority_centres] argument of [_set_controls]. *)
Inductive pc_in :=
| PCList (xs : list string)
| PCStr (s : string).

(** [",".join([s.strip().lower() for s in xs if str(s).strip()])] *)
Definition lower_join (xs : list string) : string :=
  join_comma (map (fun s => Py.lower (Py.strip s))
                  (filter (fun s => negb (String.eqb (Py.strip s) "")) xs)).

(** The entries [_set_controls] iterates: the list, or the pieces of
    [str(priority_centres).split(",")]. *)
Definition pc_items (p : pc_in) : list string :=
  match p with
  | PCList xs => xs
  | PCStr s => split_on "," s
  end.

Definition pc_text (p : pc_in) : string := lower_join (pc_items p).

(** [_set_controls(conn, pause_all, priority_centres)]: one
    [UPDATE admin_controls ... WHERE id=1] of the given fields. *)
Definition set_controls (pause : option bool) (pcs : option pc_in) (d : db) : db :=
  match pause, pcs with
  | None, None => d
  | _, _ =>
      mk_db (searches d)
        (match admin_controls d with
         | None => None
         | Some c =>
             Some (mk_ctl (match pause with Some b => if b then 1 else 0 | None => c_pause_all c end)
                          (match pcs with Some p => pc_text p | None => c_priority_centres c end))
         end)
  end.

(** [admin_set_controls]: the update, then the controls read back. *)
Definition admin_set_controls (pause : option bool) (pcs : option pc_in) (d : db)
  : db * (bool * list string) :=
  let d' := set_controls pause pcs d in (d', get_controls d').

(** [worker_controls] *)
Definition worker_controls (d : db) : bool * list string := get_controls d.

(** *** Rows rewritten by the endpoints *)

Definition expire_row (ts : Z) (r : srow) : srow :=
  if bool_decide (s_paid r = 0)
     && (match s_expires_at r with Some e => bool_decide (e < ts) | None => false end)
     && (String.eqb (s_status r) "pending_payment" || String.eqb (s_status r) "new")
  then mk_srow (s_id r) (s_created_at r) (Some ts) "expired" "auto_expired" (s_paid r)
         (s_payment_intent_id r) (s_amount r) (s_booking_type r) (s_licence_number r)
         (s_booking_reference r) (s_centres_json r) (s_auto_book r) (s_queued_at r) (s_expires_at r)
  else r.

(** [_expire_unpaid(conn)] at the instant [ts] *)
Definition expire_unpaid (ts : Z) (t : gmap Z srow) : gmap Z srow := expire_row ts <$> t.

(** The [WHERE] of both statements of [worker_claim]. *)
Definition claimable (cutoff : Z) (r : srow) : bool :=
  bool_decide (s_paid r = 1)
  && (String.eqb (s_status r) "queued" || String.eqb (s_status r) "new"
      || (String.eqb (s_status r) "searching"
          && match s_updated_at r with None => true | Some u => bool_decide (u < cutoff) end)).

Definition claimed_row (ts : Z) (r : srow) : srow :=
  mk_srow (s_id r) (s_created_at r) (Some ts) "searching" "worker_claimed" (s_paid r)
    (s_payment_intent_id r) (s_amount r) (s_booking_type r) (s_licence_number r)
    (s_booking_reference r) (s_centres_json r) (s_auto_book r) (s_queued_at r) (s_expires_at r).

(** [ORDER BY updated_at ASC]: NULL first; rows with the same
    [updated_at] are taken in id order. *)
Definition before (a b : srow) : bool :=
  match s_updated_at a, s_updated_at b with
  | None, None => s_id a <? s_id b
  | None, Some _ => true
  | Some _, None => false
  | Some x, Some y => (x <? y) || ((x =? y) && (s_id a <? s_id b))
  end.

Fixpoint insert_by (r : srow) (l : list srow) : list srow :=
  match l with
  | [] => [r]
  | x :: l' => if before x r then x :: insert_by r l' else r :: l
  end.

Fixpoint sort_rows (l : list srow) : list srow :=
  match l with
  | [] => []
  | r :: l' => insert_by r (sort_rows l')
  end.

(** [LIMIT ?]: a negative limit returns every row. *)
Definition sql_limit (lim : Z) (l : list srow) : list srow :=
  if lim <? 0 then l else take (Z.to_nat lim) l.

(** The [for r in rows] loop of [worker_claim]: the guarded [UPDATE],
    then the row read back when [rowcount] is 1. *)
Fixpoint claim_rows (ts cutoff : Z) (rows : list srow) (t : gmap Z srow) : gmap Z srow * list srow :=
  match rows with
  | [] => (t, [])
  | r :: rs =>
      match t !! s_id r with
      | Some r0 =>
          if claimable cutoff r0 then
            let r1 := claimed_row ts r0 in
            let '(t', out) := claim_rows ts cutoff rs (<[s_id r := r1]> t) in (t', r1 :: out)
          else claim_rows ts cutoff rs t
      | None => claim_rows ts cutoff rs t
      end
  end.

(** [worker_claim] at the instant [ts] with [STALE_SEARCH_MIN] and
    [body.limit]: the new database and the claimed [items]. *)
Definition worker_claim (STALE_SEARCH_MIN ts lim : Z) (d : db) : db * list srow :=
  let t1 := expire_unpaid ts (searches d) in
  let d1 := mk_db t1 (admin_controls d) in
  if fst (get_controls d1) then (d1, [])
  else
    let cutoff := ts - 60 * Z.max 1 STALE_SEARCH_MIN in
    let rows := sql_limit lim (sort_rows (filter (claimable cutoff) (map snd (map_to_list t1)))) in
    let '(t2, items) := claim_rows ts cutoff rows t1 in
    (mk_db t2 (admin_controls d), items).

(** [_mark_paid_and_queue(search_id, payment_intent_id, event_label, amount_received)] *)
Definition mark_paid_and_queue (ts sid : Z) (pi label : string) (received : Z) (t : gmap Z srow)
  : gmap Z srow :=
  match t !! sid with
  | Some r =>
      <[sid := mk_srow (s_id r) (s_created_at r) (Some ts) "queued" label 1 pi
                 (if received =? 0 then s_amount r else Some received)
                 (s_booking_type r) (s_licence_number r) (s_booking_reference r)
                 (s_centres_json r) (s_auto_book r) (Some ts) None]> t
  | None => t
  end.

(** [worker_status(sid, b)] *)
Definition worker_status (ts sid : Z) (st ev : string) (t : gmap Z srow) : gmap Z srow :=
  match t !! sid with
  | Some r =>
      <[sid := mk_srow (s_id r) (s_created_at r) (Some ts) st ev (s_paid r)
                 (s_payment_intent_id r) (s_amount r) (s_booking_type r) (s_licence_number r)
                 (s_booking_reference r) (s_centres_json r) (s_auto_book r) (s_queued_at r)
                 (s_expires_at r)]> t
  | None => t
  end.

(** [disable_search(sid)]: [None] where it raises the 404. *)
Definition disable_search (ts sid : Z) (t : gmap Z srow) : option (gmap Z srow) :=
  match t !! sid with
  | Some r =>
      if String.eqb (s_status r) "booked" || String.eqb (s_status r) "failed" then None
      else Some (<[sid := mk_srow (s_id r) (s_created_at r) (Some ts) "disabled" "manually_disabled"
                    (s_paid r) (s_payment_intent_id r) (s_amount r) (s_booking_type r)
                    (s_licence_number r) (s_booking_reference r) (s_centres_json r)
                    (s_auto_book r) (s_queued_at r) (s_expires_at r)]> t)
  | None => None
  end.

(** The worker's view of a claimed item ([dict(row)]). *)
Definition job_of (r : srow) : job :=
  mk_job (s_id r) (s_status r) (from_option Iso.iso_of EmptyString (s_updated_at r))
    (from_option Iso.iso_of EmptyString (s_created_at r)) (s_booking_type r)
    (s_licence_number r) (s_booking_reference r) (s_last_event r) (s_centres_json r)
    (s_auto_book r).

(** Every row is stored under its own id. *)
Definition keyed (t : gmap Z srow) : Prop := map_Forall (fun k r => s_id r = k) t.

(** *** The admin page's reading of [last_event] *)

Definition prefixes_with_centre : list string :=
  ["checked:"; "slot_found:"; "booked:"; "booking_failed:"; "captcha_cooldown:";
   "no_slots_this_round:"; "slot_unchanged:"; "trying:"]%string.

Definition reached_prefixes : list string :=
  ["checked:"; "slot_found:"; "booked:"; "booking_failed:"]%string.

(** The separator literal ["Â·"] of [_derive_flags]: the UTF-8 bytes
    C3 82 C2 B7. *)
Definition flag_sep : string :=
  String "195"%char (String "130"%char (String "194"%char (String "183"%char EmptyString))).

(** [s.split(sep, 1)[0]] for a non-empty [sep] *)
Fixpoint before_str (sep s : string) : string :=
  match s with
  | EmptyString => EmptyString
  | String a r => if String.prefix sep s then EmptyString else String a (before_str sep r)
  end.

(** [_derive_flags(row)] on [row["last_event"]]: [(reached, last_centre, captcha)]. *)
Definition derive_flags (last_event : string) : bool * string * bool :=
  let ev := Py.strip last_event in
  let last_centre :=
    match find (Py.startswith ev) prefixes_with_centre with
    | Some _ =>
        match split_once ":" ev with
        | Some (_, payload) => Py.strip (before_str flag_sep payload)
        | None => EmptyString
        end
    | None => EmptyString
    end in
  (existsb (Py.startswith ev) reached_prefixes, last_centre, Py.startswith ev "captcha_cooldown:").

(** *** Amounts of [pay_create_intent] *)

(** [_band_ok(amount_cents, base_cents)]; Python's [%] with a positive
    modulus is [Z.modulo]. *)
Definition band_ok (amount_cents base_cents : Z) : bool :=
  if (amount_cents <=? 0) || negb (amount_cents mod 100 =? 0) then false
  else if amount_cents <? base_cents then false
  else (amount_cents - base_cents) mod 3000 =? 0.

(** [_infer_booking_type(amount_cents)] *)
Definition infer_booking_type (amount_cents : Z) : option string :=
  if 15000 <=? amount_cents then Some "new"%string
  else if 7000 <=? amount_cents then Some "swap"%string
  else None.

(** The amount test of [pay_create_intent]: the request goes on when
    [_band_ok(amount, 7000) or _band_ok(amount, 15000)]. *)
Definition amount_accepted (amount : Z) : bool := band_ok amount 7000 || band_ok amount 15000.

End Gateway.

(* ================================================================== *)
(** ** Sample data for the gateway and the helpers *)
(* ================================================================== *)

Module Sample.
Import Worker Util Gateway.

(** A search row with the given id, status, [paid], [updated_at] and
    [expires_at]: a swap search for licence [LIC123]. *)
Definition row_at (sid : Z) (st : string) (paid : Z) (upd exp : option Z) : srow :=
  mk_srow sid (Some 0) upd st "" paid "" None "swap" "LIC123" "12345678" None false None exp.

(** Search 1 is queued, 2 searching since instant 20, 3 an unpaid draft
    that expires at 50, 4 booked. *)
Definition tbl0 : gmap Z srow :=
  <[1 := row_at 1 "queued" 1 (Some 10) None]>
  (<[2 := row_at 2 "searching" 1 (Some 20) None]>
  (<[3 := row_at 3 "pending_payment" 0 (Some 5) (Some 50)]>
  (<[4 := row_at 4 "booked" 1 (Some 30) None]> ∅))).

(** The table with the controls row of [migrate()], pause off. *)
Definition db0 : db := mk_db tbl0 (Some (mk_ctl 0 "")).

(** [tbl0] after [disable_search] of search 1 at instant 900. *)
Definition tbl_disabled : gmap Z srow :=
  <[1 := mk_srow 1 (Some 0) (Some 900) "disabled" "manually_disabled" 1 "" None "swap" "LIC123"
           "12345678" None false None None]> tbl0.

(** The configuration of [Demo.env_mixed] at the instant [t]. *)
Definition env_at (t : Z) : Env :=
  mk_env 3 600 30 5 false "simulate" false ["elg"%string] t Demo.portal_mixed
         (fun _ _ => SwapDone true) (fun _ _ => true) (fun _ l => rev l) 30 8.

(** A second job for the licence of [Demo.row0]. *)
Definition row_twin : job :=
  mk_job 11 "searching" "" "" "new" "LIC123" "" "" (Some Demo.centres0) false.

(** The payload of the client's [checked:] event at Pinner, with its
    separator "·" (bytes C2 B7). *)
Definition pinner_payload : string :=
  ("Pinner " ++ String "194"%char (String "183"%char " no_slots"))%string.

End Sample.

(* ================================================================== *)
(** ** Properties *)
(* ================================================================== *)

Module Facts.
Import Health Worker.

(** *** Observations on the effect trace *)

Definition is_trying (e : effect) : bool :=
  match e with Event _ (EvTrying _) => true | _ => false end.
Definition is_status (e : effect) : bool :=
  match e with Status _ _ _ => true | _ => false end.
Definition is_captcha_ev (e : effect) : bool :=
  match e with Event _ (EvCaptcha _) => true | _ => false end.
Definition is_alert (e : effect) : bool :=
  match e with Alert _ _ => true | _ => false end.
Definition is_session (e : effect) : bool :=
  match e with Session _ _ _ => true | _ => false end.


(** A piece of trace that starts no centre and reports no status. *)
Definition quiet_part (new : list effect) : Prop :=
  Forall (fun e => is_trying e = false /\ is_status e = false) new.

(** Every [checked:] breadcrumb of the piece reports [length ss] slots. *)
Definition checked_ok (ss : list string) (new : list effect) : Prop :=
  forall sid c' n', In (Event sid (EvChecked c' n')) new -> n' = length ss.

Definition count_alerts (l : list effect) : nat := length (filter (fun e => is_alert e) l).

Definition no_ev (p : effect -> bool) (l : list effect) : Prop := Forall (fun e => p e = false) l.

(** The health table after a challenge page at [c]: the last writes are one
    [centre_fail(c)] on the table [h0] met there, then
    [global_cooldown(CAPTCHA_COOLDOWN_MIN)]. *)
Definition captcha_health (env : Env) (c : string) (s' : St) : Prop :=
  exists h0, health s' = global_cooldown (now env) (CAPTCHA_COOLDOWN_MIN env)
                           (centre_fail (CB_FAILS_THRESHOLD env) (CB_COOLDOWN_SEC env) (now env) c h0).

(** The one call of [send_captcha_alert] in a piece of trace, from the
    alert times [a0] to [a1]: it alerts for [session_base(row)] exactly
    when 600 seconds have passed since the last alert for that identity. *)
Definition alert_step (row : job) (c : string) (env : Env) (a0 a1 : gmap string Z) (new : list effect) : Prop :=
  (count_alerts new = 0%nat /\ a1 = a0 /\ now env - default 0 (a0 !! session_base row) < 600) \/
  (filter (fun e => is_alert e) new = [Alert (session_base row) c] /\
   a1 =<[session_base row := now env]> a0 /\ 600 <= now env - default 0 (a0 !! session_base row)).

(** What one call of [dvsa_check_centre] leaves behind, by its outcome;
    [a0] are the alert times it started from. *)
Definition check_post (row : job) (c : string) (env : Env) (a0 : gmap string Z) (s' : St) (new : list effect)
    (r : result (list string)) : Prop :=
  quiet_part new /\
  match r with
  | Err ECaptcha =>
      (exists pre, new = pre ++ [Event (id row) (EvCaptcha c)] /\ no_ev is_captcha_ev pre) /\
      captcha_health env c s' /\ alert_step row c env a0 (alerts s') new
  | Err (EPy _) => False
  | Ok ss => no_ev is_captcha_ev new /\ count_alerts new = 0%nat /\ checked_ok ss new /\ alerts s' = a0
  end.

(** The centres a trace starts ([trying:<c>]), in order. *)
Definition tried (l : list effect) : list string :=
  flat_map (fun e => match e with Event _ (EvTrying c) => [c] | _ => [] end) l.

(** The condition under which [check_one] returns at once. *)
Definition stop (env : Env) (ps : pass) : bool :=
  pause_all env || is_some_str (found_slot ps) || captcha_hit ps.

Definition no_pos_checked (l : list effect) : Prop :=
  forall sid c n, In (Event sid (EvChecked c n)) l -> n = 0%nat.

(** What one [check_one] that ran leaves behind. *)
Definition one_post (row : job) (c : string) (env : Env) (a0 : gmap string Z) (ps ps' : pass) (s' : St) (new : list effect) : Prop :=
  tried new = [c] /\
  ((captcha_hit ps' = true /\ found_slot ps' = found_slot ps /\ last_checked ps' = Some c /\
    (exists pre, new = pre ++ [Event (id row) (EvCaptcha c)] /\ no_ev is_captcha_ev pre) /\
    captcha_health env c s' /\ alert_step row c env a0 (alerts s') new)
   \/
   (captcha_hit ps' = false /\ last_checked ps' = Some c /\
    no_ev is_captcha_ev new /\ count_alerts new = 0%nat /\ alerts s' = a0 /\
    (found_slot ps' = None -> no_pos_checked new))).

(** What a pass over [items] that ran leaves behind: it started the first [n] items. *)
Definition all_post (row : job) (items : list string) (env : Env) (a0 : gmap string Z) (ps ps' : pass) (s' : St) (new : list effect) : Prop :=
  exists n, tried new = take n items /\ (n <= length items)%nat /\
  ((captcha_hit ps' = true /\ found_slot ps' = found_slot ps /\
    (exists pre c, new = pre ++ [Event (id row) (EvCaptcha c)] /\ last_checked ps' = Some c /\
                   no_ev is_captcha_ev pre /\ captcha_health env c s' /\ alert_step row c env a0 (alerts s') new))
   \/
   (captcha_hit ps' = false /\ no_ev is_captcha_ev new /\ count_alerts new = 0%nat /\ alerts s' = a0 /\
    (found_slot ps' = None -> no_pos_checked new /\ n = length items))).

(** The contract of a pass ([check_all], [run_pass]). *)
Definition pass_spec (row : job) (items : list string) (env : Env) (ps : pass) (s s' : St) (r : result pass) : Prop :=
  exists new ps', r = Ok ps' /\ trace s' = trace s ++ new /\ sigs s' = sigs s /\ cache s' = cache s /\
    Forall (fun e => is_status e = false) new /\
    (stop env ps = true -> new = [] /\ ps' = ps /\ s' = s) /\
    (stop env ps = false -> pause_all env = false /\ all_post row items env (alerts s) ps ps' s' new).

(** The priority pass, then the remainder pass or nothing. *)
Definition scan_post (row : job) (high low : list string) (env : Env) (a0 : gmap string Z)
    (s' : St) (ps' : pass) (new_h new_l : list effect) : Prop :=
  exists s1 ps1, all_post row high env a0 init_pass ps1 s1 new_h /\
    ((new_l = [] /\ ps' = ps1 /\ s' = s1) \/
     (stop env ps1 = false /\ all_post row low env (alerts s1) ps1 ps' s' new_l)).

(** The owner message [set_status_api] sends after the status. *)
Definition owner_tail (row : job) (st : string) : list effect :=
  if String.eqb (booking_type row) "new" && existsb (String.eqb st) ["found"; "booked"; "failed"]%string
  then [OwnerMsg (id row) st] else [].

(** Breadcrumbs, and the stale status. *)
Definition is_ev (e : effect) : bool := match e with Event _ _ => true | _ => false end.

Definition is_stale_st (e : effect) : bool :=
  match e with Status _ _ (SStale _) => true | _ => false end.

(** [get_last_slot_sig(sid) == sig] *)
Definition same_sig (row : job) (ps : pass) (s : St) : bool :=
  bool_decide (sigs s !! id row = Some (default ""%string (found_slot ps))).

(** [if not centres: centres = ["(no centre provided)"]] *)
Definition centres_or_default (cs : list string) : list string :=
  match cs with [] => ["(no centre provided)"%string] | _ => cs end.

(** The stale guard of [process_job]. *)
Definition stale_job (env : Env) (row : job) : bool :=
  String.eqb (Py.strip (status row)) "searching"
  && is_stale (now env) (or_str (updated_at row) (created_at row)) (STALE_MINUTES env).



(** The [layout_like] test of [dvsa_check_centre]. *)
Definition layout_like (msg : string) : bool :=
  existsb (Py.contains (Py.lower (human msg))) layout_keys.
(** *** The timestamp codec *)

Lemma unbits_bits p : Iso.unbits (Iso.bits p) = Some p.
Proof. induction p; simpl; try rewrite IHp; reflexivity. Qed.

(** A written instant reads back as itself. *)
Lemma parse_iso_of t : Iso.parse_iso (Iso.iso_of t) = Some t.
Proof. destruct t; simpl; try rewrite unbits_bits; reflexivity. Qed.

Lemma iso_of_nonempty t : Iso.iso_of t <> ""%string.
Proof. destruct t; discriminate. Qed.

(** *** The circuit breaker *)

Lemma centre_fail_below F C t c h k u :
  h !! c = Some (mk_row k u) -> k + 1 < F ->
  centre_fail F C t c h = <[c := mk_row (k + 1) u]> h.
Proof. intros Hc Hk. unfold centre_fail. rewrite Hc. simpl.
  rewrite bool_decide_false by lia. reflexivity. Qed.

Lemma centre_fail_trip F C t c h k u :
  h !! c = Some (mk_row k u) -> F <= k + 1 ->
  centre_fail F C t c h = <[c := mk_row 0 (Some (Iso.iso_of (t + C)))]> h.
Proof. intros Hc Hk. unfold centre_fail. rewrite Hc. simpl.
  rewrite bool_decide_true by lia. reflexivity. Qed.

Lemma fail_at_below F C c ts h k u :
  h !! c = Some (mk_row k u) -> k + Z.of_nat (length ts) < F ->
  fail_at F C c ts h !! c = Some (mk_row (k + Z.of_nat (length ts)) u).
Proof.
  revert h k. induction ts as [|t ts IH]; intros h k Hc Hk; simpl in *.
  - rewrite Z.add_0_r. exact Hc.
  - rewrite (centre_fail_below F C t c h k u Hc) by lia.
    rewrite (IH _ (k + 1)); [f_equal; f_equal; lia | | lia].
    by rewrite lookup_insert_eq.
Qed.

Lemma fail_at_app F C c ts1 ts2 h :
  fail_at F C c (ts1 ++ ts2) h = fail_at F C c ts2 (fail_at F C c ts1 h).
Proof. revert h. induction ts1; simpl; auto. Qed.

Lemma centre_fail_trips_after_F F C c ts t h :
  2 <= F -> h !! c = None -> Z.of_nat (length ts) = F - 1 ->
  fail_at F C c (ts ++ [t]) h !! c = Some (mk_row 0 (Some (Iso.iso_of (t + C)))).
Proof.
  intros HF Hc Hlen. rewrite fail_at_app. simpl.
  destruct ts as [|t0 ts]; simpl in Hlen; [lia|]. simpl.
  set (h0 := centre_fail F C t0 c h).
  assert (H0 : h0 !! c = Some (mk_row 1 None)).
  { unfold h0, centre_fail. rewrite Hc. by rewrite lookup_insert_eq. }
  pose proof (fail_at_below F C c ts h0 1 None H0 ltac:(lia)) as H1.
  rewrite (centre_fail_trip F C t c _ _ _ H1) by lia.
  by rewrite lookup_insert_eq.
Qed.

Local Arguments existsb : simpl never.
Local Arguments Nat.leb : simpl never.

Ltac mrun := unfold mbind, M_bind, mret, M_ret, ask, get, emit, set_health, set_sigs,
  set_alerts, set_cache, throw, modify_health, post_event_api in *; simpl in *.

Lemma send_alert_spec row c env s :
  let '(s', r) := send_captcha_alert row c env s in
  r = Ok tt /\ health s' = health s /\ sigs s' = sigs s /\ cache s' = cache s /\
  ((trace s' = trace s /\ alerts s' = alerts s /\ now env - default 0 (alerts s !! session_base row) < 600) \/
   (trace s' = trace s ++ [Alert (session_base row) c] /\
    alerts s' = <[session_base row := now env]> (alerts s) /\
    600 <= now env - default 0 (alerts s !! session_base row))).
Proof.
  unfold send_captcha_alert. mrun.
  case_bool_decide; simpl.
  - repeat split; auto.
  - repeat split; auto. right. repeat split; auto. lia.
Qed.


Lemma count_alerts_nil l : count_alerts l = 0%nat -> filter (fun e => is_alert e) l = [].
Proof. unfold count_alerts. destruct (filter _ l); [reflexivity|discriminate]. Qed.

Lemma alert_step_app_l row c env a0 a1 p new :
  count_alerts p = 0%nat -> alert_step row c env a0 a1 new -> alert_step row c env a0 a1 (p ++ new).
Proof.
  intros Hp [(H1 & H2 & H3)|(H1 & H2 & H3)]; [left|right].
  - unfold count_alerts in *. rewrite filter_app, length_app. auto with lia.
  - rewrite filter_app, (count_alerts_nil p Hp), H1. auto.
Qed.


Lemma alert_step_count row c env a0 a1 new :
  alert_step row c env a0 a1 new -> (count_alerts new <= 1)%nat.
Proof. intros [(H1 & _)|(H1 & _)]; [rewrite H1; lia|unfold count_alerts; rewrite H1; simpl; lia]. Qed.


Lemma attempts_spec row c k n env s :
  let '(s', r) := attempts_from row c k n env s in
  exists new, trace s' = trace s ++ new /\ sigs s' = sigs s /\ cache s' = cache s /\
    check_post row c env (alerts s) s' new r.
Proof.
  revert k s. induction n as [|n IH]; intros k s; simpl.
  - exists []. rewrite app_nil_r. repeat split; try constructor.
    intros ? ? ? []. 
  - mrun. destruct (portal env (id row) c k) as [ss| |msg] eqn:Hp.
    + simpl. eexists. split; [rewrite <- ?app_assoc; reflexivity|].
      repeat split; repeat constructor.
      intros sid c' n' Hin. simpl in Hin. destruct Hin as [H|[H|[]]]; [discriminate|].
      congruence.
    + simpl.
      match goal with |- context [send_captcha_alert row c env ?s0] =>
        pose proof (send_alert_spec row c env s0) as HA;
        destruct (send_captcha_alert row c env s0) as [sa ra] end.
      destruct HA as (-> & Hh & Hs & Hc & HA). simpl.
      simpl in Hh, Hs, Hc.
      assert (Hg : captcha_health env c sa) by (exists (health s); exact Hh).
      destruct HA as [(Ht & Ha & Hlt) | (Ht & Ha & Hge)]; rewrite Ht; simpl; simpl in Ha.
      * eexists. split; [rewrite <- ?app_assoc; reflexivity|].
        split; [simpl; congruence|]. split; [simpl; congruence|].
        split; [repeat constructor|]. split; [|split; [exact Hg|]].
        -- exists [Session (id row) c k]. split; [reflexivity|]. repeat constructor.
        -- left. split; [reflexivity|]. split; [exact Ha|exact Hlt].
      * eexists. split; [rewrite <- !app_assoc; reflexivity|].
        split; [simpl; congruence|]. split; [simpl; congruence|].
        split; [repeat constructor|]. split; [|split; [exact Hg|]].
        -- exists ([Session (id row) c k] ++ [Alert (session_base row) c]).
           split; [reflexivity|]. repeat constructor.
        -- right. split; [reflexivity|]. split; [exact Ha|exact Hge].
    + simpl.
      assert (Hpre : forall p s' r new, quiet_part p -> no_ev is_captcha_ev p ->
                count_alerts p = 0%nat -> (forall sid c' n', ~ In (Event sid (EvChecked c' n')) p) ->
                check_post row c env (alerts s) s' new r -> check_post row c env (alerts s) s' (p ++ new) r).
      { intros p s' r new Hq Hc Hal Hch [Hq' Hm]. split; [by apply Forall_app|].
        destruct r as [ss|[|m]]; simpl in Hm |- *;
          [|destruct Hm as ((pre & Hn & Hpr) & Hg & Hst)|contradiction].
        - destruct Hm as (Hn & Hcnt & Hck & Ha). split; [by apply Forall_app|]. split.
          + unfold count_alerts in *. rewrite filter_app, length_app. lia.
          + split; [|exact Ha].
            intros sid c' n' Hin. apply in_app_or in Hin as [Hin|Hin]; [exfalso; by eapply Hch|].
            by eapply Hck.
        - split; [|split; [exact Hg|]].
          + exists (p ++ pre). rewrite Hn, app_assoc. split; [reflexivity|by apply Forall_app].
          + by apply alert_step_app_l. }
      destruct (existsb (Py.contains (Py.lower (human msg))) layout_keys) eqn:Hl; simpl;
        destruct (5 <=? k)%nat eqn:Hk; simpl.
      * eexists. split; [rewrite <- ?app_assoc; reflexivity|].
        split; [reflexivity|]. split; [reflexivity|].
        split; [repeat constructor|]. split; [repeat constructor|]. split; [reflexivity|].
        split; [|reflexivity].
        intros sid c' n' [H|[H|[]]]; discriminate.
      * match goal with |- context [attempts_from row c (S k) n env ?s0] =>
          specialize (IH (S k) s0); destruct (attempts_from row c (S k) n env s0) as [s1 r1] end.
        destruct IH as (new1 & Ht & Hs & Hc & Hp1). simpl in Ht, Hs, Hc.
        exists ([Session (id row) c k; Event (id row) (EvLayout c); Sleep (500 * Z.of_nat k)] ++ new1).
        split; [rewrite Ht, <- ?app_assoc; reflexivity|]. split; [exact Hs|]. split; [exact Hc|].
        apply Hpre; [repeat constructor..| reflexivity | |exact Hp1].
        intros sid c' n' [H|[H|[H|[]]]]; discriminate.
      * eexists. split; [rewrite <- ?app_assoc; reflexivity|].
        split; [reflexivity|]. split; [reflexivity|].
        split; [repeat constructor|]. split; [repeat constructor|]. split; [reflexivity|].
        split; [|reflexivity].
        intros sid c' n' [H|[]]; discriminate.
      * match goal with |- context [attempts_from row c (S k) n env ?s0] =>
          specialize (IH (S k) s0); destruct (attempts_from row c (S k) n env s0) as [s1 r1] end.
        destruct IH as (new1 & Ht & Hs & Hc & Hp1). simpl in Ht, Hs, Hc.
        exists ([Session (id row) c k; Sleep (500 * Z.of_nat k)] ++ new1).
        split; [rewrite Ht, <- ?app_assoc; reflexivity|]. split; [exact Hs|]. split; [exact Hc|].
        apply Hpre; [repeat constructor..| reflexivity | |exact Hp1].
        intros sid c' n' [H|[H|[]]]; discriminate.
Qed.

Local Arguments attempts_from : simpl never.
Local Arguments allowed_row : simpl never.

Ltac skip_done :=
  simpl; eexists; split; [rewrite <- ?app_assoc; reflexivity|]; simpl;
  split; [reflexivity|]; split; [reflexivity|];
  split; [repeat constructor|]; split; [repeat constructor|]; split; [reflexivity|];
  split; [|reflexivity];
  let Hin := fresh in intros ? ? ? Hin; simpl in Hin; intuition discriminate.

Ltac attempts_done :=
  match goal with |- context [attempts_from ?row ?c 1 5 ?env ?s0] =>
    let HA := fresh "HA" in
    pose proof (attempts_spec row c 1 5 env s0) as HA;
    destruct (attempts_from row c 1 5 env s0);
    let new := fresh "new" in
    destruct HA as (new & ? & ? & ? & ?); exists new; simpl in *; auto
  end.

Lemma dcc_spec row c env s :
  let '(s', r) := dvsa_check_centre row c env s in
  exists new, trace s' = trace s ++ new /\ sigs s' = sigs s /\ cache s' = cache s /\
    check_post row c env (alerts s) s' new r.
Proof.
  unfold dvsa_check_centre, skip_global, skip_centre, resume_override,
    global_allowed, centre_allowed, select, lift_res. mrun.
  destruct (pause_all env) eqn:Hpz; simpl; [skip_done|].
  destruct (match cache s !! id row with
            | Some (_, ev) => (ev =? "resume_now")%string | None => false end); simpl.
  - attempts_done.
  - destruct (allowed_row (now env) (health s !! GLOBAL_KEY)); simpl; [|skip_done].
    destruct (allowed_row (now env) (health s !! c)); simpl; [|skip_done].
    attempts_done.
Qed.

Lemma tried_app l1 l2 : tried (l1 ++ l2) = tried l1 ++ tried l2.
Proof. unfold tried. by rewrite flat_map_app. Qed.

Lemma tried_quiet l : quiet_part l -> tried l = [].
Proof.
  induction 1 as [|e l [Ht _] _ IH]; [reflexivity|].
  destruct e as [? []| | | | | | | | |]; simpl in *; try discriminate; exact IH.
Qed.

Lemma count_alerts_app l1 l2 : count_alerts (l1 ++ l2) = (count_alerts l1 + count_alerts l2)%nat.
Proof. unfold count_alerts. by rewrite filter_app, length_app. Qed.

Lemma no_ev_app p l1 l2 : no_ev p (l1 ++ l2) <-> no_ev p l1 /\ no_ev p l2.
Proof. unfold no_ev. apply Forall_app. Qed.

Lemma check_one_spec row c ps env s :
  let '(s', r) := check_one row c ps env s in
  exists new ps', r = Ok ps' /\ trace s' = trace s ++ new /\ sigs s' = sigs s /\ cache s' = cache s /\
    Forall (fun e => is_status e = false) new /\
    (stop env ps = true -> new = [] /\ ps' = ps /\ s' = s) /\
    (stop env ps = false -> one_post row c env (alerts s) ps ps' s' new).
Proof.
  unfold check_one, catch_captcha, stop. mrun.
  destruct (pause_all env) eqn:Hpz; simpl.
  { exists [], ps. rewrite app_nil_r. repeat split; auto; try discriminate. }
  destruct (is_some_str (found_slot ps) || captcha_hit ps) eqn:Hst; simpl.
  { exists [], ps. rewrite app_nil_r. repeat split; auto; try discriminate. }
  apply orb_false_iff in Hst as [Hf Hc].
  destruct (found_slot ps) as [fs|] eqn:Hfs; [discriminate|].
  match goal with |- context [dvsa_check_centre row c env ?s0] =>
    pose proof (dcc_spec row c env s0) as HD; destruct (dvsa_check_centre row c env s0) as [s1 r1] end.
  destruct HD as (new & Ht & Hs & Hca & Hq & Hp). simpl in Ht, Hs, Hca.
  destruct r1 as [ss|[|m]]; simpl in Hp |- *; [| |contradiction].
  - destruct Hp as (Hnc & Hal & Hck & Ha).
    assert (Hq' : Forall (fun e => is_status e = false) new).
    { eapply Forall_impl; [exact Hq|]. intros e [_ H]; exact H. }
    destruct ss as [|s0 ss]; simpl.
    + exists (Event (id row) (EvTrying c) :: new), (mk_pass None (captcha_hit ps) (Some c)).
      split; [reflexivity|]. split; [rewrite Ht, <- app_assoc; reflexivity|].
      split; [exact Hs|]. split; [exact Hca|]. split; [constructor; auto|].
      split; [discriminate|]. intros _. split.
      * simpl. rewrite (tried_quiet new Hq). reflexivity.
      * right. rewrite Hc. split; [reflexivity|]. split; [reflexivity|].
        split; [constructor; auto|]. split; [unfold count_alerts in *; simpl; exact Hal|].
        split; [exact Ha|].
        intros _ sid c' n' [H|H]; [discriminate|]. by apply (Hck sid c' n').
    + exists (Event (id row) (EvTrying c) :: new), (mk_pass (Some s0) (captcha_hit ps) (Some c)).
      split; [reflexivity|]. split; [rewrite Ht, <- app_assoc; reflexivity|].
      split; [exact Hs|]. split; [exact Hca|]. split; [constructor; auto|].
      split; [discriminate|]. intros _. split.
      * simpl. rewrite (tried_quiet new Hq). reflexivity.
      * right. rewrite Hc. split; [reflexivity|]. split; [reflexivity|].
        split; [constructor; auto|]. split; [unfold count_alerts in *; simpl; exact Hal|].
        split; [exact Ha|]. discriminate.
  - destruct Hp as ((pre & Hn & Hpr) & Hg & Hal).
    assert (Hq' : Forall (fun e => is_status e = false) new).
    { eapply Forall_impl; [exact Hq|]. intros e [_ H]; exact H. }
    exists (Event (id row) (EvTrying c) :: new), (mk_pass None true (Some c)).
    split; [reflexivity|]. split; [rewrite Ht, <- app_assoc; reflexivity|].
    split; [exact Hs|]. split; [exact Hca|]. split; [constructor; auto|].
    split; [discriminate|]. intros _. split.
    + simpl. rewrite (tried_quiet new Hq). reflexivity.
    + left. split; [reflexivity|]. split; [simpl; rewrite Hfs; reflexivity|]. split; [reflexivity|].
      split; [|split; [exact Hg|apply (alert_step_app_l _ _ _ _ _ [Event (id row) (EvTrying c)]);
                                [reflexivity|exact Hal]]].
      exists (Event (id row) (EvTrying c) :: pre). rewrite Hn. split; [reflexivity|].
      constructor; auto.
Qed.

Lemma no_pos_checked_app l1 l2 : no_pos_checked l1 -> no_pos_checked l2 -> no_pos_checked (l1 ++ l2).
Proof. intros H1 H2 sid c n Hin. apply in_app_or in Hin as [H|H]; eauto. Qed.

Lemma check_all_spec row items : forall ps env s,
  let '(s', r) := check_all row items ps env s in pass_spec row items env ps s s' r.
Proof.
  induction items as [|c items IH]; intros ps env s; simpl.
  { unfold mret, M_ret. exists [], ps. rewrite app_nil_r.
    do 5 (split; [first [reflexivity | constructor]|]). split; [auto|].
    intros Hs. split; [unfold stop in *; destruct (pause_all env); [discriminate|reflexivity]|].
    exists 0%nat. split; [reflexivity|]. split; [simpl; lia|].
    right. unfold stop in Hs. apply orb_false_iff in Hs as [_ Hc].
    split; [exact Hc|]. split; [constructor|]. split; [reflexivity|]. split; [reflexivity|].
    intros _. split; [intros ? ? ? []|reflexivity]. }
  unfold mbind, M_bind at 1.
  pose proof (check_one_spec row c ps env s) as H1.
  destruct (check_one row c ps env s) as [s1 r1].
  destruct H1 as (new1 & ps1 & -> & Ht1 & Hs1 & Hc1 & Hq1 & Hstop1 & Hpost1).
  pose proof (IH ps1 env s1) as H2. destruct (check_all row items ps1 env s1) as [s2 r2].
  destruct H2 as (new2 & ps2 & -> & Ht2 & Hs2 & Hc2 & Hq2 & Hstop2 & Hpost2).
  exists (new1 ++ new2), ps2. split; [reflexivity|].
  split; [rewrite Ht2, Ht1, app_assoc; reflexivity|].
  split; [congruence|]. split; [congruence|]. split; [apply Forall_app; auto|].
  split.
  { intros Hs. destruct (Hstop1 Hs) as (-> & -> & ->). destruct (Hstop2 Hs) as (-> & -> & ->).
    auto. }
  intros Hs. destruct (Hpost1 Hs) as (Htr1 & Hcases).
  assert (Hpz : pause_all env = false).
  { unfold stop in Hs. destruct (pause_all env); [discriminate|reflexivity]. }
  split; [exact Hpz|].
  destruct Hcases as [(Hcap & Hf & Hlc & (pre & Hn & Hpre) & Hg & Hal)
                     |(Hcap & Hlc & Hnc & Hal & Ha & Hfc)].
  - (* captcha on [c]: the rest of the pass does nothing *)
    assert (Hs1' : stop env ps1 = true) by (unfold stop; rewrite Hcap, orb_true_r; reflexivity).
    destruct (Hstop2 Hs1') as (-> & -> & ->).
    exists 1%nat. rewrite app_nil_r. split; [exact Htr1|]. split; [simpl; lia|].
    left. split; [exact Hcap|]. split; [exact Hf|]. exists pre, c. auto 7.
  - destruct (found_slot ps1) as [fs|] eqn:Hf1.
    + assert (Hs1' : stop env ps1 = true) by (unfold stop; rewrite Hf1, orb_true_r; reflexivity).
      destruct (Hstop2 Hs1') as (-> & -> & ->).
      exists 1%nat. rewrite app_nil_r. split; [exact Htr1|]. split; [simpl; lia|].
      right. split; [exact Hcap|]. split; [exact Hnc|]. split; [exact Hal|]. split; [exact Ha|].
      rewrite Hf1. discriminate.
    + assert (Hs1' : stop env ps1 = false) by (unfold stop; rewrite Hf1, Hcap, Hpz; reflexivity).
      destruct (Hpost2 Hs1') as (_ & n & Htr2 & Hle & Hc2s).
      assert (Hf0 : found_slot ps = None).
      { unfold stop in Hs. destruct (found_slot ps); [|reflexivity].
        rewrite orb_true_r in Hs. discriminate. }
      exists (S n). rewrite tried_app, Htr1, Htr2. split; [reflexivity|]. split; [simpl; lia|].
      destruct Hc2s as [(Hcap2 & Hf2 & (pre & c' & Hn & Hlc2 & Hpre & Hg & Hal2))
                       |(Hcap2 & Hnc2 & Hal2 & Ha2 & Hfc2)].
      * left. split; [exact Hcap2|]. split; [congruence|].
        exists (new1 ++ pre), c'. split; [rewrite Hn, app_assoc; reflexivity|].
        split; [exact Hlc2|]. split; [apply no_ev_app; auto|]. split; [exact Hg|].
        rewrite Ha in Hal2. apply alert_step_app_l; [exact Hal|exact Hal2].
      * right. split; [exact Hcap2|]. split; [apply no_ev_app; auto|].
        split; [rewrite count_alerts_app; lia|]. split; [congruence|].
        intros Hf2. destruct (Hfc2 Hf2) as [Hp2 ->].
        split; [apply no_pos_checked_app; auto|reflexivity].
Qed.

Lemma run_pass_spec row items ps env s :
  let '(s', r) := run_pass row items ps env s in pass_spec row items env ps s s' r.
Proof.
  unfold run_pass. destruct items as [|c items'].
  - exact (check_all_spec row [] ps env s).
  - cbv beta iota. destruct (is_some_str (found_slot ps) || captcha_hit ps) eqn:Hfc.
    + unfold mret, M_ret. exists [], ps. rewrite app_nil_r.
      do 5 (split; [first [reflexivity | constructor]|]). split; [auto|].
      intros Hs. unfold stop in Hs. destruct (pause_all env); simpl in Hs; [discriminate|].
      rewrite Hfc in Hs. discriminate.
    + exact (check_all_spec row (c :: items') ps env s).
Qed.

Lemma scan_spec row centres env s :
  let '(s', r) := scan row centres env s in
  exists new_h new_l ps', r = Ok ps' /\ trace s' = trace s ++ new_h ++ new_l /\
    sigs s' = sigs s /\ cache s' = cache s /\
    Forall (fun e => is_status e = false) (new_h ++ new_l) /\
    (pause_all env = true -> new_h = [] /\ new_l = [] /\ ps' = init_pass /\ s' = s) /\
    (pause_all env = false ->
       scan_post row (high_of (CURRENT_PRIORITY_CENTRES env) centres)
         (shuffle env (id row) (low_of (CURRENT_PRIORITY_CENTRES env) centres)) env (alerts s) s' ps' new_h new_l).
Proof.
  unfold scan. unfold mbind, M_bind, ask, mret, M_ret.
  set (high := high_of (CURRENT_PRIORITY_CENTRES env) centres).
  set (low := shuffle env (id row) (low_of (CURRENT_PRIORITY_CENTRES env) centres)).
  pose proof (run_pass_spec row high init_pass env s) as H1.
  destruct (run_pass row high init_pass env s) as [s1 r1].
  destruct H1 as (new1 & ps1 & -> & Ht1 & Hs1 & Hc1 & Hq1 & Hstop1 & Hpost1).
  destruct (pause_all env) eqn:Hpz.
  - assert (Hst : stop env init_pass = true) by (unfold stop; rewrite Hpz; reflexivity).
    destruct (Hstop1 Hst) as (-> & -> & ->). rewrite andb_false_r.
    exists [], [], init_pass. rewrite app_nil_r.
    do 5 (split; [first [reflexivity | constructor]|]). split; [auto|discriminate].
  - assert (Hst : stop env init_pass = false) by (unfold stop; rewrite Hpz; reflexivity).
    destruct (Hpost1 Hst) as (_ & Hap1). rewrite andb_true_r.
    destruct (negb (truthy_opt (found_slot ps1)) && negb (captcha_hit ps1)) eqn:Hcond.
    + pose proof (run_pass_spec row low ps1 env s1) as H2.
      destruct (run_pass row low ps1 env s1) as [s2 r2].
      destruct H2 as (new2 & ps2 & -> & Ht2 & Hs2 & Hc2 & Hq2 & Hstop2 & Hpost2).
      exists new1, new2, ps2. split; [reflexivity|].
      split; [rewrite Ht2, Ht1, app_assoc; reflexivity|].
      split; [congruence|]. split; [congruence|]. split; [apply Forall_app; auto|].
      split; [discriminate|]. intros _. exists s1, ps1. split; [exact Hap1|].
      destruct (stop env ps1) eqn:Hs1'.
      * left. destruct (Hstop2 eq_refl) as (-> & -> & ->). auto.
      * right. split; [reflexivity|]. apply (Hpost2 eq_refl).
    + exists new1, [], ps1. rewrite !app_nil_r.
      do 5 (split; [first [reflexivity | assumption | constructor]|]). split; [discriminate|].
      intros _. exists s1, ps1. split; [exact Hap1|]. left. auto.
Qed.

Lemma take_length_self {A} (l : list A) : take (length l) l = l.
Proof. apply take_ge. lia. Qed.

Lemma all_post_init_clean row items env a0 ps1 s1 new :
  all_post row items env a0 init_pass ps1 s1 new ->
  found_slot ps1 = None -> captcha_hit ps1 = false ->
  tried new = items /\ no_ev is_captcha_ev new /\ no_pos_checked new /\ count_alerts new = 0%nat /\
  alerts s1 = a0.
Proof.
  intros (n & Htr & Hle & [(Hc & _)|(Hc & Hnc & Hal & Ha & Hf)]) Hf1 Hc1; [congruence|].
  destruct (Hf Hf1) as [Hp ->]. rewrite take_length_self in Htr. auto.
Qed.

Lemma scan_remainder row high low env a0 s' ps' new_h new_l :
  scan_post row high low env a0 s' ps' new_h new_l -> new_l <> [] ->
  tried new_h = high /\ no_ev is_captcha_ev new_h /\ no_pos_checked new_h /\
  exists n, tried new_l = take n low.
Proof.
  intros (s1 & ps1 & Hh & [(-> & _ & _)|(Hst & (n & Htr & _))]) Hne; [contradiction|].
  unfold stop in Hst. apply orb_false_iff in Hst as [Hst Hc].
  apply orb_false_iff in Hst as [_ Hf].
  destruct (found_slot ps1) eqn:Hf1; [discriminate|].
  destruct (all_post_init_clean _ _ _ _ _ _ _ Hh Hf1 Hc) as (? & ? & ? & _).
  eauto 6.
Qed.



Lemma set_status_eq row st e env s :
  set_status_api row st e env s =
  (mk_st (health s) (sigs s) (alerts s) (<[id row := (st, render_sevent e)]> (cache s))
         (trace s ++ [Status (id row) st e] ++ owner_tail row st), Ok tt).
Proof.
  unfold set_status_api, owner_tail. mrun.
  destruct (String.eqb (booking_type row) "new" && existsb (String.eqb st) ["found"; "booked"; "failed"]%string);
    simpl; rewrite ?app_nil_r, <- ?app_assoc; reflexivity.
Qed.

Lemma owner_tail_queued row : owner_tail row "queued" = [].
Proof. unfold owner_tail. destruct (String.eqb (booking_type row) "new"); reflexivity. Qed.



Ltac conclude_fin :=
  rewrite ?set_status_eq; simpl;
  split; [reflexivity|]; split; [reflexivity|];
  split; [eexists; split; [rewrite <- ?app_assoc; reflexivity|];
          unfold owner_tail; repeat (constructor || case_match); reflexivity|reflexivity].

Lemma conclude_spec row ps env s :
  let '(s', r) := conclude row ps env s in
  r = Ok tt /\ health s' = health s /\
  (exists new, trace s' = trace s ++ new /\ no_ev is_ev new /\ no_ev is_stale_st new) /\
  sigs s' = (if pause_all env || captcha_hit ps || negb (truthy_opt (found_slot ps)) || same_sig row ps s
             then sigs s else <[id row := default ""%string (found_slot ps)]> (sigs s)).
Proof.
  unfold conclude, same_sig, dvsa_swap_to_slot, dvsa_book_and_pay, send_captcha_alert.
  mrun.
  destruct (pause_all env); simpl; [conclude_fin|].
  destruct (captcha_hit ps); simpl; [conclude_fin|].
  destruct (truthy_opt (found_slot ps)); simpl; [|conclude_fin].
  destruct (bool_decide (sigs s !! id row = Some (default ""%string (found_slot ps)))); simpl;
    [conclude_fin|].
  unfold set_sigs; simpl.
  destruct (AUTOBOOK_ENABLED env && auto_book row); simpl; [|conclude_fin].
  destruct (booking_type row =? "swap")%string; simpl.
  - destruct (swap_portal env (id row) (default ""%string (found_slot ps))) as [[]| |]; simpl;
      try case_bool_decide; simpl; conclude_fin.
  - destruct (AUTOBOOK_MODE env =? "simulate")%string; simpl;
      [destruct (sim_draw env (id row) (default ""%string (found_slot ps)))|]; simpl; conclude_fin.
Qed.

Lemma process_job_shape row env s :
  process_job row env s =
  if pause_all env
  then set_status_api row "queued" SPaused env
         (mk_st (health s) (sigs s) (alerts s) (cache s) (trace s ++ [Event (id row) EvPaused]))
  else if stale_job env row
  then set_status_api row "queued" (SStale (STALE_MINUTES env)) env s
  else match missing_required_fields row with
       | Some reason => set_status_api row "queued" (SMissing reason) env s
       | None =>
           match normalize_centres (centres_json row) with
           | Err e => (s, Err e)
           | Ok cs =>
               let '(s1, r) := scan row (centres_or_default cs) env s in
               match r with Ok ps => conclude row ps env s1 | Err e => (s1, Err e) end
           end
       end.
Proof.
  unfold process_job, stale_job, lift. mrun.
  destruct (pause_all env); [reflexivity|].
  destruct (_ && _); [reflexivity|].
  destruct (missing_required_fields row); [reflexivity|].
  destruct (normalize_centres (centres_json row)); simpl; [|reflexivity].
  unfold centres_or_default. reflexivity.
Qed.

Lemma allowed_row_iso t fc u :
  allowed_row t (Some (mk_row fc (Some (Iso.iso_of u)))) = bool_decide (u <= t).
Proof.
  unfold allowed_row. simpl. destruct (String.eqb (Iso.iso_of u) "") eqn:E.
  - apply String.eqb_eq in E. exfalso. by apply (iso_of_nonempty u).
  - by rewrite parse_iso_of.
Qed.


Lemma no_ev_not_in p l e : no_ev p l -> p e = true -> ~ In e l.
Proof. unfold no_ev. rewrite List.Forall_forall. intros H He Hin. rewrite (H e Hin) in He. discriminate. Qed.

Lemma trace_ext_eq (s : St) l1 l2 : trace s ++ l1 = trace s ++ l2 -> l1 = l2.
Proof. apply app_inv_head. Qed.


Lemma tried_no_ev l : no_ev is_ev l -> tried l = [].
Proof.
  induction 1 as [|e l He _ IH]; [reflexivity|].
  destruct e; simpl in *; try discriminate; exact IH.
Qed.

(** C4 (confirmed).  For a job that reaches the scan, the trace of
    [process_job] is the priority pass, then the remainder pass, then the
    conclusion.  The priority pass starts a prefix of the priority centres in
    list order.  The remainder pass starts a prefix of the remainder, shuffled
    with the job id as seed.  The remainder pass does anything at all only
    when the priority pass started every priority centre, met no challenge
    page and found no slot.  The conclusion starts no centre. *)
Theorem priority_before_remainder row env s cs :
  pause_all env = false -> stale_job env row = false ->
  missing_required_fields row = None -> normalize_centres (centres_json row) = Ok cs ->
  let high := high_of (CURRENT_PRIORITY_CENTRES env) (centres_or_default cs) in
  let low := shuffle env (id row) (low_of (CURRENT_PRIORITY_CENTRES env) (centres_or_default cs)) in
  let '(s', _) := process_job row env s in
  exists new_h new_l new_c n1 n2,
    trace s' = trace s ++ new_h ++ new_l ++ new_c /\
    tried new_h = take n1 high /\ tried new_l = take n2 low /\ tried new_c = [] /\
    (new_l <> [] -> tried new_h = high /\ no_ev is_captcha_ev new_h /\ no_pos_checked new_h).
Proof.
  intros Hp Hst Hm Hn high low.
  rewrite process_job_shape, Hp, Hst, Hm, Hn.
  pose proof (scan_spec row (centres_or_default cs) env s) as HS.
  destruct (scan row (centres_or_default cs) env s) as [s1 r1].
  destruct HS as (new_h & new_l & ps & -> & Ht1 & _ & _ & _ & _ & Hpost).
  specialize (Hpost Hp).
  pose proof (conclude_spec row ps env s1) as HC.
  destruct (conclude row ps env s1) as [s2 r2].
  destruct HC as (_ & _ & (newc & Ht2 & Hnc & _) & _).
  pose proof Hpost as (s0 & ps1 & (n1 & Htr1 & _) & Hl).
  assert (Hn2 : exists n2, tried new_l = take n2 low).
  { destruct Hl as [(-> & _)|(_ & (n2 & Htr2 & _))]; [exists 0%nat; reflexivity|eauto]. }
  destruct Hn2 as [n2 Hn2].
  exists new_h, new_l, newc, n1, n2.
  split; [rewrite Ht2, Ht1, <- !app_assoc; reflexivity|].
  split; [exact Htr1|]. split; [exact Hn2|]. split; [exact (tried_no_ev newc Hnc)|].
  intros Hne. destruct (scan_remainder _ _ _ _ _ _ _ _ _ Hpost Hne) as (? & ? & ? & _). auto.
Qed.


Lemma no_status_stale l : Forall (fun e => is_status e = false) l -> no_ev is_stale_st l.
Proof. intros H. eapply Forall_impl; [exact H|]. intros [] He; simpl in *; try discriminate; reflexivity. Qed.

(** C6 (confirmed).  The worker runs [process_job] only when the pause flag
    is off.  Then a job that is [searching] with a parseable
    [updated_at or created_at] more than STALE_MINUTES old is requeued with
    [stale_skipped:>Nm], and that status is the only effect: no credential
    check and no portal session come first.  Conversely, a stale status
    only appears in the trace of [process_job] for a job the stale guard
    holds for. *)
Theorem stale_requeue row env s :
  pause_all env = false ->
  (stale_job env row = true ->
   process_job row env s =
   (mk_st (health s) (sigs s) (alerts s)
          (<[id row := ("queued"%string, render_sevent (SStale (STALE_MINUTES env)))]> (cache s))
          (trace s ++ [Status (id row) "queued" (SStale (STALE_MINUTES env))]), Ok tt)) /\
  (forall s' r new sid m,
   process_job row env s = (s', r) -> trace s' = trace s ++ new ->
   In (Status sid "queued" (SStale m)) new -> stale_job env row = true).
Proof.
  intros Hp. split.
  { intros Hst. rewrite process_job_shape, Hp, Hst, set_status_eq, owner_tail_queued.
    simpl. rewrite ?app_nil_r. reflexivity. }
  intros s' r new sid m Hpj Ht Hin.
  destruct (stale_job env row) eqn:Hst; [reflexivity|exfalso].
  rewrite process_job_shape, Hp, Hst in Hpj.
  destruct (missing_required_fields row).
  { rewrite set_status_eq, owner_tail_queued in Hpj. injection Hpj as <- _. simpl in Ht.
    rewrite ?app_nil_r in Ht. apply trace_ext_eq in Ht. subst new.
    destruct Hin as [H|[]]; discriminate. }
  destruct (normalize_centres (centres_json row)) as [cs|e].
  2:{ injection Hpj as <- _. rewrite <- (app_nil_r (trace s)) in Ht at 1.
      apply trace_ext_eq in Ht. subst new. destruct Hin. }
  pose proof (scan_spec row (centres_or_default cs) env s) as HS.
  destruct (scan row (centres_or_default cs) env s) as [s1 r1].
  destruct HS as (new_h & new_l & ps & -> & Ht1 & _ & _ & Hq & _).
  pose proof (conclude_spec row ps env s1) as HC. rewrite Hpj in HC.
  destruct HC as (_ & _ & (newc & Ht2 & _ & Hns) & _).
  rewrite Ht2, Ht1, <- app_assoc in Ht. apply trace_ext_eq in Ht. subst new.
  apply in_app_or in Hin as [H|H].
  - eapply no_ev_not_in; [exact (no_status_stale _ Hq)| |exact H]. reflexivity.
  - eapply no_ev_not_in; [exact Hns| |exact H]. reflexivity.
Qed.

Lemma conclude_unchanged row ps env s :
  pause_all env = false -> captcha_hit ps = false -> truthy_opt (found_slot ps) = true ->
  sigs s !! id row = Some (default ""%string (found_slot ps)) ->
  conclude row ps env s =
  (mk_st (health s) (sigs s) (alerts s)
     (<[id row := ("queued"%string, render_sevent (SUnchanged (default ""%string (last_checked ps))))]> (cache s))
     (trace s ++ [Status (id row) "queued" (SUnchanged (default ""%string (last_checked ps)))]), Ok tt).
Proof.
  intros Hp Hc Hf Hs. unfold conclude. mrun. rewrite Hp, Hc, Hf. simpl.
  rewrite bool_decide_true by exact Hs. rewrite set_status_eq, owner_tail_queued. simpl.
  rewrite ?app_nil_r. reflexivity.
Qed.

(** C7 (confirmed).  Suppose a pass found a slot (not paused, no challenge
    page).  If that slot equals the stored signature of the job, the
    conclusion only requeues the job with [slot_unchanged]: it writes no
    [found] status, sends no owner message, starts no monitor and no
    auto-book.  Otherwise the signature is overwritten with the new slot.
    Either way, a later pass that finds the same slot only requeues the job
    with [slot_unchanged]. *)
Theorem slot_dedup row ps env s :
  pause_all env = false -> captcha_hit ps = false -> truthy_opt (found_slot ps) = true ->
  let slot := default ""%string (found_slot ps) in
  (sigs s !! id row = Some slot ->
   conclude row ps env s =
   (mk_st (health s) (sigs s) (alerts s)
      (<[id row := ("queued"%string, render_sevent (SUnchanged (default ""%string (last_checked ps))))]> (cache s))
      (trace s ++ [Status (id row) "queued" (SUnchanged (default ""%string (last_checked ps)))]), Ok tt)) /\
  (let '(s', _) := conclude row ps env s in
   (sigs s !! id row <> Some slot -> sigs s' = <[id row := slot]> (sigs s)) /\
   (forall ps2 env2, pause_all env2 = false -> captcha_hit ps2 = false ->
      found_slot ps2 = found_slot ps ->
      conclude row ps2 env2 s' =
      (mk_st (health s') (sigs s') (alerts s')
         (<[id row := ("queued"%string, render_sevent (SUnchanged (default ""%string (last_checked ps2))))]> (cache s'))
         (trace s' ++ [Status (id row) "queued" (SUnchanged (default ""%string (last_checked ps2)))]), Ok tt))).
Proof.
  intros Hp Hc Hf slot. split; [exact (conclude_unchanged row ps env s Hp Hc Hf)|].
  pose proof (conclude_spec row ps env s) as HC.
  destruct (conclude row ps env s) as [s' r].
  destruct HC as (_ & _ & _ & Hsig).
  rewrite Hp, Hc, Hf in Hsig. simpl in Hsig. unfold same_sig in Hsig.
  assert (Hlook : sigs s' !! id row = Some slot).
  { case_bool_decide as Hs; rewrite Hsig; [exact Hs|apply lookup_insert_eq]. }
  split.
  - intros Hs. rewrite bool_decide_false in Hsig by exact Hs. exact Hsig.
  - intros ps2 env2 Hp2 Hc2 Hf2. apply conclude_unchanged; [exact Hp2|exact Hc2|rewrite Hf2; exact Hf|].
    rewrite Hf2. exact Hlook.
Qed.


Lemma dcc_attempts row c env s :
  pause_all env = false ->
  allowed_row (now env) (health s !! GLOBAL_KEY) = true ->
  allowed_row (now env) (health s !! c) = true ->
  dvsa_check_centre row c env s = attempts_from row c 1 5 env s.
Proof.
  intros Hp Hg Hc.
  unfold dvsa_check_centre, skip_global, skip_centre, resume_override,
    global_allowed, centre_allowed, select, lift_res. mrun.
  rewrite Hp. destruct (match cache s !! id row with
            | Some (_, ev) => (ev =? "resume_now")%string | None => false end); simpl;
    [destruct s; reflexivity|].
  rewrite Hg. simpl. rewrite Hc. simpl. destruct s; reflexivity.
Qed.

Local Arguments attempts_from : simpl nomatch.

(** C8 (corrected).  A centre check runs when the checks of the pause, the
    global cooldown and the centre cooldown let it.  If every attempt then
    fails with a layout-like error, the check makes 5 attempts.  Attempt k
    posts [layout_issue:<c>], and the attempts are separated by sleeps of
    500 k ms.  After the last attempt it returns no slot and records one
    [centre_fail] for the centre, so the failure counts against the centre's
    health. *)
Theorem layout_exhaustion row c env s :
  pause_all env = false ->
  allowed_row (now env) (health s !! GLOBAL_KEY) = true ->
  allowed_row (now env) (health s !! c) = true ->
  (forall k, exists m, portal env (id row) c k = OError m /\ layout_like m = true) ->
  dvsa_check_centre row c env s =
  (mk_st (centre_fail (CB_FAILS_THRESHOLD env) (CB_COOLDOWN_SEC env) (now env) c (health s))
         (sigs s) (alerts s) (cache s)
         (trace s ++ [Session (id row) c 1; Event (id row) (EvLayout c); Sleep 500;
                      Session (id row) c 2; Event (id row) (EvLayout c); Sleep 1000;
                      Session (id row) c 3; Event (id row) (EvLayout c); Sleep 1500;
                      Session (id row) c 4; Event (id row) (EvLayout c); Sleep 2000;
                      Session (id row) c 5; Event (id row) (EvLayout c)]), Ok []).
Proof.
  intros Hp Hg Hc Hk. rewrite dcc_attempts by assumption.
  destruct (Hk 1%nat) as (m1 & E1 & L1). destruct (Hk 2%nat) as (m2 & E2 & L2).
  destruct (Hk 3%nat) as (m3 & E3 & L3). destruct (Hk 4%nat) as (m4 & E4 & L4).
  destruct (Hk 5%nat) as (m5 & E5 & L5). unfold layout_like in *.
  cbn [attempts_from]. mrun.
  rewrite E1. simpl. rewrite L1. simpl.
  rewrite E2. simpl. rewrite L2. simpl.
  rewrite E3. simpl. rewrite L3. simpl.
  rewrite E4. simpl. rewrite L4. simpl.
  rewrite E5. simpl. rewrite L5. simpl.
  rewrite <- !app_assoc. reflexivity.
Qed.

(** C9 (corrected).  The challenge guard has one signal only: every marker
    of its list, including "unusual traffic", raises [CaptchaDetected].
    The worker handles that signal in one way, whatever the marker.  It
    records a centre failure, sets the global cooldown, sends the owner
    alert unless one went to the same identity less than 600 s before,
    posts [captcha_cooldown:<c>] and raises. *)
Theorem single_captcha_signal :
  (forall html url e, Client.captcha_guard html url = Some e -> e = Client.CaptchaDetected url) /\
  (forall html url, Py.contains (Py.lower html) "unusual traffic" = true ->
     Client.captcha_guard html url = Some (Client.CaptchaDetected url)) /\
  (forall row c k n env s, portal env (id row) c k = OCaptcha ->
     let '(s', r) := attempts_from row c k (S n) env s in
     let last := default 0 (alerts s !! session_base row) in
     r = Err ECaptcha /\
     health s' = global_cooldown (now env) (CAPTCHA_COOLDOWN_MIN env)
                   (centre_fail (CB_FAILS_THRESHOLD env) (CB_COOLDOWN_SEC env) (now env) c (health s)) /\
     ((600 <= now env - last /\
       trace s' = trace s ++ [Session (id row) c k; Alert (session_base row) c; Event (id row) (EvCaptcha c)]) \/
      (now env - last < 600 /\
       trace s' = trace s ++ [Session (id row) c k; Event (id row) (EvCaptcha c)]))).
Proof.
  split; [|split].
  - intros html url e. unfold Client.captcha_guard.
    destruct (existsb _ _); [|discriminate]. intros H. injection H as <-. reflexivity.
  - intros html url H. unfold Client.captcha_guard.
    replace (existsb (Py.contains (Py.lower html)) Client.indicators) with true; [reflexivity|].
    symmetry. apply existsb_exists. exists "unusual traffic"%string. split; [simpl; tauto|exact H].
  - intros row c k n env s Hp. simpl. mrun. rewrite Hp. simpl.
    match goal with |- context [send_captcha_alert row c env ?s0] =>
      pose proof (send_alert_spec row c env s0) as HA;
      destruct (send_captcha_alert row c env s0) as [sa ra] end.
    destruct HA as (-> & Hh & _ & _ & HA). simpl in *.
    split; [reflexivity|]. split; [exact Hh|].
    destruct HA as [(Ht & _ & Hlt)|(Ht & _ & Hge)]; rewrite Ht.
    + right. split; [exact Hlt|]. rewrite <- !app_assoc. reflexivity.
    + left. split; [exact Hge|]. rewrite <- !app_assoc. reflexivity.
Qed.

(** C10 (corrected).  A failing SELECT (for instance a locked database)
    raises out of both [centre_allowed] and [global_allowed].  When the
    SELECT succeeds, both checks return, and they are the same function of
    the row read.  That function answers false only for a row holding a
    non-empty, parseable cooldown instant still in the future.  So a missing
    row, a NULL or empty cooldown, or an unparseable one allows the
    interaction. *)
Theorem breaker_fail_open :
  (forall t q, (exists m, q = QErr m /\ centre_allowed_q t q = Raise m /\ global_allowed_q t q = Raise m) \/
               (exists row, q = QRow row /\ centre_allowed_q t q = Health.Ok (allowed_row t row) /\
                            global_allowed_q t q = Health.Ok (allowed_row t row))) /\
  (forall t c h, exists b, centre_allowed t c h = Health.Ok b /\ global_allowed t h = Health.Ok (allowed_row t (h !! GLOBAL_KEY)) /\
                           b = allowed_row t (h !! c)) /\
  (forall t row, allowed_row t row = false ->
     exists fc u, row = Some (mk_row fc (Some u)) /\ u <> ""%string /\
                  exists until, Iso.parse_iso u = Some until /\ t < until).
Proof.
  split; [|split].
  - intros t [m|row]; [left; exists m|right; exists row]; auto.
  - intros t c h. exists (allowed_row t (h !! c)). auto.
  - intros t [[fc [u|]]|]; unfold allowed_row; simpl; try discriminate.
    destruct (String.eqb u "") eqn:E; [discriminate|]. apply String.eqb_neq in E.
    destruct (Iso.parse_iso u) as [until|] eqn:P; [|discriminate].
    intros H. exists fc, u. split; [reflexivity|]. split; [exact E|].
    exists until. split; [exact P|]. apply bool_decide_eq_false in H. lia.
Qed.

(** *** The threshold of the circuit breaker *)

(** C3 (code bug).  With CB_FAILS_THRESHOLD = 1, the first [centre_fail] of a
    centre that has no row yet goes through the INSERT branch, which writes
    [fail_count = 1] and no cooldown without comparing with the threshold.
    After that one failure, [centre_allowed] still answers true, at any
    instant. *)
Theorem centre_fail_threshold_one C c t t' h :
  h !! c = None ->
  fail_at 1 C c [t] h !! c = Some (mk_row 1 None) /\
  centre_allowed t' c (fail_at 1 C c [t] h) = Health.Ok true.
Proof.
  intros Hc. simpl. unfold centre_fail. rewrite Hc.
  unfold centre_allowed, centre_allowed_q, select. rewrite lookup_insert_eq. auto.
Qed.

(** For a threshold F of at least 2, a centre without a row trips after F
    failures.  After the first F - 1 failures it is still allowed.  The F-th
    failure, at instant t, resets the counter to 0 and sets the cooldown to
    t + CB_COOLDOWN_SEC.  From then on the centre is allowed exactly at the
    instants t' with t + CB_COOLDOWN_SEC <= t'. *)
Theorem breaker_trips_after_F F C c ts t h :
  2 <= F -> h !! c = None -> Z.of_nat (length ts) = F - 1 ->
  (forall t', centre_allowed t' c (fail_at F C c ts h) = Health.Ok true) /\
  fail_at F C c (ts ++ [t]) h !! c = Some (mk_row 0 (Some (Iso.iso_of (t + C)))) /\
  (forall t', centre_allowed t' c (fail_at F C c (ts ++ [t]) h) = Health.Ok (bool_decide (t + C <= t'))).
Proof.
  intros HF Hc Hlen.
  assert (Htrip := centre_fail_trips_after_F F C c ts t h HF Hc Hlen).
  split; [|split; [exact Htrip|]].
  - intros t'. destruct ts as [|t0 ts]; simpl in Hlen; [lia|]. simpl.
    assert (H0 : centre_fail F C t0 c h !! c = Some (mk_row 1 None)).
    { unfold centre_fail. rewrite Hc. by rewrite lookup_insert_eq. }
    unfold centre_allowed, centre_allowed_q, select.
    rewrite (fail_at_below F C c ts _ 1 None H0) by lia. reflexivity.
  - intros t'. unfold centre_allowed, centre_allowed_q, select. rewrite Htrip.
    rewrite allowed_row_iso. reflexivity.
Qed.

(** *** Instances on concrete runs *)





(** The threshold-one breaker on a fresh table. *)
Lemma centre_fail_threshold_one_witness :
  (∅ : table) !! "Elgin"%string = None /\
  fail_at 1 600 "Elgin" [Demo.t0] ∅ !! "Elgin"%string = Some (mk_row 1 None) /\
  centre_allowed Demo.t0 "Elgin" (fail_at 1 600 "Elgin" [Demo.t0] ∅) = Health.Ok true.
Proof.
  split; [reflexivity|].
  apply (centre_fail_threshold_one 600 "Elgin" Demo.t0 Demo.t0 ∅). reflexivity.
Defined.

(** Threshold 3, failures at instants 1, 2 and 3. *)
Lemma breaker_trips_after_F_witness :
  2 <= 3 /\ (∅ : table) !! "Elgin"%string = None /\ Z.of_nat (length [1; 2]) = 3 - 1 /\
  fail_at 3 600 "Elgin" ([1; 2] ++ [3]) ∅ !! "Elgin"%string = Some (mk_row 0 (Some (Iso.iso_of 603))).
Proof.
  split; [lia|]. split; [reflexivity|]. split; [reflexivity|].
  apply (breaker_trips_after_F 3 600 "Elgin" [1; 2] 3 ∅); [lia|reflexivity|reflexivity].
Defined.


(** Job 7: the priority pass tries Elgin only, then the remainder pass runs. *)
Lemma priority_before_remainder_witness :
  pause_all Demo.env_mixed = false /\ stale_job Demo.env_mixed Demo.row0 = false /\
  missing_required_fields Demo.row0 = None /\
  normalize_centres (centres_json Demo.row0) = Ok ["Elgin"; "Wood Green"; "Aberdeen"]%string /\
  exists new_h new_l new_c n1 n2,
    trace (fst (process_job Demo.row0 Demo.env_mixed Demo.st0)) = new_h ++ new_l ++ new_c /\
    tried new_h = take n1 (high_of (CURRENT_PRIORITY_CENTRES Demo.env_mixed)
                              ["Elgin"; "Wood Green"; "Aberdeen"]%string) /\
    tried new_l = take n2 (shuffle Demo.env_mixed 7 (low_of (CURRENT_PRIORITY_CENTRES Demo.env_mixed)
                              ["Elgin"; "Wood Green"; "Aberdeen"]%string)) /\
    tried new_c = [].
Proof.
  assert (H1 : pause_all Demo.env_mixed = false) by reflexivity.
  assert (H2 : stale_job Demo.env_mixed Demo.row0 = false) by (vm_compute; reflexivity).
  assert (H3 : missing_required_fields Demo.row0 = None) by (vm_compute; reflexivity).
  assert (H4 : normalize_centres (centres_json Demo.row0) = Ok ["Elgin"; "Wood Green"; "Aberdeen"]%string)
    by (vm_compute; reflexivity).
  split; [exact H1|]. split; [exact H2|]. split; [exact H3|]. split; [exact H4|].
  pose proof (priority_before_remainder Demo.row0 Demo.env_mixed Demo.st0 _ H1 H2 H3 H4) as H.
  cbv zeta in H.
  destruct (process_job Demo.row0 Demo.env_mixed Demo.st0) as [s' r].
  destruct H as (nh & nl & nc & n1 & n2 & Ht & Hh & Hl & Hc & _).
  exists nh, nl, nc, n1, n2. split; [exact Ht|]. split; [exact Hh|]. split; [exact Hl|exact Hc].
Defined.


(** Job 8 was last updated an hour ago: it is requeued as stale. *)
Lemma stale_requeue_witness :
  pause_all Demo.env_mixed = false /\ stale_job Demo.env_mixed Demo.row_stale = true /\
  trace (fst (process_job Demo.row_stale Demo.env_mixed Demo.st0)) =
  [Status 8 "queued" (SStale (STALE_MINUTES Demo.env_mixed))].
Proof.
  assert (H1 : pause_all Demo.env_mixed = false) by reflexivity.
  assert (H2 : stale_job Demo.env_mixed Demo.row_stale = true) by (vm_compute; reflexivity).
  split; [exact H1|]. split; [exact H2|].
  rewrite (proj1 (stale_requeue Demo.row_stale Demo.env_mixed Demo.st0 H1) H2). reflexivity.
Defined.

(** Job 7 finds Slot1 again, its stored signature: only [slot_unchanged]. *)
Lemma slot_dedup_witness :
  pause_all Demo.env_mixed = false /\ captcha_hit Demo.pass_found = false /\
  truthy_opt (found_slot Demo.pass_found) = true /\
  sigs Demo.st_sig !! 7 = Some "Slot1"%string /\
  trace (fst (conclude Demo.row0 Demo.pass_found Demo.env_mixed Demo.st_sig)) =
  [Status 7 "queued" (SUnchanged "Wood Green")].
Proof.
  assert (H1 : pause_all Demo.env_mixed = false) by reflexivity.
  assert (H2 : captcha_hit Demo.pass_found = false) by reflexivity.
  assert (H3 : truthy_opt (found_slot Demo.pass_found) = true) by reflexivity.
  assert (H4 : sigs Demo.st_sig !! 7 = Some "Slot1"%string) by reflexivity.
  split; [exact H1|]. split; [exact H2|]. split; [exact H3|]. split; [exact H4|].
  pose proof (slot_dedup Demo.row0 Demo.pass_found Demo.env_mixed Demo.st_sig H1 H2 H3) as H.
  cbv zeta in H. destruct H as [H _].
  rewrite (H H4). reflexivity.
Defined.


(** Every Elgin attempt under [env_layout] times out waiting for a locator. *)
Lemma layout_exhaustion_witness :
  pause_all Demo.env_layout = false /\
  snd (dvsa_check_centre Demo.row0 "Elgin" Demo.env_layout Demo.st0) = Ok [] /\
  health (fst (dvsa_check_centre Demo.row0 "Elgin" Demo.env_layout Demo.st0)) =
  centre_fail (CB_FAILS_THRESHOLD Demo.env_layout) (CB_COOLDOWN_SEC Demo.env_layout)
              Demo.t0 "Elgin" ∅.
Proof.
  assert (H1 : pause_all Demo.env_layout = false) by reflexivity.
  split; [exact H1|].
  rewrite (layout_exhaustion Demo.row0 "Elgin" Demo.env_layout Demo.st0 H1); [split; reflexivity| | |].
  - vm_compute. reflexivity.
  - vm_compute. reflexivity.
  - intros k. eexists. split; [reflexivity|]. vm_compute. reflexivity.
Defined.

(** Elgin had two failures already, and the threshold is 3: giving up
    after five layout errors puts Elgin in cooldown. *)
Lemma layout_giveup_marks_centre :
  centre_allowed Demo.t0 "Elgin" (health Demo.st_worn) = Health.Ok true /\
  centre_allowed Demo.t0 "Elgin"
    (health (fst (dvsa_check_centre Demo.row0 "Elgin" Demo.env_layout Demo.st_worn))) =
  Health.Ok false.
Proof. split; vm_compute; reflexivity. Defined.

(** A challenge page at Aberdeen on the first attempt. *)
Lemma single_captcha_signal_witness :
  snd (attempts_from Demo.row0 "Aberdeen" 1 5 Demo.env_mixed Demo.st0) = Err ECaptcha.
Proof.
  generalize (proj2 (proj2 single_captcha_signal) Demo.row0 "Aberdeen"%string 1%nat 4%nat
                Demo.env_mixed Demo.st0 eq_refl).
  destruct (attempts_from Demo.row0 "Aberdeen" 1 5 Demo.env_mixed Demo.st0) as [s' r].
  intros [Hr _]. exact Hr.
Defined.

(** A page saying "unusual traffic" is a traffic block, yet the guard
    raises [CaptchaDetected] for it, and the worker's handling of that
    signal pages the owner. *)
Lemma unusual_traffic_is_captcha :
  Client.captcha_guard "<p>Our systems have detected unusual traffic</p>" "https://example.test/book" =
  Some (Client.CaptchaDetected "https://example.test/book") /\
  In (Alert "LIC123" "Aberdeen") (trace (fst (process_job Demo.row0 Demo.env_mixed Demo.st0))).
Proof.
  split; [vm_compute; reflexivity|].
  vm_compute. repeat (first [left; reflexivity | right]).
Defined.

(** A cooldown row ending half an hour after [t0] blocks at [t0], through
    the parsed instant of its cooldown. *)
Lemma breaker_fail_open_witness :
  allowed_row Demo.t0 (Some (mk_row 0 (Some (Iso.iso_of (Demo.t0 + 1800))))) = false /\
  exists until, Iso.parse_iso (Iso.iso_of (Demo.t0 + 1800)) = Some until /\ Demo.t0 < until.
Proof.
  assert (H : allowed_row Demo.t0 (Some (mk_row 0 (Some (Iso.iso_of (Demo.t0 + 1800))))) = false)
    by (vm_compute; reflexivity).
  split; [exact H|].
  destruct (proj2 (proj2 breaker_fail_open) Demo.t0 _ H) as (fc & u & Hr & _ & until & Hp & Hlt).
  injection Hr as _ Hu. subst u. exists until. split; [exact Hp|exact Hlt].
Defined.

(** A locked database makes both checks raise. *)
Lemma locked_db_raises :
  centre_allowed_q Demo.t0 (QErr "database is locked") = Health.Raise "database is locked" /\
  global_allowed_q Demo.t0 (QErr "database is locked") = Health.Raise "database is locked".
Proof. split; reflexivity. Defined.

End Facts.

(* ================================================================== *)
(** ** Further properties of the worker's helpers and of the gateway *)
(* ================================================================== *)

Module Extra.
Import Worker Util Gateway.

Local Arguments String.append : simpl nomatch.

Ltac keyed_concrete :=
  cbv [keyed Sample.db0 Sample.tbl0 Sample.tbl_disabled searches];
  repeat (apply map_Forall_insert_2; [reflexivity|]); apply map_Forall_empty.


(** *** Text lemmas *)

Lemma str_app_nil s : (s ++ "")%string = s.
Proof. induction s as [|a r IH]; simpl; [reflexivity|now rewrite IH]. Qed.

Lemma str_app_assoc x y z : (x ++ (y ++ z))%string = ((x ++ y) ++ z)%string.
Proof. induction x as [|a r IH]; simpl; [reflexivity|now rewrite IH]. Qed.

Lemma rev_app_app s t u : String.rev_app s (t ++ u)%string = (String.rev_app s t ++ u)%string.
Proof. revert t. induction s as [|a r IH]; intros t; simpl; [reflexivity|]. apply (IH (String a t)). Qed.

Lemma rev_cons a r : String.rev (String a r) = (String.rev r ++ String a EmptyString)%string.
Proof. unfold String.rev. simpl. rewrite <- rev_app_app. reflexivity. Qed.

Lemma rev_append x y : String.rev (x ++ y)%string = (String.rev y ++ String.rev x)%string.
Proof.
  induction x as [|a r IH]; simpl.
  - unfold String.rev at 3. simpl. now rewrite str_app_nil.
  - rewrite !rev_cons, IH. now rewrite str_app_assoc.
Qed.

Lemma rev_involutive s : String.rev (String.rev s) = s.
Proof.
  induction s as [|a r IH]; [reflexivity|].
  rewrite rev_cons, rev_append, IH. reflexivity.
Qed.

Lemma digit_not_space a : is_digit a = true -> Ascii.is_space a = false.
Proof. destruct a as [[] [] [] [] [] [] [] []]; vm_compute; congruence. Qed.

Lemma digit_neq a c : is_digit a = true -> is_digit c = false -> Ascii.eqb a c = false.
Proof. intros Ha Hc. apply Ascii.eqb_neq. intros ->. congruence. Qed.

Lemma all_digits_app x y : all_digits (x ++ y) = all_digits x && all_digits y.
Proof. induction x as [|a r IH]; simpl; [reflexivity|]. rewrite IH. now rewrite andb_assoc. Qed.

Lemma all_digits_rev s : all_digits (String.rev s) = all_digits s.
Proof.
  induction s as [|a r IH]; [reflexivity|].
  rewrite rev_cons, all_digits_app, IH. simpl. now rewrite andb_true_r, andb_comm.
Qed.


Lemma lstrip_head_ok s : head_ok s = true -> Py.lstrip s = s.
Proof. destruct s as [|a r]; simpl; [reflexivity|]. now destruct (Ascii.is_space a). Qed.

Lemma strip_id s : head_ok s = true -> head_ok (String.rev s) = true -> Py.strip s = s.
Proof.
  intros H1 H2. unfold Py.strip. rewrite (lstrip_head_ok s H1), (lstrip_head_ok _ H2).
  apply rev_involutive.
Qed.

Lemma head_ok_digits s : all_digits s = true -> head_ok s = true.
Proof.
  destruct s as [|a r]; simpl; [reflexivity|]. intros H.
  apply andb_true_iff in H as [H _]. now rewrite (digit_not_space a H).
Qed.

Lemma strip_digits s : all_digits s = true -> Py.strip s = s.
Proof.
  intros H. apply strip_id; apply head_ok_digits; [exact H|]. now rewrite all_digits_rev.
Qed.

Lemma prefix_nil s : String.prefix "" s = true.
Proof. now destruct s. Qed.

Lemma contains_app_char x y c :
  Py.contains (x ++ y) (String c "") = Py.contains x (String c "") || Py.contains y (String c "").
Proof.
  induction x as [|a r IH]; simpl; [reflexivity|].
  rewrite IH, !prefix_nil. now rewrite orb_assoc.
Qed.

Lemma contains_char_cons a r c :
  Py.contains (String a r) (String c "") = Ascii.eqb a c || Py.contains r (String c "").
Proof.
  simpl. rewrite prefix_nil. f_equal. destruct (ascii_dec c a) as [->|Hne].
  - now rewrite Ascii.eqb_refl.
  - symmetry. apply Ascii.eqb_neq. congruence.
Qed.

Lemma contains_digits s c : all_digits s = true -> is_digit c = false -> Py.contains s (String c "") = false.
Proof.
  induction s as [|a r IH]; intros Hs Hc; [reflexivity|].
  simpl in Hs. apply andb_true_iff in Hs as [Ha Hr].
  rewrite contains_char_cons, (digit_neq a c Ha Hc). simpl. now apply IH.
Qed.

Lemma split_on_nonempty c s : split_on c s <> [].
Proof.
  destruct s as [|a r]; simpl; [discriminate|].
  destruct (Ascii.eqb a c); [discriminate|]. destruct (split_on c r); discriminate.
Qed.

Lemma split_on_app c p q : split_on c (p ++ String c q) = split_on c p ++ split_on c q.
Proof.
  induction p as [|a r IH]; simpl.
  - now rewrite Ascii.eqb_refl.
  - destruct (Ascii.eqb a c); [now rewrite IH|].
    rewrite IH. pose proof (split_on_nonempty c r) as Hn.
    destruct (split_on c r); [congruence|]. reflexivity.
Qed.

Lemma split_on_single c s : Py.contains s (String c "") = false -> split_on c s = [s].
Proof.
  induction s as [|a r IH]; [reflexivity|].
  rewrite contains_char_cons. intros H. apply orb_false_iff in H as [Ha Hr].
  simpl. rewrite Ha, (IH Hr). reflexivity.
Qed.

Lemma split_once_app c x y :
  Py.contains x (String c "") = false -> split_once c (x ++ String c y) = Some (x, y).
Proof.
  induction x as [|a r IH]; intros H; simpl.
  - now rewrite Ascii.eqb_refl.
  - rewrite contains_char_cons in H. apply orb_false_iff in H as [Ha Hr].
    rewrite Ha, (IH Hr). reflexivity.
Qed.

Lemma contains_mid x y c : Py.contains (x ++ String c y) (String c "") = true.
Proof.
  rewrite contains_app_char, contains_char_cons, Ascii.eqb_refl.
  now rewrite orb_true_r.
Qed.

(** *** Decimal numerals read back by [int] *)

Lemma digit_ascii m : (m < 10)%nat ->
  is_digit (ascii_of_nat (48 + m)) = true /\ digit_val (ascii_of_nat (48 + m)) = Z.of_nat m.
Proof.
  intros Hm. unfold is_digit, digit_val. rewrite nat_ascii_embedding by lia.
  split; [apply andb_true_iff; split; apply Nat.leb_le; lia | lia].
Qed.

Lemma all_digits_cons a r : all_digits (String a r) = is_digit a && all_digits r.
Proof. reflexivity. Qed.

Lemma int_tail_digit d r k : is_digit d = true -> int_tail (String d r) k = int_tail r (k * 10 + digit_val d).
Proof. intros H. cbn [int_tail]. now rewrite H. Qed.

Lemma digits_aux_digits f n acc : all_digits acc = true -> all_digits (Py.digits_aux f n acc) = true.
Proof.
  revert n acc. induction f as [|f IH]; intros n acc H; cbn [Py.digits_aux]; [exact H|].
  destruct (digit_ascii (n mod 10) ltac:(apply Nat.mod_upper_bound; lia)) as [Hd _].
  destruct (n / 10 =? 0)%nat; [now rewrite all_digits_cons, Hd, H|].
  apply IH. now rewrite all_digits_cons, Hd, H.
Qed.

Lemma int_tail_digits f n acc k : (n < f)%nat ->
  exists m : nat, int_tail (Py.digits_aux f n acc) k = int_tail acc (k * 10 ^ Z.of_nat m + Z.of_nat n).
Proof.
  revert n acc k. induction f as [|f IH]; intros n acc k Hn; [lia|]. cbn [Py.digits_aux].
  pose proof (Nat.div_mod_eq n 10) as Hdm. pose proof (Nat.mod_upper_bound n 10 ltac:(lia)) as Hr.
  destruct (digit_ascii (n mod 10) Hr) as [Hd Hv].
  destruct (n / 10 =? 0)%nat eqn:Hq.
  - apply Nat.eqb_eq in Hq. exists 1%nat. rewrite int_tail_digit by exact Hd. rewrite Hv. f_equal. lia.
  - apply Nat.eqb_neq in Hq.
    destruct (IH (n / 10)%nat (String (ascii_of_nat (48 + n mod 10)) acc) k) as [m Hm].
    { assert (10 * (n / 10) <= n)%nat by lia. lia. }
    exists (S m). rewrite Hm. rewrite int_tail_digit by exact Hd. rewrite Hv. f_equal.
    rewrite Nat2Z.inj_succ, Z.pow_succ_r by lia. nia.
Qed.

Lemma str_nat_digits n : all_digits (Py.str_nat n) = true.
Proof. apply digits_aux_digits. reflexivity. Qed.

Lemma digits_aux_nonempty f n acc : ((0 < f)%nat \/ acc <> EmptyString) -> Py.digits_aux f n acc <> EmptyString.
Proof.
  revert n acc. induction f as [|f IH]; intros n acc H; cbn [Py.digits_aux].
  - destruct H as [H|H]; [lia|exact H].
  - destruct (n / 10 =? 0)%nat; [discriminate|]. apply IH. right. discriminate.
Qed.

Lemma str_nat_cons n : exists d r, Py.str_nat n = String d r /\ is_digit d = true.
Proof.
  pose proof (str_nat_digits n) as H.
  pose proof (digits_aux_nonempty (S n) n EmptyString ltac:(left; lia)) as Hne.
  unfold Py.str_nat in *. destruct (Py.digits_aux (S n) n EmptyString) as [|d r]; [congruence|].
  rewrite all_digits_cons in H. apply andb_true_iff in H as [Hd _]. eauto.
Qed.

Lemma int_tail_str_nat n : int_tail (Py.str_nat n) 0 = Some (Z.of_nat n).
Proof.
  destruct (int_tail_digits (S n) n EmptyString 0 ltac:(lia)) as [m Hm].
  unfold Py.str_nat. rewrite Hm. reflexivity.
Qed.

Lemma is_digit_minus : is_digit "-"%char = false.
Proof. reflexivity. Qed.
Lemma is_digit_plus : is_digit "+"%char = false.
Proof. reflexivity. Qed.
Lemma is_digit_comma : is_digit ","%char = false.
Proof. reflexivity. Qed.

Lemma py_int_str_nat n : py_int (Py.str_nat n) = Some (Z.of_nat n).
Proof.
  unfold py_int. rewrite (strip_digits _ (str_nat_digits n)).
  pose proof (int_tail_str_nat n) as Ht.
  destruct (str_nat_cons n) as (d & r & Hs & Hd). rewrite Hs in *.
  rewrite (digit_neq _ _ Hd is_digit_minus), (digit_neq _ _ Hd is_digit_plus), Hd.
  rewrite int_tail_digit in Ht by exact Hd. rewrite Z.mul_0_l, Z.add_0_l in Ht.
  rewrite Ht. simpl. f_equal. lia.
Qed.

Lemma head_ok_digits_app u v : all_digits u = true -> u <> EmptyString -> head_ok (u ++ v) = true.
Proof.
  destruct u as [|a r]; [congruence|]. intros H _. simpl.
  rewrite all_digits_cons in H. apply andb_true_iff in H as [H _]. now rewrite (digit_not_space a H).
Qed.

Lemma rev_nonempty s : s <> EmptyString -> String.rev s <> EmptyString.
Proof.
  destruct s as [|a r]; [congruence|]. intros _. rewrite rev_cons.
  destruct (String.rev r); discriminate.
Qed.

Lemma collect_parts_app x y : collect_parts (x ++ y) = collect_parts x ++ collect_parts y.
Proof.
  induction x as [|p r IH]; [reflexivity|]. simpl. rewrite IH. now destruct (parse_part p).
Qed.

Lemma parse_quiet_hours_comma p q :
  parse_quiet_hours (p ++ "," ++ q)%string = parse_quiet_hours p ++ parse_quiet_hours q.
Proof. unfold parse_quiet_hours. simpl. rewrite split_on_app. apply collect_parts_app. Qed.

Lemma fmt_window_shape a b :
  fmt_window (a, b) = (Py.str_nat a ++ String "-" (Py.str_nat b))%string.
Proof. reflexivity. Qed.

Lemma parse_part_window a b : parse_part (fmt_window (a, b)) = Some (Z.of_nat a, Z.of_nat b).
Proof.
  rewrite fmt_window_shape. unfold parse_part.
  destruct (str_nat_cons a) as (da & ra & Ha & Hda).
  destruct (str_nat_cons b) as (db & rb & Hb & Hdb).
  assert (Hstrip : Py.strip (Py.str_nat a ++ String "-" (Py.str_nat b)) = (Py.str_nat a ++ String "-" (Py.str_nat b))%string).
  { apply strip_id.
    - apply head_ok_digits_app; [apply str_nat_digits|]. rewrite Ha. discriminate.
    - rewrite rev_append, rev_cons, <- str_app_assoc. apply head_ok_digits_app.
      + rewrite all_digits_rev. apply str_nat_digits.
      + apply rev_nonempty. rewrite Hb. discriminate. }
  rewrite Hstrip, contains_mid.
  rewrite split_once_app by (apply contains_digits; [apply str_nat_digits|reflexivity]).
  rewrite !py_int_str_nat. rewrite Ha. reflexivity.
Qed.

Lemma parse_window a b : parse_quiet_hours (fmt_window (a, b)) = [(Z.of_nat a, Z.of_nat b)].
Proof.
  unfold parse_quiet_hours. rewrite split_on_single.
  - simpl. now rewrite parse_part_window.
  - rewrite fmt_window_shape, contains_app_char, contains_char_cons.
    rewrite !contains_digits by (apply str_nat_digits || reflexivity). reflexivity.
Qed.

(** *** Quiet hours *)

(** [_parse_quiet_hours] reads back every list of windows written as
    [",".join(f"{a}-{b}" ...)], in order and with duplicates. *)
Theorem parse_quiet_hours_roundtrip ws :
  parse_quiet_hours (quiet_spec ws) = map (fun w => (Z.of_nat (fst w), Z.of_nat (snd w))) ws.
Proof.
  induction ws as [|[a b] r IH]; [reflexivity|].
  destruct r as [|w r].
  - apply parse_window.
  - change (quiet_spec ((a, b) :: w :: r)) with (fmt_window (a, b) ++ "," ++ quiet_spec (w :: r))%string.
    rewrite parse_quiet_hours_comma, parse_window, IH. reflexivity.
Qed.

(** Joining two [QUIET_HOURS] values with a comma makes the hour quiet
    exactly when one of them does. *)
Theorem is_quiet_now_comma p q now_h :
  is_quiet_now (p ++ "," ++ q)%string now_h = is_quiet_now p now_h || is_quiet_now q now_h.
Proof.
  unfold is_quiet_now. rewrite parse_quiet_hours_comma, existsb_app.
  assert (He : forall x, String.eqb x "" = true -> parse_quiet_hours x = []).
  { intros x Hx. apply String.eqb_eq in Hx. now subst x. }
  destruct (String.eqb p "") eqn:Hp; [rewrite (He p Hp)|];
  destruct (String.eqb q "") eqn:Hq; try rewrite (He q Hq); simpl;
  rewrite ?orb_false_r; destruct p; reflexivity.
Qed.

(** A window ["a-b"] with [a <> b] is quiet exactly at the hours the
    reversed window ["b-a"] is not. *)
Theorem is_quiet_now_reverse a b now_h : a <> b ->
  is_quiet_now (fmt_window (a, b)) now_h = negb (is_quiet_now (fmt_window (b, a)) now_h).
Proof.
  intros Hab. unfold is_quiet_now. rewrite !parse_window.
  rewrite !fmt_window_shape.
  destruct (str_nat_cons a) as (da & ra & Ha & _). destruct (str_nat_cons b) as (db & rb & Hb & _).
  rewrite Ha, Hb. simpl. rewrite !orb_false_r.
  destruct (Z.eqb_spec (Z.of_nat a) (Z.of_nat b)) as [E|_]; [lia|].
  destruct (Z.eqb_spec (Z.of_nat b) (Z.of_nat a)) as [E|_]; [lia|].
  destruct (Z.ltb_spec (Z.of_nat a) (Z.of_nat b)); destruct (Z.ltb_spec (Z.of_nat b) (Z.of_nat a));
  destruct (Z.leb_spec (Z.of_nat a) now_h); destruct (Z.leb_spec (Z.of_nat b) now_h);
  destruct (Z.ltb_spec now_h (Z.of_nat a)); destruct (Z.ltb_spec now_h (Z.of_nat b));
  simpl; try reflexivity; lia.
Qed.

(** A window ["a-a"] makes every hour quiet. *)
Theorem is_quiet_now_same a now_h : is_quiet_now (fmt_window (a, a)) now_h = true.
Proof.
  unfold is_quiet_now. rewrite parse_window, fmt_window_shape.
  destruct (str_nat_cons a) as (da & ra & Ha & _). rewrite Ha. simpl.
  now rewrite Z.eqb_refl.
Qed.

Lemma is_quiet_now_reverse_witness :
  (7 <> 22)%nat /\ is_quiet_now (fmt_window (7, 22)%nat) 23 = negb (is_quiet_now (fmt_window (22, 7)%nat) 23).
Proof. split; [lia|]. apply (is_quiet_now_reverse 7 22 23). lia. Defined.

(** *** Log lines, identities and the alert debounce *)

Lemma contains_char_nil c : Py.contains EmptyString (String c EmptyString) = false.
Proof. reflexivity. Qed.

Lemma first_line_no_nl s : Py.contains (Py.first_line s) (String "010"%char EmptyString) = false.
Proof.
  induction s as [|a r IH]; [reflexivity|]. simpl Py.first_line.
  destruct (Ascii.eqb a "010"%char) eqn:Ha; [reflexivity|].
  rewrite contains_char_cons, Ha. exact IH.
Qed.

Lemma take_str_no_char n s c :
  Py.contains s (String c EmptyString) = false -> Py.contains (Py.take_str n s) (String c EmptyString) = false.
Proof.
  revert s. induction n as [|n IH]; intros [|a r] H; try reflexivity.
  simpl Py.take_str. rewrite contains_char_cons in *. apply orb_false_iff in H as [H1 H2].
  rewrite H1, (IH r H2). reflexivity.
Qed.

Lemma take_str_length n s : (String.length (Py.take_str n s) <= n)%nat.
Proof.
  revert s. induction n as [|n IH]; intros [|a r]; simpl; try lia. specialize (IH r). lia.
Qed.

(** [_human(e)] gives a log text of one line and at most 220 characters,
    whatever the exception's text. *)
Theorem human_one_short_line msg :
  (String.length (human msg) <= 220)%nat /\
  Py.contains (human msg) (String "010"%char EmptyString) = false.
Proof.
  unfold human. split; [apply take_str_length|].
  apply take_str_no_char, first_line_no_nl.
Qed.

Lemma strip_empty : Py.strip EmptyString = EmptyString.
Proof. reflexivity. Qed.

Lemma or_str_nonempty x y : Py.strip x <> EmptyString -> or_str x y = x.
Proof.
  unfold or_str. destruct (String.eqb_spec x "") as [->|_]; [|reflexivity].
  rewrite strip_empty. congruence.
Qed.

Lemma length_nonempty s : String.length s <> 0%nat -> s <> EmptyString.
Proof. now intros H ->. Qed.

(** A job that passes [_missing_required_fields] has as credential
    identity its stripped booking reference (swap jobs) or its stripped
    licence number (other jobs), never the [job<id>] fallback, and the
    identity is not empty. *)
Theorem session_base_validated row :
  missing_required_fields row = None ->
  session_base row =
    (if String.eqb (Py.strip (booking_type row)) "swap"
     then Py.strip (booking_reference row) else Py.strip (licence_number row)) /\
  session_base row <> EmptyString.
Proof.
  unfold missing_required_fields, session_base. intros H.
  destruct (String.eqb_spec (Py.strip (licence_number row)) "") as [_|Hl]; [discriminate|].
  destruct (String.eqb (Py.strip (booking_type row)) "swap").
  - destruct (Nat.eqb_spec (String.length (Py.strip (booking_reference row))) 8) as [Hr|]; [|discriminate].
    assert (Hne : Py.strip (booking_reference row) <> EmptyString) by (apply length_nonempty; lia).
    rewrite (or_str_nonempty _ _ Hne). auto.
  - rewrite (or_str_nonempty _ _ Hl). auto.
Qed.

Lemma session_base_validated_witness :
  missing_required_fields Demo.row0 = None /\
  session_base Demo.row0 = "LIC123"%string /\ session_base Demo.row0 <> EmptyString.
Proof.
  split; [reflexivity|].
  apply (session_base_validated Demo.row0). reflexivity.
Defined.

Ltac mrun := Facts.mrun.

(** Two jobs with the same credential identity share the alert debounce:
    when the first call at [now env1] sends an alert, a second call for
    the other job at [now env2 >= now env1] sends one more alert exactly
    when at least 600 seconds have passed. *)
Theorem captcha_alert_shared_debounce r1 r2 c1 c2 env1 env2 s :
  session_base r1 = session_base r2 ->
  600 <= now env1 - default 0 (alerts s !! session_base r1) ->
  now env1 <= now env2 ->
  let '(s1, _) := send_captcha_alert r1 c1 env1 s in
  let '(s2, _) := send_captcha_alert r2 c2 env2 s1 in
  trace s2 = trace s ++ Alert (session_base r1) c1 ::
     (if bool_decide (now env2 - now env1 < 600) then [] else [Alert (session_base r2) c2]).
Proof.
  intros Hid Hfirst Hle.
  unfold send_captcha_alert. mrun.
  rewrite bool_decide_false by lia. simpl.
  rewrite <- Hid, lookup_insert_eq. simpl.
  case_bool_decide; simpl.
  - reflexivity.
  - now rewrite <- app_assoc.
Qed.

(** Job 7 and job 11 share licence [LIC123]; the second call comes 300
    seconds after the first and sends nothing. *)
Lemma captcha_alert_shared_debounce_witness :
  session_base Demo.row0 = session_base Sample.row_twin /\
  600 <= now (Sample.env_at Demo.t0) - default 0 (alerts Demo.st0 !! session_base Demo.row0) /\
  now (Sample.env_at Demo.t0) <= now (Sample.env_at (Demo.t0 + 300)) /\
  (let '(s1, _) := send_captcha_alert Demo.row0 "Aberdeen" (Sample.env_at Demo.t0) Demo.st0 in
   let '(s2, _) := send_captcha_alert Sample.row_twin "Elgin" (Sample.env_at (Demo.t0 + 300)) s1 in
   trace s2 = trace Demo.st0 ++ Alert (session_base Demo.row0) "Aberdeen" ::
     (if bool_decide (now (Sample.env_at (Demo.t0 + 300)) - now (Sample.env_at Demo.t0) < 600)
      then [] else [Alert (session_base Sample.row_twin) "Elgin"])).
Proof.
  split; [reflexivity|]. split; [vm_compute; congruence|]. split; [simpl; lia|].
  apply captcha_alert_shared_debounce; [reflexivity|vm_compute; congruence|simpl; lia].
Defined.

(** *** Centre lists *)

Lemma words_go_nonempty s : forall cur, (forall w, cur = Some w -> w <> EmptyString) ->
  Forall (fun w => w <> EmptyString) (stdpp.strings.String.words_go cur s).
Proof.
  induction s as [|a r IH]; intros cur Hc; simpl.
  - destruct cur as [w|]; simpl; constructor; [|constructor]. apply rev_nonempty. now apply Hc.
  - destruct (Ascii.is_space a).
    + apply Forall_app. split.
      * destruct cur as [w|]; simpl; constructor; [|constructor]. apply rev_nonempty. now apply Hc.
      * apply IH. discriminate.
    + apply IH. intros w [= <-]. destruct cur; simpl; discriminate.
Qed.

Lemma split_ws_nonempty s : Forall (fun w => w <> EmptyString) (Py.split_ws s).
Proof. apply words_go_nonempty. discriminate. Qed.

Lemma join_sp_nonempty w r : w <> EmptyString -> Py.join_sp (w :: r) <> EmptyString.
Proof. destruct r; simpl; [auto|]. destruct w; [congruence|discriminate]. Qed.

Lemma normalize_one_str s : exists o, normalize_one (JStr s) = Ok o /\
  (match o with Some x => x <> EmptyString | None => True end).
Proof.
  unfold normalize_one, strip_or_empty. simpl.
  destruct (String.eqb s "") eqn:Hs; simpl.
  - exists None. split; [reflexivity|exact I].
  - destruct (String.eqb_spec (Py.strip s) "") as [|Hne]; [exists None; split; [reflexivity|exact I]|].
    pose proof (split_ws_nonempty (Py.strip s)) as Hw.
    destruct (Py.split_ws (Py.strip s)) as [|p0 [|p1 rest]];
      try (eexists; split; [reflexivity|exact Hne]).
    inversion Hw as [|? ? Hp0 Hw']; subst.
    destruct ((Py.lower p0 =? "london")%string || ((Py.lower p0 =? "city")%string
       || ((Py.lower p0 =? "borough")%string || false))).
    + eexists; split; [reflexivity|]. inversion Hw'; subst. now apply join_sp_nonempty.
    + eexists; split; [reflexivity|exact Hne].
Qed.

(** On a [centres_json] that is a list of texts, [normalize_centres]
    never raises; it returns at most as many names as it was given, and
    none of them is empty. *)
Theorem normalize_centres_strings cs :
  exists l, normalize_centres (Some (JList (map JStr cs))) = Ok l /\
    (length l <= length cs)%nat /\ Forall (fun x => x <> EmptyString) l.
Proof.
  unfold normalize_centres. simpl.
  induction cs as [|c r IH]; simpl.
  - exists []. split; [reflexivity|split; [simpl; lia|constructor]].
  - destruct IH as (l & Hl & Hlen & Hall). destruct (normalize_one_str c) as (o & Ho & Hx).
    rewrite Ho, Hl. destruct o as [x|].
    + exists (x :: l). split; [reflexivity|split; [simpl; lia|now constructor]].
    + exists l. split; [reflexivity|split; [lia|exact Hall]].
Qed.

(** *** [strip], [rstrip] and [lower] *)

Lemma lstrip_app u v :
  Py.lstrip (u ++ v) = if String.eqb (Py.lstrip u) "" then Py.lstrip v else (Py.lstrip u ++ v)%string.
Proof.
  induction u as [|a r IH]; simpl; [reflexivity|].
  destruct (Ascii.is_space a); [exact IH|reflexivity].
Qed.

Lemma rev_nil : String.rev EmptyString = EmptyString.
Proof. reflexivity. Qed.

Lemma rev_single a : String.rev (String a EmptyString) = String a EmptyString.
Proof. reflexivity. Qed.

Lemma rev_eq_nil s : String.rev s = EmptyString -> s = EmptyString.
Proof. intros H. rewrite <- (rev_involutive s), H. reflexivity. Qed.

Lemma rstrip_cons a r :
  rstrip (String a r) =
    if String.eqb (rstrip r) "" then (if Ascii.is_space a then EmptyString else String a EmptyString)
    else String a (rstrip r).
Proof.
  unfold rstrip. rewrite rev_cons, lstrip_app.
  destruct (String.eqb_spec (Py.lstrip (String.rev r)) "") as [E|E].
  - rewrite E. simpl. destruct (Ascii.is_space a); reflexivity.
  - destruct (String.eqb_spec (String.rev (Py.lstrip (String.rev r))) "") as [E'|E'].
    + apply rev_eq_nil in E'. congruence.
    + rewrite rev_append. reflexivity.
Qed.

Lemma lstrip_rstrip x : Py.lstrip (rstrip x) = rstrip (Py.lstrip x).
Proof.
  induction x as [|a r IH]; [reflexivity|].
  rewrite rstrip_cons. simpl Py.lstrip at 2.
  destruct (Ascii.is_space a) eqn:Ha.
  - destruct (String.eqb_spec (rstrip r) "") as [E|E].
    + rewrite E in IH. simpl in IH. rewrite <- IH. reflexivity.
    + simpl. rewrite Ha. exact IH.
  - rewrite rstrip_cons. destruct (String.eqb (rstrip r) ""); simpl; rewrite ?Ha; reflexivity.
Qed.

Lemma lstrip_idem x : Py.lstrip (Py.lstrip x) = Py.lstrip x.
Proof.
  induction x as [|a r IH]; [reflexivity|]. simpl.
  destruct (Ascii.is_space a) eqn:Ha; [exact IH|]. simpl. now rewrite Ha.
Qed.

Lemma rstrip_idem x : rstrip (rstrip x) = rstrip x.
Proof. unfold rstrip. now rewrite rev_involutive, lstrip_idem. Qed.

Lemma strip_rstrip_lstrip x : Py.strip x = rstrip (Py.lstrip x).
Proof. reflexivity. Qed.

Lemma strip_idem x : Py.strip (Py.strip x) = Py.strip x.
Proof.
  rewrite !strip_rstrip_lstrip. rewrite lstrip_rstrip, lstrip_idem, rstrip_idem. reflexivity.
Qed.

Lemma strip_of_rstrip x : Py.strip (rstrip x) = Py.strip x.
Proof.
  rewrite !strip_rstrip_lstrip, lstrip_rstrip, rstrip_idem. reflexivity.
Qed.

Lemma is_space_lower a : Ascii.is_space (Py.lower_char a) = Ascii.is_space a.
Proof. destruct a as [[] [] [] [] [] [] [] []]; vm_compute; reflexivity. Qed.

Lemma lower_char_idem a : Py.lower_char (Py.lower_char a) = Py.lower_char a.
Proof. destruct a as [[] [] [] [] [] [] [] []]; vm_compute; reflexivity. Qed.

Lemma lower_char_comma a : Ascii.eqb (Py.lower_char a) ","%char = Ascii.eqb a ","%char.
Proof. destruct a as [[] [] [] [] [] [] [] []]; vm_compute; reflexivity. Qed.

Lemma lower_app x y : Py.lower (x ++ y) = (Py.lower x ++ Py.lower y)%string.
Proof. induction x as [|a r IH]; simpl; [reflexivity|]. now rewrite IH. Qed.

Lemma lower_rev x : Py.lower (String.rev x) = String.rev (Py.lower x).
Proof.
  induction x as [|a r IH]; [reflexivity|]. simpl Py.lower.
  rewrite !rev_cons, lower_app, IH. reflexivity.
Qed.

Lemma lower_lstrip x : Py.lower (Py.lstrip x) = Py.lstrip (Py.lower x).
Proof.
  induction x as [|a r IH]; [reflexivity|]. simpl. rewrite is_space_lower.
  destruct (Ascii.is_space a); [exact IH|reflexivity].
Qed.

Lemma lower_strip x : Py.lower (Py.strip x) = Py.strip (Py.lower x).
Proof.
  unfold Py.strip. rewrite lower_rev, lower_lstrip, lower_rev, lower_lstrip. reflexivity.
Qed.

Lemma lower_idem x : Py.lower (Py.lower x) = Py.lower x.
Proof. induction x as [|a r IH]; simpl; [reflexivity|]. now rewrite lower_char_idem, IH. Qed.

Lemma lower_nil x : Py.lower x = EmptyString <-> x = EmptyString.
Proof. destruct x; simpl; split; congruence. Qed.

Lemma contains_rev x c : Py.contains (String.rev x) (String c EmptyString) = Py.contains x (String c EmptyString).
Proof.
  induction x as [|a r IH]; [reflexivity|].
  rewrite rev_cons, contains_app_char, IH, !contains_char_cons. simpl. rewrite orb_false_r, orb_comm. reflexivity.
Qed.

Lemma contains_lstrip x c :
  Py.contains x (String c EmptyString) = false -> Py.contains (Py.lstrip x) (String c EmptyString) = false.
Proof.
  induction x as [|a r IH]; [reflexivity|]. simpl Py.lstrip. intros H.
  destruct (Ascii.is_space a); [|exact H]. apply IH. rewrite contains_char_cons in H.
  now apply orb_false_iff in H as [_ H].
Qed.

Lemma contains_strip x c :
  Py.contains x (String c EmptyString) = false -> Py.contains (Py.strip x) (String c EmptyString) = false.
Proof.
  intros H. unfold Py.strip. rewrite contains_rev. apply contains_lstrip.
  rewrite contains_rev. now apply contains_lstrip.
Qed.

Lemma contains_lower_comma x :
  Py.contains (Py.lower x) (String ","%char EmptyString) = Py.contains x (String ","%char EmptyString).
Proof.
  induction x as [|a r IH]; [reflexivity|]. simpl Py.lower.
  rewrite !contains_char_cons, lower_char_comma, IH. reflexivity.
Qed.




(** *** Claiming *)

Lemma expire_row_id ts r : s_id (expire_row ts r) = s_id r.
Proof. unfold expire_row. destruct (_ && _ && _); reflexivity. Qed.

Lemma expire_row_paid ts r : s_paid r <> 0 -> expire_row ts r = r.
Proof. intros H. unfold expire_row. rewrite bool_decide_false by exact H. reflexivity. Qed.

Lemma expire_row_paid_eq ts r : s_paid (expire_row ts r) = s_paid r.
Proof. unfold expire_row. destruct (_ && _ && _); reflexivity. Qed.

Lemma claimable_paid c r : claimable c r = true -> s_paid r = 1.
Proof. unfold claimable. intros H. apply andb_true_iff in H as [H _]. now apply bool_decide_eq_true in H. Qed.

Lemma claimable_claimed ts cutoff r : cutoff <= ts -> claimable cutoff (claimed_row ts r) = false.
Proof.
  intros H. unfold claimable, claimed_row. simpl. rewrite (bool_decide_false (ts < cutoff)) by lia.
  now rewrite !andb_false_r.
Qed.

Lemma keyed_expire ts t : keyed t -> keyed (expire_unpaid ts t).
Proof.
  intros H k r Hk. unfold expire_unpaid in Hk. rewrite lookup_fmap in Hk.
  destruct (t !! k) as [r0|] eqn:E; [|discriminate]. simpl in Hk. injection Hk as <-.
  rewrite expire_row_id. exact (H k r0 E).
Qed.

Lemma claim_rows_spec ts cutoff rows : forall t, keyed t -> cutoff <= ts ->
  let '(t', out) := claim_rows ts cutoff rows t in
  keyed t' /\ (length out <= length rows)%nat /\ NoDup (map s_id out) /\
  (forall r, In r out -> exists r0, t !! s_id r = Some r0 /\ claimable cutoff r0 = true /\
                             r = claimed_row ts r0 /\ t' !! s_id r = Some r) /\
  (forall k, ~ In k (map s_id out) -> t' !! k = t !! k).
Proof.
  induction rows as [|x rs IH]; intros t Hk Hc; simpl.
  - split; [exact Hk|]. split; [lia|]. split; [constructor|]. split; [intros r []|]. auto.
  - destruct (t !! s_id x) as [r0|] eqn:Ex; [destruct (claimable cutoff r0) eqn:Hcl|].
    + set (t1 := <[s_id x := claimed_row ts r0]> t).
      assert (Hk1 : keyed t1).
      { unfold t1. apply map_Forall_insert_2; [|exact Hk]. simpl. exact (Hk _ _ Ex). }
      specialize (IH t1 Hk1 Hc). destruct (claim_rows ts cutoff rs t1) as [t' out] eqn:Erec.
      destruct IH as (Hk' & Hlen & Hnd & Hin & Hout).
      assert (Hnot : ~ In (s_id x) (map s_id out)).
      { intros Hi. apply in_map_iff in Hi as (r & Hr & Hri).
        destruct (Hin r Hri) as (r1 & Hr1 & Hcl1 & _). rewrite Hr in Hr1.
        unfold t1 in Hr1. rewrite lookup_insert_eq in Hr1. injection Hr1 as <-.
        rewrite claimable_claimed in Hcl1 by exact Hc. discriminate. }
      assert (Hid : s_id (claimed_row ts r0) = s_id x) by (simpl; exact (Hk _ _ Ex)).
      split; [exact Hk'|]. split; [simpl; lia|]. split.
      { simpl. rewrite (Hk _ _ Ex). constructor; [rewrite list_elem_of_In; exact Hnot|exact Hnd]. }
      split.
      * intros r [<-|Hri].
        -- exists r0. rewrite Hid. split; [exact Ex|]. split; [exact Hcl|]. split; [reflexivity|].
           rewrite (Hout _ Hnot). unfold t1. now rewrite lookup_insert_eq.
        -- destruct (Hin r Hri) as (r1 & Hr1 & Hcl1 & Heq & Hfin).
           exists r1. split; [|auto].
           unfold t1 in Hr1. rewrite lookup_insert_ne in Hr1; [exact Hr1|].
           intros E. apply Hnot. rewrite E. now apply in_map.
      * intros k Hk2. simpl in Hk2. rewrite (Hk _ _ Ex) in Hk2.
        rewrite (Hout k ltac:(tauto)). unfold t1. rewrite lookup_insert_ne; [reflexivity|tauto].
    + specialize (IH t Hk Hc). destruct (claim_rows ts cutoff rs t) as [t' out].
      destruct IH as (? & ? & ? & ? & ?). simpl. repeat split; auto; lia.
    + specialize (IH t Hk Hc). destruct (claim_rows ts cutoff rs t) as [t' out].
      destruct IH as (? & ? & ? & ? & ?). simpl. repeat split; auto; lia.
Qed.

Lemma sql_limit_length lim l : 0 <= lim -> (length (sql_limit lim l) <= Z.to_nat lim)%nat.
Proof.
  intros H. unfold sql_limit. rewrite (proj2 (Z.ltb_ge lim 0) H). rewrite length_take. lia.
Qed.

Lemma lookup_expire ts t k : expire_unpaid ts t !! k = expire_row ts <$> t !! k.
Proof. apply lookup_fmap. Qed.

(** What one [worker_claim] does, in full. *)
Lemma worker_claim_spec S ts lim d : keyed (searches d) ->
  let '(d', items) := worker_claim S ts lim d in
  keyed (searches d') /\ admin_controls d' = admin_controls d /\
  (0 <= lim -> (length items <= Z.to_nat lim)%nat) /\
  NoDup (map s_id items) /\
  (fst (get_controls (mk_db (expire_unpaid ts (searches d)) (admin_controls d))) = true -> items = []) /\
  (forall r, In r items -> exists r0, searches d !! s_id r = Some r0 /\
        claimable (ts - 60 * Z.max 1 S) r0 = true /\ r = claimed_row ts r0 /\
        searches d' !! s_id r = Some r) /\
  (forall k, ~ In k (map s_id items) -> searches d' !! k = expire_row ts <$> searches d !! k).
Proof.
  intros Hk. unfold worker_claim. simpl.
  assert (Hk1 := keyed_expire ts _ Hk).
  destruct (fst (get_controls (mk_db (expire_unpaid ts (searches d)) (admin_controls d)))) eqn:Hp.
  - simpl. split; [exact Hk1|]. split; [reflexivity|]. split; [simpl; lia|]. split; [constructor|].
    split; [auto|]. split; [intros r []|]. intros k _. apply lookup_expire.
  - set (cutoff := ts - 60 * Z.max 1 S).
    set (rows := sql_limit lim _).
    assert (Hc : cutoff <= ts) by (unfold cutoff; lia).
    pose proof (claim_rows_spec ts cutoff rows _ Hk1 Hc) as Hs.
    destruct (claim_rows ts cutoff rows (expire_unpaid ts (searches d))) as [t2 items].
    destruct Hs as (Hk2 & Hlen & Hnd & Hin & Hout). simpl.
    split; [exact Hk2|]. split; [reflexivity|].
    split; [intros Hl; etransitivity; [exact Hlen|]; apply sql_limit_length, Hl|].
    split; [exact Hnd|]. split; [discriminate|]. split.
    + intros r Hr. destruct (Hin r Hr) as (r0 & Hr0 & Hcl & Heq & Hfin).
      rewrite lookup_expire in Hr0.
      destruct (searches d !! s_id r) as [r0'|] eqn:E; [|discriminate]. simpl in Hr0.
      injection Hr0 as Hr0.
      assert (Hpaid : s_paid r0' = 1).
      { rewrite <- (expire_row_paid_eq ts r0'), Hr0. exact (claimable_paid _ _ Hcl). }
      rewrite expire_row_paid in Hr0 by lia. subst r0'.
      exists r0. auto.
    + intros k Hk'. rewrite (Hout k Hk'). apply lookup_expire.
Qed.

(** [worker_claim] hands out no row while the global pause is on, and
    otherwise at most [limit] rows (for a non-negative limit), no row twice, and only rows that were paid and queued, new,
    or searching without an update since the cutoff; each one comes back
    as stored after the claim: [searching], [worker_claimed], updated at
    the claim's instant.  Every other row is left as [_expire_unpaid]
    made it. *)
Theorem worker_claim_items S ts lim d : keyed (searches d) ->
  let '(d', items) := worker_claim S ts lim d in
  (0 <= lim -> (length items <= Z.to_nat lim)%nat) /\
  NoDup (map s_id items) /\
  (forall r, In r items ->
     (exists r0, searches d !! s_id r = Some r0 /\ claimable (ts - 60 * Z.max 1 S) r0 = true) /\
     s_status r = "searching"%string /\ s_last_event r = "worker_claimed"%string /\
     s_updated_at r = Some ts /\ s_paid r = 1 /\ searches d' !! s_id r = Some r) /\
  (forall k, ~ In k (map s_id items) -> searches d' !! k = expire_row ts <$> searches d !! k) /\
  (fst (get_controls d) = true -> items = []).
Proof.
  intros Hk. pose proof (worker_claim_spec S ts lim d Hk) as Hs.
  destruct (worker_claim S ts lim d) as [d' items].
  destruct Hs as (_ & _ & Hlen & Hnd & Hp & Hin & Hout).
  split; [exact Hlen|]. split; [exact Hnd|]. split; [|split; [exact Hout|exact Hp]].
  intros r Hr. destruct (Hin r Hr) as (r0 & Hr0 & Hcl & -> & Hfin).
  split; [eauto|]. simpl. repeat split; auto. exact (claimable_paid _ _ Hcl).
Qed.

(** A claim at instant 1000 with [STALE_SEARCH_MIN=5] and limit 10 on the
    sample table. *)
Lemma worker_claim_items_witness :
  keyed (searches Sample.db0) /\
  let '(d', items) := worker_claim 5 1000 10 Sample.db0 in
  (0 <= 10 -> (length items <= Z.to_nat 10)%nat) /\
  NoDup (map s_id items) /\
  (forall r, In r items ->
     (exists r0, searches Sample.db0 !! s_id r = Some r0 /\ claimable (1000 - 60 * Z.max 1 5) r0 = true) /\
     s_status r = "searching"%string /\ s_last_event r = "worker_claimed"%string /\
     s_updated_at r = Some 1000 /\ s_paid r = 1 /\ searches d' !! s_id r = Some r) /\
  (forall k, ~ In k (map s_id items) -> searches d' !! k = expire_row 1000 <$> searches Sample.db0 !! k) /\
  (fst (get_controls Sample.db0) = true -> items = []).
Proof.
  split; [keyed_concrete|]. apply worker_claim_items. keyed_concrete.
Defined.

(** A search claimed at [ts1] is not handed out again by a later claim
    that comes within [max(1, STALE_SEARCH_MIN)] minutes, when nothing
    rewrote it in between. *)
Theorem worker_claim_no_reclaim S ts1 ts2 lim1 lim2 d :
  keyed (searches d) -> ts1 <= ts2 -> ts2 < ts1 + 60 * Z.max 1 S ->
  let '(d1, items1) := worker_claim S ts1 lim1 d in
  let '(_, items2) := worker_claim S ts2 lim2 d1 in
  forall k, In k (map s_id items1) -> ~ In k (map s_id items2).
Proof.
  intros Hk H1 H2. pose proof (worker_claim_spec S ts1 lim1 d Hk) as Hs1.
  destruct (worker_claim S ts1 lim1 d) as [d1 items1].
  destruct Hs1 as (Hk1 & _ & _ & _ & _ & Hin1 & _).
  pose proof (worker_claim_spec S ts2 lim2 d1 Hk1) as Hs2.
  destruct (worker_claim S ts2 lim2 d1) as [d2 items2].
  destruct Hs2 as (_ & _ & _ & _ & _ & Hin2 & _).
  intros k Hk1' Hk2'.
  apply in_map_iff in Hk1' as (r1 & <- & Hr1). apply in_map_iff in Hk2' as (r2 & Hid & Hr2).
  destruct (Hin1 r1 Hr1) as (r0 & _ & Hcl0 & Heq1 & Hfin1).
  destruct (Hin2 r2 Hr2) as (r3 & Hr3 & Hcl3 & _).
  rewrite Hid, Hfin1 in Hr3. injection Hr3 as <-. rewrite Heq1 in Hcl3.
  unfold claimable, claimed_row in Hcl3. simpl in Hcl3.
  rewrite (bool_decide_false (ts1 < ts2 - 60 * Z.max 1 S)) in Hcl3 by lia.
  rewrite !andb_false_r in Hcl3. discriminate.
Qed.

(** Claims at instants 1000 and 1100 of the sample table. *)
Lemma worker_claim_no_reclaim_witness :
  keyed (searches Sample.db0) /\ 1000 <= 1100 /\ 1100 < 1000 + 60 * Z.max 1 5 /\
  let '(d1, items1) := worker_claim 5 1000 10 Sample.db0 in
  let '(_, items2) := worker_claim 5 1100 10 d1 in
  forall k, In k (map s_id items1) -> ~ In k (map s_id items2).
Proof.
  split; [keyed_concrete|]. split; [lia|]. split; [lia|].
  apply worker_claim_no_reclaim; [keyed_concrete|lia|lia].
Defined.

Lemma seed_fold (js : list job) e : Forall (fun j => last_event j = e) js ->
  forall (m : gmap Z (string * string)) k, ((exists x, m !! k = Some (x, e)) \/ In k (map id js)) ->
  exists x, fold_left (fun (m : gmap Z (string * string)) j => <[id j := (or_str (status j) "searching", last_event j)]> m) js m !! k
            = Some (x, e).
Proof.
  induction js as [|j js IH]; intros Hall m k Hk; simpl.
  - destruct Hk as [Hk|[]]. exact Hk.
  - inversion Hall as [|? ? Hj Hall']; subst. apply IH; [exact Hall'|].
    destruct (Z.eq_dec (id j) k) as [<-|Hne].
    + left. rewrite lookup_insert_eq. eauto.
    + rewrite lookup_insert_ne by exact Hne. simpl in Hk. destruct Hk as [Hk|[E|Hk]]; auto; congruence.
Qed.

(** A job handed out by [worker_claim] at [ts] reaches the worker as not
    stale: [_is_stale] of its [updated_at] is false at every instant up
    to [STALE_MINUTES] minutes after the claim.  Once [run()] has seeded
    [_status_cache] with the batch, its [resume_override] is false. *)
Theorem claimed_jobs_fresh S ts lim d m t' env s :
  keyed (searches d) -> 0 <= m -> ts <= t' <= ts + 60 * m ->
  let '(_, items) := worker_claim S ts lim d in
  Forall (fun r => is_stale t' (or_str (updated_at (job_of r)) (created_at (job_of r))) m = false) items /\
  let '(s', _) := seed_cache (map job_of items) env s in
  Forall (fun r => resume_override (job_of r) env s' = (s', Ok false)) items.
Proof.
  intros Hk Hm Ht. pose proof (worker_claim_spec S ts lim d Hk) as Hs.
  destruct (worker_claim S ts lim d) as [d' items].
  destruct Hs as (_ & _ & _ & _ & _ & Hin & _).
  assert (Hform : forall r, In r items -> s_updated_at r = Some ts /\ s_last_event r = "worker_claimed"%string).
  { intros r Hr. destruct (Hin r Hr) as (r0 & _ & _ & -> & _). auto. }
  split.
  - apply Forall_forall. intros r Hr%list_elem_of_In. destruct (Hform r Hr) as [Hu _].
    unfold job_of. simpl. rewrite Hu. simpl.
    unfold or_str. destruct (String.eqb_spec (Iso.iso_of ts) "") as [E|_].
    { exfalso. exact (Facts.iso_of_nonempty ts E). }
    unfold is_stale, parse_ts. destruct (String.eqb_spec (Iso.iso_of ts) "") as [E|_].
    { exfalso. exact (Facts.iso_of_nonempty ts E). }
    rewrite Facts.parse_iso_of. apply bool_decide_false. lia.
  - unfold seed_cache, mbind, M_bind, get, set_cache. simpl.
    apply Forall_forall. intros r Hr%list_elem_of_In.
    unfold resume_override, mbind, M_bind, get, mret, M_ret. simpl.
    destruct (seed_fold (map job_of items) "worker_claimed"%string) with (m := cache s) (k := s_id r)
      as [x Hx].
    { apply Forall_forall. intros j Hj%list_elem_of_In. apply in_map_iff in Hj as (r' & <- & Hr').
      exact (proj2 (Hform r' Hr')). }
    { right. rewrite map_map. apply in_map_iff. exists r. auto. }
    change (id (job_of r)) with (s_id r). rewrite Hx. reflexivity.
Qed.

(** The batch of a claim at instant 1000, read 200 seconds later with
    [STALE_MINUTES=5]. *)
Lemma claimed_jobs_fresh_witness :
  keyed (searches Sample.db0) /\ 0 <= 5 /\ 1000 <= 1200 <= 1000 + 60 * 5 /\
  let '(_, items) := worker_claim 5 1000 10 Sample.db0 in
  Forall (fun r => is_stale 1200 (or_str (updated_at (job_of r)) (created_at (job_of r))) 5 = false) items /\
  let '(s', _) := seed_cache (map job_of items) Demo.env_mixed Demo.st0 in
  Forall (fun r => resume_override (job_of r) Demo.env_mixed s' = (s', Ok false)) items.
Proof.
  split; [keyed_concrete|]. split; [lia|]. split; [lia|].
  apply claimed_jobs_fresh; [keyed_concrete|lia|lia].
Defined.

(** *** Controls *)

Lemma filter_bool {A} (f : A -> bool) (l : list A) : filter (fun x => f x) l = List.filter f l.
Proof.
  induction l as [|x r IH]; [reflexivity|]. rewrite filter_cons. simpl.
  case_decide as Hd; destruct (f x); simpl in Hd; try contradiction; now rewrite IH.
Qed.

Lemma split_on_join_comma xs : xs <> [] ->
  Forall (fun x => Py.contains x (String ","%char EmptyString) = false) xs ->
  split_on ","%char (join_comma xs) = xs.
Proof.
  induction xs as [|x [|y r] IH]; intros Hne Hall; [congruence| |].
  - inversion Hall; subst. simpl. now apply split_on_single.
  - inversion Hall as [|? ? Hx Hr]; subst.
    change (join_comma (x :: y :: r)) with (x ++ String ","%char (join_comma (y :: r)))%string.
    rewrite split_on_app, split_on_single by exact Hx. rewrite IH; [reflexivity|discriminate|exact Hr].
Qed.

Lemma split_on_no_sep c s : Forall (fun x => Py.contains x (String c EmptyString) = false) (split_on c s).
Proof.
  induction s as [|a r IH]; simpl; [constructor; [reflexivity|constructor]|].
  destruct (Ascii.eqb a c) eqn:Ha; [constructor; [reflexivity|exact IH]|].
  pose proof (split_on_nonempty c r) as Hn.
  destruct (split_on c r) as [|x xs]; [congruence|]. inversion IH as [|? ? Hx Hxs]; subst.
  constructor; [|exact Hxs]. rewrite contains_char_cons, Ha, Hx. reflexivity.
Qed.

Lemma lower_strip_fixed s : Py.strip (Py.lower (Py.strip s)) = Py.lower (Py.strip s).
Proof. rewrite <- lower_strip, strip_idem. reflexivity. Qed.

Lemma lower_strip_nonblank s : Py.strip s <> EmptyString -> Py.lower (Py.strip s) <> EmptyString.
Proof. intros H E. exact (H (proj1 (lower_nil _) E)). Qed.

Lemma strip_nonblank_fixed xs :
  Forall (fun x => Py.strip x = x /\ Py.lower x = x /\ x <> EmptyString) xs -> strip_nonblank xs = xs.
Proof.
  induction xs as [|x r IH]; intros Hall; [reflexivity|]. inversion Hall as [|? ? (Hs & _ & Hn) Hr]; subst.
  specialize (IH Hr). unfold strip_nonblank in *. rewrite filter_bool in *. cbn [List.filter map]. rewrite Hs.
  destruct (String.eqb_spec x "") as [E|_]; [congruence|]. cbn [negb map]. rewrite Hs, IH. reflexivity.
Qed.

Lemma lowered_props ps :
  Forall (fun x => Py.strip x = x /\ Py.lower x = x /\ x <> EmptyString)
    (map (fun s => Py.lower (Py.strip s)) (filter (fun s => negb (String.eqb (Py.strip s) "")) ps)).
Proof.
  induction ps as [|p r IH]; [constructor|]. rewrite filter_bool in *. cbn [List.filter].
  destruct (String.eqb_spec (Py.strip p) "") as [_|Hn]; cbn [negb map]; [exact IH|].
  constructor; [|exact IH]. split; [apply lower_strip_fixed|]. split; [apply lower_idem|].
  now apply lower_strip_nonblank.
Qed.

Lemma lowered_no_comma ps :
  Forall (fun x => Py.contains x (String ","%char EmptyString) = false) ps ->
  Forall (fun x => Py.contains x (String ","%char EmptyString) = false)
    (map (fun s => Py.lower (Py.strip s)) (filter (fun s => negb (String.eqb (Py.strip s) "")) ps)).
Proof.
  induction ps as [|p r IH]; intros Hall; [constructor|]. inversion Hall as [|? ? Hp Hr]; subst.
  rewrite filter_bool in *. cbn [List.filter].
  destruct (String.eqb (Py.strip p) ""); cbn [negb map]; [exact (IH Hr)|].
  constructor; [|exact (IH Hr)]. rewrite contains_lower_comma. now apply contains_strip.
Qed.

Lemma worker_reread xs :
  Forall (fun x => Py.strip x = x /\ Py.lower x = x /\ x <> EmptyString) xs ->
  map (fun x => Py.lower (Py.strip x)) (filter (fun x => negb (String.eqb (Py.strip x) "")) xs) = xs.
Proof.
  induction xs as [|x r IH]; intros Hall; [reflexivity|]. inversion Hall as [|? ? (Hs & Hl & Hn) Hr]; subst.
  rewrite filter_bool in *. cbn [List.filter]. rewrite Hs.
  destruct (String.eqb_spec x "") as [E|_]; [congruence|]. cbn [negb map].
  rewrite IH by exact Hr. now rewrite Hs, Hl.
Qed.

(** What the admin sets through [admin_set_controls] is what the worker
    runs with: the response and every later [worker_controls] give the
    pause flag and the priority entries stripped, lowered and without the
    blank ones, and the worker's controls update adopts both.  This holds
    when the [admin_controls] row exists ([migrate()] inserts it) and no
    list entry holds a comma (the pieces of a text argument never do). *)
Theorem admin_controls_reach_worker p pcs d c :
  admin_controls d <> None ->
  Forall (fun x => Py.contains x (String ","%char EmptyString) = false) (pc_items pcs) ->
  let L := map (fun s => Py.lower (Py.strip s))
               (filter (fun s => negb (String.eqb (Py.strip s) "")) (pc_items pcs)) in
  let '(d', shown) := admin_set_controls (Some p) (Some pcs) d in
  shown = (p, L) /\ worker_controls d' = (p, L) /\
  update_ctrl c (Some (worker_controls d')) =
    mk_ctrl p L (match L with [] => current_priority c | _ => L end).
Proof.
  intros Hrow Hnc L. unfold admin_set_controls, worker_controls, set_controls, get_controls.
  destruct (admin_controls d) as [row|]; [|congruence]. simpl.
  assert (Hg : (negb ((if p then 1 else 0) =? 0), strip_nonblank (split_on ","%char (pc_text pcs))) = (p, L)).
  { f_equal; [now destruct p|]. unfold pc_text, lower_join. fold L.
    destruct L as [|x r] eqn:EL.
    - reflexivity.
    - rewrite <- EL. rewrite split_on_join_comma.
      + apply strip_nonblank_fixed. apply lowered_props.
      + rewrite EL. discriminate.
      + now apply lowered_no_comma. }
  rewrite Hg. split; [reflexivity|]. split; [reflexivity|].
  injection Hg as Hp Hnb. rewrite Hnb, Hp, worker_reread by apply lowered_props. reflexivity.
Qed.

(** The admin pauses everything and sets [" Elgin "], a blank entry and
    ["Wood Green"]. *)
Lemma admin_controls_reach_worker_witness :
  admin_controls Sample.db0 <> None /\
  Forall (fun x => Py.contains x (String ","%char EmptyString) = false)
    (pc_items (PCList [" Elgin "; " "; "Wood Green"]%string)) /\
  let L := map (fun s => Py.lower (Py.strip s))
               (filter (fun s => negb (String.eqb (Py.strip s) "")) (pc_items (PCList [" Elgin "; " "; "Wood Green"]%string))) in
  let '(d', shown) := admin_set_controls (Some true) (Some (PCList [" Elgin "; " "; "Wood Green"]%string)) Sample.db0 in
  shown = (true, L) /\ worker_controls d' = (true, L) /\
  update_ctrl Demo.ctrl0 (Some (worker_controls d')) =
    mk_ctrl true L (match L with [] => current_priority Demo.ctrl0 | _ => L end).
Proof.
  split; [discriminate|]. split; [repeat constructor|].
  apply admin_controls_reach_worker; [discriminate|repeat constructor].
Defined.




Lemma rstrip_app u v :
  rstrip (u ++ v) = if String.eqb (rstrip v) "" then rstrip u else (u ++ rstrip v)%string.
Proof.
  induction u as [|a r IH].
  - simpl. destruct (String.eqb_spec (rstrip v) "") as [E|E]; [exact E|reflexivity].
  - change (String a r ++ v)%string with (String a (r ++ v)).
    rewrite !rstrip_cons, IH.
    destruct (String.eqb_spec (rstrip v) "") as [E|E]; [reflexivity|].
    destruct (String.eqb_spec (r ++ rstrip v)%string "") as [E'|E'].
    + destruct r; [simpl in E'; congruence|discriminate].
    + reflexivity.
Qed.

Lemma contains_rstrip x c :
  Py.contains x (String c EmptyString) = false -> Py.contains (rstrip x) (String c EmptyString) = false.
Proof.
  intros H. unfold rstrip. rewrite contains_rev. apply contains_lstrip. now rewrite contains_rev.
Qed.

Lemma before_str_no_sep y :
  Py.contains y (String "195"%char EmptyString) = false -> before_str flag_sep y = y.
Proof.
  induction y as [|a r IH]; [reflexivity|]. intros H.
  rewrite contains_char_cons in H. apply orb_false_iff in H as [Ha Hr].
  change (before_str flag_sep (String a r))
    with (if String.prefix flag_sep (String a r) then EmptyString else String a (before_str flag_sep r)).
  assert (Hp : String.prefix flag_sep (String a r) = false).
  { unfold flag_sep. change (String.prefix (String "195"%char ?u) (String a r))
      with (if ascii_dec "195"%char a then String.prefix u r else false).
    destruct (ascii_dec "195"%char a) as [<-|_]; [now rewrite Ascii.eqb_refl in Ha|reflexivity]. }
  rewrite Hp, (IH Hr). reflexivity.
Qed.

Lemma strip_prefix_app p x :
  Py.lstrip p = p -> rstrip p = p -> p <> EmptyString ->
  Py.strip (p ++ x) = (p ++ rstrip x)%string.
Proof.
  intros Hl Hr Hn. rewrite strip_rstrip_lstrip, lstrip_app, Hl.
  destruct (String.eqb_spec p "") as [E|_]; [congruence|].
  rewrite rstrip_app, Hr. destruct (String.eqb_spec (rstrip x) "") as [E|_]; [|reflexivity].
  rewrite E, str_app_nil. reflexivity.
Qed.

(** The worker's events as the admin page reads them: for an event made
    of one of the prefixes [_derive_flags] knows and a payload with no
    byte C3, the flags are the prefix's own ([reached] for the four
    search-progress prefixes, [captcha] for [captcha_cooldown:]), and the
    centre shown is the whole stripped payload: the separator literal
    ["Â·"] (C3 82 C2 B7) never occurs in it, so a payload such as
    ["Pinner · no_slots"] (with the client's "·", C2 B7) is not cut. *)
Theorem derive_flags_event p x :
  In p prefixes_with_centre ->
  Py.contains x (String "195"%char EmptyString) = false ->
  derive_flags (p ++ x) =
    (existsb (String.eqb p) reached_prefixes, Py.strip x, String.eqb p "captcha_cooldown:"%string).
Proof.
  intros Hp Hx. unfold derive_flags.
  assert (Hev : Py.strip (p ++ x) = (p ++ rstrip x)%string).
  { apply strip_prefix_app; simpl in Hp;
      repeat (destruct Hp as [<-|Hp]; [reflexivity || discriminate|]); destruct Hp. }
  rewrite Hev.
  transitivity (existsb (String.eqb p) reached_prefixes, Py.strip (before_str flag_sep (rstrip x)),
                String.eqb p "captcha_cooldown:"%string).
  - clear Hev. generalize (rstrip x) as y. intros y. simpl in Hp.
    repeat (destruct Hp as [Hp|Hp]; [subst p; cbn; rewrite ?prefix_nil; reflexivity|]). destruct Hp.
  - rewrite before_str_no_sep by now apply contains_rstrip. now rewrite strip_of_rstrip.
Qed.

(** The client's [checked:Pinner · no_slots]: the admin page shows the
    whole payload as the centre. *)
Lemma derive_flags_event_witness :
  In "checked:"%string prefixes_with_centre /\
  Py.contains Sample.pinner_payload (String "195"%char EmptyString) = false /\
  derive_flags ("checked:" ++ Sample.pinner_payload)%string =
    (existsb (String.eqb "checked:") reached_prefixes, Py.strip Sample.pinner_payload,
     String.eqb "checked:" "captcha_cooldown:"%string).
Proof.
  split; [left; reflexivity|]. split; [reflexivity|].
  apply derive_flags_event; [left; reflexivity|reflexivity].
Defined.

(** *** Amounts *)

Lemma band_ok_iff a b : 0 < b -> b mod 100 = 0 ->
  band_ok a b = true <-> exists k, 0 <= k /\ a = b + 3000 * k.
Proof.
  intros Hb Hb100. unfold band_ok. split.
  - intros H. destruct (a <=? 0) eqn:E1; [discriminate|].
    destruct (a mod 100 =? 0) eqn:E2; [|discriminate]. simpl in H.
    destruct (a <? b) eqn:E3; [discriminate|]. apply Z.eqb_eq in H. apply Z.ltb_ge in E3.
    exists ((a - b) / 3000). split; [apply Z.div_pos; lia|].
    pose proof (Z.div_mod (a - b) 3000 ltac:(lia)). lia.
  - intros (k & Hk & ->).
    assert (E1 : (b + 3000 * k <=? 0) = false) by (apply Z.leb_gt; lia).
    assert (E2 : (b + 3000 * k) mod 100 = 0).
    { pose proof (Z.div_mod b 100 ltac:(lia)) as Hd.
      replace (b + 3000 * k) with ((b / 100 + 30 * k) * 100) by lia. apply Z.mod_mul. lia. }
    assert (E3 : (b + 3000 * k <? b) = false) by (apply Z.ltb_ge; lia).
    rewrite E1, E2, E3. simpl. apply Z.eqb_eq.
    replace (b + 3000 * k - b) with (k * 3000) by lia. apply Z.mod_mul. lia.
Qed.

(** The amounts [pay_create_intent] lets through are exactly 7000 plus a
    multiple of 3000, or 15000 plus a multiple of 3000 (cents).  The
    booking type it infers from an accepted amount is never [None]; it
    is [swap] only for 7000, 10000 and 13000, and [new] for every other
    accepted amount, including those of the 7000 band from 16000 up. *)
Theorem amount_accepted_bands a :
  (amount_accepted a = true <-> exists k, 0 <= k /\ (a = 7000 + 3000 * k \/ a = 15000 + 3000 * k)) /\
  (amount_accepted a = true ->
     (infer_booking_type a = Some "swap"%string /\ (a = 7000 \/ a = 10000 \/ a = 13000)) \/
     (infer_booking_type a = Some "new"%string /\ 15000 <= a)).
Proof.
  assert (Hiff : amount_accepted a = true <->
                 exists k, 0 <= k /\ (a = 7000 + 3000 * k \/ a = 15000 + 3000 * k)).
  { unfold amount_accepted. rewrite orb_true_iff, !band_ok_iff by reflexivity. split.
    - intros [(k & Hk & E)|(k & Hk & E)]; exists k; tauto.
    - intros (k & Hk & [E|E]); [left|right]; exists k; tauto. }
  split; [exact Hiff|]. intros H. apply Hiff in H as (k & Hk & Ha).
  unfold infer_booking_type.
  destruct (Z.leb_spec 15000 a) as [H15|H15].
  - right. split; [reflexivity|lia].
  - left. destruct (Z.leb_spec 7000 a) as [H7|H7]; [|lia]. split; [reflexivity|lia].
Qed.

(** *** Expiry *)

Lemma expire_row_idem ts r : expire_row ts (expire_row ts r) = expire_row ts r.
Proof.
  unfold expire_row. destruct (bool_decide (s_paid r = 0) && _ && _) eqn:E.
  - simpl. rewrite andb_false_r. reflexivity.
  - rewrite E. reflexivity.
Qed.

(** [_expire_unpaid] does its work in one call: a second call at the same
    instant changes nothing, and no row with [paid] set is ever touched,
    whatever its status or [expires_at]. *)
Theorem expire_unpaid_idem ts t :
  expire_unpaid ts (expire_unpaid ts t) = expire_unpaid ts t /\
  (forall k r, t !! k = Some r -> s_paid r <> 0 -> expire_unpaid ts t !! k = Some r).
Proof.
  split.
  - unfold expire_unpaid. rewrite <- map_fmap_compose. apply map_fmap_ext.
    intros i x _. apply expire_row_idem.
  - intros k r Hk Hp. rewrite lookup_expire, Hk. simpl. now rewrite expire_row_paid.
Qed.

(** *** Disabling *)

Lemma claimable_status c r :
  s_status r <> "queued"%string -> s_status r <> "new"%string -> s_status r <> "searching"%string ->
  claimable c r = false.
Proof.
  intros H1 H2 H3. unfold claimable.
  rewrite (proj2 (String.eqb_neq _ _) H1), (proj2 (String.eqb_neq _ _) H2),
          (proj2 (String.eqb_neq _ _) H3).
  simpl. apply andb_false_r.
Qed.

Lemma expire_row_status ts r :
  s_status r <> "pending_payment"%string -> s_status r <> "new"%string -> expire_row ts r = r.
Proof.
  intros H1 H2. unfold expire_row.
  rewrite (proj2 (String.eqb_neq _ _) H1), (proj2 (String.eqb_neq _ _) H2).
  simpl. now rewrite andb_false_r.
Qed.

(** A search that [disable_search] accepted stays disabled through every
    later [worker_claim]: it is never handed out, and its row is left as
    disabled. *)
Theorem disable_search_never_claimed ts sid t t' ctl S ts2 lim :
  keyed t -> disable_search ts sid t = Some t' ->
  let '(d', items) := worker_claim S ts2 lim (mk_db t' ctl) in
  ~ In sid (map s_id items) /\ searches d' !! sid = t' !! sid /\
  exists r, t' !! sid = Some r /\ s_status r = "disabled"%string.
Proof.
  intros Hk Hd. unfold disable_search in Hd.
  destruct (t !! sid) as [r|] eqn:Er; [|discriminate].
  destruct (_ || _); [discriminate|]. injection Hd as <-.
  match goal with |- context [<[sid := ?r1]> t] => set (r1' := r1) end.
  assert (Hid : s_id r1' = sid) by exact (Hk _ _ Er).
  assert (Hk1 : keyed (<[sid := r1']> t)) by (apply map_Forall_insert_2; [exact Hid|exact Hk]).
  assert (Hcl : forall c, claimable c r1' = false) by (intros c; apply claimable_status; discriminate).
  assert (Hex : expire_row ts2 r1' = r1') by (apply expire_row_status; discriminate).
  pose proof (worker_claim_spec S ts2 lim (mk_db (<[sid := r1']> t) ctl) Hk1) as Hs.
  destruct (worker_claim S ts2 lim _) as [d' items].
  destruct Hs as (_ & _ & _ & _ & _ & Hin & Hout). cbn [searches] in Hin, Hout.
  assert (Hni : ~ In sid (map s_id items)).
  { intros Hi. apply in_map_iff in Hi as (x & Hx & Hxi).
    destruct (Hin x Hxi) as (r0 & Hr0 & Hc0 & _). rewrite Hx, lookup_insert_eq in Hr0.
    injection Hr0 as <-. rewrite Hcl in Hc0. discriminate. }
  split; [exact Hni|]. split.
  - rewrite (Hout sid Hni), lookup_insert_eq. simpl. now rewrite Hex.
  - exists r1'. split; [apply lookup_insert_eq|reflexivity].
Qed.

(** Search 1 is disabled at instant 900; a claim at 1000 follows. *)
Lemma disable_search_never_claimed_witness :
  keyed Sample.tbl0 /\ disable_search 900 1 Sample.tbl0 = Some Sample.tbl_disabled /\
  let '(d', items) := worker_claim 5 1000 10 (mk_db Sample.tbl_disabled (Some (mk_ctl 0 ""))) in
  ~ In 1 (map s_id items) /\ searches d' !! 1 = Sample.tbl_disabled !! 1 /\
  exists r, Sample.tbl_disabled !! 1 = Some r /\ s_status r = "disabled"%string.
Proof.
  split; [keyed_concrete|]. split; [vm_compute; reflexivity|].
  apply (disable_search_never_claimed 900 1 Sample.tbl0); [keyed_concrete|vm_compute; reflexivity].
Defined.


(** *** Completeness of a claim *)

Lemma insert_by_perm r l : Permutation (insert_by r l) (r :: l).
Proof.
  induction l as [|x l IH]; simpl; [reflexivity|].
  destruct (before x r); [|reflexivity].
  etransitivity; [apply perm_skip, IH|apply perm_swap].
Qed.

Lemma sort_rows_perm l : Permutation (sort_rows l) l.
Proof.
  induction l as [|r l IH]; simpl; [reflexivity|].
  etransitivity; [apply insert_by_perm|apply perm_skip, IH].
Qed.

Lemma NoDup_map_filter {A B} (f : A -> B) (p : A -> bool) l :
  NoDup (map f l) -> NoDup (map f (List.filter p l)).
Proof.
  induction l as [|x l IH]; simpl; [auto|]. intros H. inversion H as [|? ? Hn Hd]; subst.
  destruct (p x); simpl; [|now apply IH].
  constructor; [|now apply IH]. intros Hi. apply Hn.
  rewrite list_elem_of_In in *. apply in_map_iff in Hi as (y & Hy & Hyi).
  apply filter_In in Hyi as [Hyi _]. rewrite <- Hy. now apply in_map.
Qed.

Lemma claim_rows_complete ts cutoff rows : forall t,
  NoDup (map s_id rows) -> (forall x, In x rows -> t !! s_id x = Some x) ->
  forall x, In x rows -> claimable cutoff x = true ->
  In (claimed_row ts x) (snd (claim_rows ts cutoff rows t)).
Proof.
  induction rows as [|x0 rs IH]; intros t Hnd Hall x Hx Hcl; [destruct Hx|].
  inversion Hnd as [|? ? Hn Hnd']; subst. rewrite list_elem_of_In in Hn.
  simpl. rewrite (Hall x0 (or_introl eq_refl)).
  destruct (claimable cutoff x0) eqn:Hc0.
  - destruct (claim_rows ts cutoff rs (<[s_id x0 := claimed_row ts x0]> t)) as [t' out] eqn:E.
    simpl. destruct Hx as [<-|Hx]; [now left|right].
    assert (Hall' : forall y, In y rs -> <[s_id x0 := claimed_row ts x0]> t !! s_id y = Some y).
    { intros y Hy. rewrite lookup_insert_ne; [now apply Hall; right|].
      intros E'. apply Hn. rewrite E'. now apply in_map. }
    pose proof (IH _ Hnd' Hall' x Hx Hcl) as H. rewrite E in H. exact H.
  - destruct Hx as [<-|Hx]; [congruence|].
    apply IH; auto. intros y Hy. now apply Hall; right.
Qed.

Lemma claim_candidates cutoff t :
  keyed t ->
  let rows := filter (claimable cutoff) (map snd (map_to_list t)) in
  NoDup (map s_id rows) /\ (forall x, In x rows -> t !! s_id x = Some x) /\
  (forall k r, t !! k = Some r -> claimable cutoff r = true -> In r rows) /\
  (length rows <= size t)%nat.
Proof.
  intros Hk rows. unfold rows. rewrite filter_bool.
  assert (Hin : forall x, In x (map snd (map_to_list t)) -> t !! s_id x = Some x).
  { intros x Hx. apply in_map_iff in Hx as ([k y] & Hy & Hky). simpl in Hy. subst y.
    apply list_elem_of_In, elem_of_map_to_list in Hky. rewrite (Hk _ _ Hky). exact Hky. }
  split; [|split; [|split]].
  - apply NoDup_map_filter. rewrite map_map.
    apply NoDup_ListNoDup, NoDup_map_NoDup_ForallPairs; [|apply NoDup_ListNoDup, NoDup_map_to_list].
    intros [k1 x] [k2 y] H1 H2 E. simpl in E.
    apply list_elem_of_In, elem_of_map_to_list in H1, H2.
    pose proof (Hk _ _ H1) as e1. pose proof (Hk _ _ H2) as e2. simpl in e1, e2.
    assert (k1 = k2) as <- by congruence. rewrite H1 in H2. congruence.
  - intros x Hx. apply filter_In in Hx as [Hx _]. now apply Hin.
  - intros k r Hr Hc. apply filter_In. split; [|exact Hc].
    apply (in_map snd (map_to_list t) (k, r)). apply list_elem_of_In, elem_of_map_to_list, Hr.
  - etransitivity; [apply filter_length_le|]. rewrite length_map, length_map_to_list. lia.
Qed.

(** The helper behind completeness: with the pause off and a limit that
    covers the table, every row claimable at the cutoff is claimed. *)
Lemma worker_claim_takes S ts lim d k r :
  keyed (searches d) -> fst (get_controls d) = false ->
  (lim < 0 \/ Z.of_nat (size (searches d)) <= lim) ->
  searches d !! k = Some r -> claimable (ts - 60 * Z.max 1 S) r = true ->
  let '(d', items) := worker_claim S ts lim d in
  In (claimed_row ts r) items /\ searches d' !! k = Some (claimed_row ts r).
Proof.
  intros Hk Hp Hlim Hr Hc. unfold worker_claim.
  change (get_controls (mk_db (expire_unpaid ts (searches d)) (admin_controls d))) with (get_controls d).
  rewrite Hp. set (t1 := expire_unpaid ts (searches d)). set (cutoff := ts - 60 * Z.max 1 S).
  assert (Hk1 : keyed t1) by now apply keyed_expire.
  assert (Hr1 : t1 !! k = Some r).
  { unfold t1. rewrite lookup_expire, Hr. simpl. rewrite expire_row_paid; [reflexivity|].
    rewrite (claimable_paid _ _ Hc). lia. }
  destruct (claim_candidates cutoff t1 Hk1) as (Hnd & Hall & Hmem & Hlen).
  set (rows0 := filter (claimable cutoff) (map snd (map_to_list t1))) in *.
  assert (Hrows : sql_limit lim (sort_rows rows0) = sort_rows rows0).
  { unfold sql_limit. destruct (Z.ltb_spec lim 0) as [_|Hl]; [reflexivity|].
    apply take_ge. rewrite (Permutation_length (sort_rows_perm rows0)).
    unfold t1, expire_unpaid in Hlen. rewrite map_size_fmap in Hlen. lia. }
  rewrite Hrows. pose proof (sort_rows_perm rows0) as Hperm.
  assert (Hnd' : NoDup (map s_id (sort_rows rows0))).
  { apply NoDup_ListNoDup. eapply Permutation_NoDup; [symmetry; apply Permutation_map, Hperm|].
    apply NoDup_ListNoDup, Hnd. }
  assert (Hall' : forall x, In x (sort_rows rows0) -> t1 !! s_id x = Some x).
  { intros x Hx. apply Hall. eapply Permutation_in; [exact Hperm|exact Hx]. }
  assert (Hin : In r (sort_rows rows0)).
  { eapply Permutation_in; [symmetry; exact Hperm|]. exact (Hmem k r Hr1 Hc). }
  pose proof (claim_rows_complete ts cutoff _ t1 Hnd' Hall' r Hin Hc) as Hcl.
  assert (Hcut : cutoff <= ts) by (unfold cutoff; lia).
  pose proof (claim_rows_spec ts cutoff (sort_rows rows0) t1 Hk1 Hcut) as Hs.
  destruct (claim_rows ts cutoff (sort_rows rows0) t1) as [t2 items]. simpl in Hcl |- *.
  destruct Hs as (_ & _ & _ & Hst & _). split; [exact Hcl|].
  destruct (Hst _ Hcl) as (_ & _ & _ & _ & Hfin). simpl in Hfin.
  rewrite (Hk _ _ Hr) in Hfin. exact Hfin.
Qed.

(** When the pause is off and the limit covers the table (or is negative),
    [worker_claim] hands out every row that is claimable at its cutoff,
    after [_expire_unpaid], and stores it as claimed. *)
Theorem worker_claim_complete S ts lim d k r :
  keyed (searches d) -> fst (get_controls d) = false ->
  (lim < 0 \/ Z.of_nat (size (searches d)) <= lim) ->
  searches d !! k = Some r -> claimable (ts - 60 * Z.max 1 S) r = true ->
  let '(d', items) := worker_claim S ts lim d in
  In (claimed_row ts r) items /\ searches d' !! k = Some (claimed_row ts r).
Proof. exact (worker_claim_takes S ts lim d k r). Qed.


(** *** Payment *)

(** A succeeded payment puts a search back in the queue, whatever state it
    was in ([booked], [failed], [disabled] and [expired] included):
    [stripe_webhook] calls [_mark_paid_and_queue] on every
    [payment_intent.succeeded] it receives, and the next [worker_claim]
    with the pause off and a limit covering the table hands the search
    out, paid, [searching], with the payment intent of that event. *)
Theorem paid_search_claimed ts sid pi label rcv d r S ts2 lim :
  keyed (searches d) -> searches d !! sid = Some r -> fst (get_controls d) = false ->
  (lim < 0 \/ Z.of_nat (size (searches d)) <= lim) ->
  let d1 := mk_db (mark_paid_and_queue ts sid pi label rcv (searches d)) (admin_controls d) in
  let '(d', items) := worker_claim S ts2 lim d1 in
  exists r', In r' items /\ s_id r' = sid /\ searches d' !! sid = Some r' /\
    s_status r' = "searching"%string /\ s_paid r' = 1 /\ s_payment_intent_id r' = pi.
Proof.
  intros Hk Hr Hp Hlim d1. unfold d1, mark_paid_and_queue. rewrite Hr.
  match goal with |- context [<[sid := ?r1]> (searches d)] => set (r1' := r1) end.
  assert (Hid : s_id r1' = sid) by exact (Hk _ _ Hr).
  assert (Hk1 : keyed (<[sid := r1']> (searches d))) by (apply map_Forall_insert_2; [exact Hid|exact Hk]).
  assert (Hc : claimable (ts2 - 60 * Z.max 1 S) r1' = true).
  { unfold claimable. reflexivity. }
  assert (Hsz : size (<[sid := r1']> (searches d)) = size (searches d))
    by (apply map_size_insert_Some; eexists; exact Hr).
  pose proof (worker_claim_takes S ts2 lim (mk_db (<[sid := r1']> (searches d)) (admin_controls d))
                sid r1' Hk1 Hp ltac:(simpl; rewrite Hsz; exact Hlim)
                ltac:(apply lookup_insert_eq) Hc) as Hw.
  destruct (worker_claim S ts2 lim _) as [d' items].
  destruct Hw as [Hin Hst]. exists (claimed_row ts2 r1').
  split; [exact Hin|]. split; [exact Hid|]. split; [exact Hst|]. auto.
Qed.

(** Search 4 is booked; a replayed [payment_intent.succeeded] at instant
    900 puts it back, and the claim at 1000 hands it out. *)
Lemma paid_search_claimed_witness :
  keyed (searches Sample.db0) /\
  searches Sample.db0 !! 4 = Some (Sample.row_at 4 "booked" 1 (Some 30) None) /\
  fst (get_controls Sample.db0) = false /\
  (-1 < 0 \/ Z.of_nat (size (searches Sample.db0)) <= -1) /\
  let d1 := mk_db (mark_paid_and_queue 900 4 "pi_4" "payment_intent.succeeded" 7000 (searches Sample.db0))
                  (admin_controls Sample.db0) in
  let '(d', items) := worker_claim 5 1000 (-1) d1 in
  exists r', In r' items /\ s_id r' = 4 /\ searches d' !! 4 = Some r' /\
    s_status r' = "searching"%string /\ s_paid r' = 1 /\ s_payment_intent_id r' = "pi_4"%string.
Proof.
  split; [keyed_concrete|]. split; [reflexivity|]. split; [reflexivity|]. split; [left; lia|].
  apply (paid_search_claimed 900 4 "pi_4" "payment_intent.succeeded" 7000 Sample.db0
           (Sample.row_at 4 "booked" 1 (Some 30) None)); [keyed_concrete|reflexivity|reflexivity|left; lia].
Defined.

(** Search 2 has been searching since instant 20: a claim at 1000 with no
    limit takes it. *)
Lemma worker_claim_complete_witness :
  keyed (searches Sample.db0) /\ fst (get_controls Sample.db0) = false /\
  (-1 < 0 \/ Z.of_nat (size (searches Sample.db0)) <= -1) /\
  searches Sample.db0 !! 2 = Some (Sample.row_at 2 "searching" 1 (Some 20) None) /\
  claimable (1000 - 60 * Z.max 1 5) (Sample.row_at 2 "searching" 1 (Some 20) None) = true /\
  let '(d', items) := worker_claim 5 1000 (-1) Sample.db0 in
  In (claimed_row 1000 (Sample.row_at 2 "searching" 1 (Some 20) None)) items /\
  searches d' !! 2 = Some (claimed_row 1000 (Sample.row_at 2 "searching" 1 (Some 20) None)).
Proof.
  split; [keyed_concrete|]. split; [reflexivity|]. split; [left; lia|].
  split; [reflexivity|]. split; [reflexivity|].
  apply worker_claim_complete; [keyed_concrete|reflexivity|left; lia|reflexivity|reflexivity].
Defined.


(** *** Retries *)

Ltac run_calls call Herr Hok :=
  repeat (cbn [post_loop get_loop];
          match goal with
          | |- context [call ?j] =>
              first [ rewrite Hok
                    | let e := fresh "e" in let He := fresh "He" in
                      destruct (Herr j ltac:(lia)) as [e He]; rewrite He ]
          end).

(** [_api_post] makes at most six attempts.  When attempt [k] is the first
    to succeed, the call returns its JSON after the first [k] sleeps of
    the schedule 250, 500, 1000, 2000, 2500, 2500 ms (each plus up to
    0.2 s at random), having logged only the first failure.  When all six
    fail, it logs the first and the sixth, sleeps the whole schedule (the
    last sleep comes after the last attempt) and raises the sixth error.
    [_api_get] makes at most three attempts, sleeps 300, 600 and 900 ms
    without logging, and raises the third error. *)
Theorem api_retry_schedule {A E} (API_BASE : string) (call : nat -> A + E) :
  API_BASE <> EmptyString ->
  (forall k a, (k < 6)%nat -> (forall i, (i < k)%nat -> exists e, call i = inr e) -> call k = inl a ->
     snd (api_post API_BASE call) = ApiOk a /\
     api_sleeps (fst (api_post API_BASE call)) = take k [250; 500; 1000; 2000; 2500; 2500] /\
     api_logs (fst (api_post API_BASE call)) = (if (k =? 0)%nat then [] else [1%nat])) /\
  ((forall i, (i < 6)%nat -> exists e, call i = inr e) ->
     exists e, call 5%nat = inr e /\
       api_post API_BASE call =
         ([ApiLog 1; ApiSleep 250; ApiSleep 500; ApiSleep 1000; ApiSleep 2000; ApiSleep 2500;
           ApiLog 6; ApiSleep 2500], ApiRaise (Some e))) /\
  ((forall i, (i < 3)%nat -> exists e, call i = inr e) ->
     exists e, call 2%nat = inr e /\
       api_get API_BASE call = ([ApiSleep 300; ApiSleep 600; ApiSleep 900], ApiRaise (Some e))).
Proof.
  intros Hb. unfold api_post, api_get. rewrite (proj2 (String.eqb_neq _ _) Hb).
  split; [|split].
  - intros k a Hk Herr Hok.
    destruct k as [|[|[|[|[|[|k]]]]]]; [..|lia]; run_calls call Herr Hok; auto.
  - intros Herr. destruct (Herr 5%nat ltac:(lia)) as [e5 H5]. exists e5. split; [exact H5|].
    run_calls call Herr H5. reflexivity.
  - intros Herr. destruct (Herr 2%nat ltac:(lia)) as [e2 H2]. exists e2. split; [exact H2|].
    run_calls call Herr H2. reflexivity.
Qed.

(** Every request times out. *)
Lemma api_retry_schedule_witness :
  "https://api.example"%string <> EmptyString /\
  api_post (A:=nat) "https://api.example" (fun _ => inr "timeout"%string) =
    ([ApiLog 1; ApiSleep 250; ApiSleep 500; ApiSleep 1000; ApiSleep 2000; ApiSleep 2500;
      ApiLog 6; ApiSleep 2500], ApiRaise (Some "timeout"%string)).
Proof.
  split; [discriminate|].
  destruct (api_retry_schedule (A:=nat) "https://api.example" (fun _ => inr "timeout"%string)
              ltac:(discriminate)) as (_ & H & _).
  destruct (H (fun i _ => ex_intro _ "timeout"%string eq_refl)) as (e & He & Hp).
  injection He as <-. exact Hp.
Defined.


End Extra.
